(** * Scheduling consistency engine: conflict detection, invitations,
      booking dashboard and weekly availability.

    Shallow embedding of the controllers
    [controllers/meetingController.js], [controllers/bookingController.js]
    and [controllers/userController.js] over the Mongoose models of
    [models/]. The document store is an explicit state [DB]; a handler is a
    computation in a state-and-exception monad (a rejected promise is a
    [Throw], and what was written before it stays written). *)

From Stdlib Require Import List String Ascii ZArith Arith Bool Lia.
Import ListNotations.
Open Scope string_scope.
Open Scope list_scope.

Set Implicit Arguments.

(* ------------------------------------------------------------------ *)
(** ** JavaScript strings and numbers *)

Module Js.

(** [s.includes(c)] for a one-character needle. *)
Fixpoint includes (c : ascii) (s : string) : bool :=
  match s with
  | EmptyString => false
  | String a r => Ascii.eqb a c || includes c r
  end.

(** [s.split(sep)] for a one-character separator. *)
Fixpoint split (sep : ascii) (s : string) : list string :=
  match s with
  | EmptyString => [EmptyString]
  | String c r =>
      if Ascii.eqb c sep then EmptyString :: split sep r
      else match split sep r with
           | h :: t => String c h :: t
           | [] => [String c EmptyString]
           end
  end.

Definition isDigit (c : ascii) : bool :=
  (48 <=? nat_of_ascii c)%nat && (nat_of_ascii c <=? 57)%nat.

Fixpoint digits (s : string) (acc : Z) : option Z :=
  match s with
  | EmptyString => Some acc
  | String c r =>
      if isDigit c
      then digits r (acc * 10 + Z.of_nat (nat_of_ascii c - 48))%Z
      else None
  end.

(** [Number(s)] on the strings the application stores in date and time
    fields: a run of decimal digits is its value, the empty string is 0.
    [None] stands for NaN (and for [undefined], which arithmetic turns
    into NaN). Signs, blanks, fractions and exponents are outside the
    model. *)
Definition Number (s : string) : option Z := digits s 0.

Definition lowerChar (c : ascii) : ascii :=
  let n := nat_of_ascii c in
  if (65 <=? n)%nat && (n <=? 90)%nat then ascii_of_nat (n + 32) else c.

(** [s.toLowerCase()] on ASCII. *)
Fixpoint toLowerCase (s : string) : string :=
  match s with
  | EmptyString => EmptyString
  | String c r => String (lowerChar c) (toLowerCase r)
  end.

(** Truthiness of a string: only the empty string is falsy. *)
Definition truthy (s : string) : bool := negb (String.eqb s "").

(** The white space of [s.trim()] within ASCII: tab, line feed, vertical
    tab, form feed, carriage return and space. *)
Definition isSpace (c : ascii) : bool :=
  let n := nat_of_ascii c in
  ((9 <=? n)%nat && (n <=? 13)%nat) || (n =? 32)%nat.

Fixpoint trimStart (s : string) : string :=
  match s with
  | EmptyString => EmptyString
  | String c r => if isSpace c then trimStart r else s
  end.

Fixpoint trimEnd (s : string) : string :=
  match s with
  | EmptyString => EmptyString
  | String c r =>
      match trimEnd r with
      | EmptyString => if isSpace c then EmptyString else String c EmptyString
      | r' => String c r'
      end
  end.

(** [s.trim()] on ASCII. *)
Definition trim (s : string) : string := trimEnd (trimStart s).

End Js.

(* ------------------------------------------------------------------ *)
(** ** Dates

    A [Date] is [Some ms], milliseconds of naive local time since
    1970-01-01T00:00 local, or [None] for an Invalid Date. The local zone
    is taken to have a fixed offset (no daylight-saving jumps), so local
    wall-clock arithmetic is linear. *)

Module JsDate.

Open Scope Z_scope.

Definition Date := option Z.

Definition msPerMinute : Z := 60000.
Definition msPerHour : Z := 3600000.
Definition msPerDay : Z := 86400000.

(** Days from 1970-01-01 to the first of month [m] (1..12) of year [y],
    plus [d - 1]. *)
Definition daysFromCivil (y m d : Z) : Z :=
  let y' := if m <=? 2 then y - 1 else y in
  let era := y' / 400 in
  let yoe := y' - era * 400 in
  let mp := (m + 9) mod 12 in
  let doy := (153 * mp + 2) / 5 + d - 1 in
  let doe := yoe * 365 + yoe / 4 - yoe / 100 + doy in
  era * 146097 + doe - 719468.

(** ECMAScript MakeDay: the month (0-based) may lie outside 0..11 and
    the day outside the month; both carry over. *)
Definition MakeDay (year month date : Z) : Z :=
  daysFromCivil (year + month / 12) (month mod 12 + 1) date.

(** TimeClip: a time value beyond 8.64e15 ms is invalid. *)
Definition TimeClip (t : Z) : Date :=
  if Z.abs t <=? 8640000000000000 then Some t else None.

(** [new Date(year, monthIndex, day, hours, minutes)]; a year 0..99 is
    taken as 1900 + year. Any NaN argument gives an Invalid Date. *)
Definition ofParts (year monthIndex day hours minutes : option Z) : Date :=
  match year, monthIndex, day, hours, minutes with
  | Some y, Some m, Some d, Some h, Some mi =>
      let y' := if (0 <=? y) && (y <=? 99) then 1900 + y else y in
      TimeClip (MakeDay y' m d * msPerDay + h * msPerHour + mi * msPerMinute)
  | _, _, _, _, _ => None
  end.

(** [new Date(year, monthIndex, day)]. *)
Definition ofYMD (year monthIndex day : option Z) : Date :=
  ofParts year monthIndex day (Some 0) (Some 0).

Definition charAt (s : string) (i : nat) (c : ascii) : bool :=
  match String.get i s with
  | Some a => Ascii.eqb a c
  | None => false
  end.

(** [new Date(s)] for the date-time form [YYYY-MM-DDTHH:MM], which is
    read as local time. The month must be 01..12, the day 01..31, the
    hour 00..23 (or 24:00), the minute 00..59; a day past the end of the
    month carries over. Every other string is an Invalid Date here: the
    engine's fallback parsing of other shapes is outside the model. *)
Definition parse (s : string) : Date :=
  if (String.length s =? 16)%nat
     && charAt s 4 "-" && charAt s 7 "-" && charAt s 10 "T" && charAt s 13 ":"
  then
    match Js.digits (substring 0 4 s) 0, Js.digits (substring 5 2 s) 0,
          Js.digits (substring 8 2 s) 0, Js.digits (substring 11 2 s) 0,
          Js.digits (substring 14 2 s) 0 with
    | Some y, Some m, Some d, Some h, Some mi =>
        if (1 <=? m) && (m <=? 12) && (1 <=? d) && (d <=? 31) && (mi <=? 59)
           && ((h <=? 23) || ((h =? 24) && (mi =? 0)))
        then TimeClip (MakeDay y (m - 1) d * msPerDay + h * msPerHour
                       + mi * msPerMinute)
        else None
    | _, _, _, _, _ => None
    end
  else None.

(** Relational operators on dates: any comparison with an Invalid Date
    is false. *)
Definition lt (a b : Date) : bool :=
  match a, b with Some x, Some y => x <? y | _, _ => false end.
Definition le (a b : Date) : bool :=
  match a, b with Some x, Some y => x <=? y | _, _ => false end.
Definition gt (a b : Date) : bool := lt b a.
Definition ge (a b : Date) : bool := le b a.

(** [d.setHours(0, 0, 0, 0)]: the start of [d]'s local day. *)
Definition startOfDay (t : Z) : Z := t - t mod msPerDay.

End JsDate.

(* ------------------------------------------------------------------ *)
(** ** Documents *)

(** An ObjectId; only its identity matters. *)
Definition ObjectId := nat.

(** A value used as a user identifier at run time: an ObjectId (as in
    [user._id], [participant.userId], [meeting.hostId]), the string form
    of an ObjectId (as in [req.user.id]), or any other string (such as an
    email address). *)
Inductive JsId : Type :=
| IdObject (o : ObjectId)
| IdString (o : ObjectId)
| OtherString (s : string).

(** [o.toString() === x]: strict equality of a string with an ObjectId
    object is false. *)
Definition toStringEq (o : ObjectId) (x : JsId) : bool :=
  match x with
  | IdString o' => Nat.eqb o o'
  | IdObject _ => false
  | OtherString _ => false
  end.

(** Mongoose casts a filter value to ObjectId; a string that is not an
    id raises a CastError. *)
Definition castId (x : JsId) : option ObjectId :=
  match x with
  | IdObject o => Some o
  | IdString o => Some o
  | OtherString _ => None
  end.

(** Participant and invitation status (schema enum). *)
Inductive Status : Type := pending | accepted | rejected.

Definition Status_eqb (a b : Status) : bool :=
  match a, b with
  | pending, pending | accepted, accepted | rejected, rejected => true
  | _, _ => false
  end.

Record Participant : Type := mkParticipant {
  p_userId : option ObjectId;
  p_email : string;
  p_status : Status;
  p_responseAt : option Z
}.

(** A Meeting document ([models/Meeting.js]); [password],
    [bannerSettings] and the timestamps are left out. *)
Record Meeting : Type := mkMeeting {
  m_id : ObjectId;
  m_hostId : ObjectId;
  m_title : string;
  m_description : string;
  m_date : string;
  m_startTime : string;
  m_endTime : string;
  m_duration : Z;
  m_timezone : string;
  m_meetingLink : string;
  m_status : string;
  m_isActive : bool;
  m_participants : list Participant
}.

Record MeetingInvitation : Type := mkInvitation {
  i_id : ObjectId;
  i_meetingId : ObjectId;
  i_userId : option ObjectId;
  i_email : string;
  i_status : Status
}.

(** An entry of a dashboard list, as the controllers build it: a plain
    object. Only [refreshBookings] sets [invitationId]; the item schema
    of [models/Booking.js] declares no such path, so a stored entry never
    has one (see [castItem]). The [_id] that a stored entry gets and the
    [updatedAt] of the Booking are generated by the persistence layer on
    every save; they are kept apart, in [StoredBooking]. *)
Record MeetingItem : Type := mkItem {
  it_meetingId : ObjectId;
  it_title : string;
  it_date : string;
  it_startTime : string;
  it_endTime : string;
  it_status : Status;
  it_hostId : ObjectId;
  it_isActive : bool;
  it_invitationId : option ObjectId
}.

(** The Booking document of a user (unique per [userId]). *)
Record Booking : Type := mkBooking {
  b_userId : ObjectId;
  upcomingMeetings : list MeetingItem;
  pendingMeetings : list MeetingItem;
  canceledMeetings : list MeetingItem;
  pastMeetings : list MeetingItem
}.

Record Slot : Type := mkSlot {
  startTime : string;
  endTime : string
}.

Record DayAvailability : Type := mkDay {
  day : string;
  isAvailable : bool;
  slots : list Slot
}.

Record User : Type := mkUser {
  u_id : ObjectId;
  u_name : string;
  u_email : string;
  availability : list DayAvailability
}.

(** The collections. A [find] returns documents in stored order. *)
Record DB : Type := mkDB {
  users : list User;
  meetings : list Meeting;
  invitations : list MeetingInvitation;
  bookings : list Booking
}.

(* ------------------------------------------------------------------ *)
(** ** Computations over the store *)

Inductive Result (A : Type) : Type :=
| Ok (a : A)
| Throw (err : string).

Arguments Ok {A} a.
Arguments Throw {A} err.

(** A handler reads and writes the collections and may throw; writes made
    before a throw persist (there is no transaction). *)
Definition M (A : Type) : Type := DB -> Result A * DB.

Definition ret {A : Type} (a : A) : M A := fun db => (Ok a, db).

Definition throw {A : Type} (err : string) : M A := fun db => (Throw err, db).

Definition bind {A B : Type} (m : M A) (k : A -> M B) : M B :=
  fun db =>
    match m db with
    | (Ok a, db') => k a db'
    | (Throw e, db') => (Throw e, db')
    end.

Definition get : M DB := fun db => (Ok db, db).

Definition put (db : DB) : M unit := fun _ => (Ok tt, db).

(** A read-only query that may throw. *)
Definition liftR {A : Type} (f : DB -> Result A) : M A := fun db => (f db, db).

Notation "x <- m ;; k" := (bind m (fun x => k))
  (at level 61, m at next level, right associativity).
Notation "m ;;; k" := (bind m (fun _ => k))
  (at level 61, right associativity).

(** [for (const x of l) { await f(x) }]. *)
Fixpoint forEach {A : Type} (l : list A) (f : A -> M unit) : M unit :=
  match l with
  | [] => ret tt
  | x :: r => f x ;;; forEach r f
  end.

(* ------------------------------------------------------------------ *)
(** ** Queries *)

(** [User.findOne({ email })]: the schema declares [lowercase: true] on
    [email], and Mongoose applies that setter to the value of the filter
    as well, so the stored email is compared with the filter in lower
    case. *)
Definition findUserByEmail (db : DB) (email : string) : option User :=
  find (fun u => String.eqb (u_email u) (Js.toLowerCase email)) (users db).

Definition findUserById (db : DB) (id : ObjectId) : option User :=
  find (fun u => Nat.eqb (u_id u) id) (users db).

Definition findMeetingById (db : DB) (id : ObjectId) : option Meeting :=
  find (fun m => Nat.eqb (m_id m) id) (meetings db).

Definition findInvitationById (db : DB) (id : ObjectId)
  : option MeetingInvitation :=
  find (fun i => Nat.eqb (i_id i) id) (invitations db).

Definition findBookingByUser (db : DB) (uid : ObjectId) : option Booking :=
  find (fun b => Nat.eqb (b_userId b) uid) (bookings db).

Definition hasUserId (uid : ObjectId) (p : Participant) : bool :=
  match p_userId p with
  | Some u => Nat.eqb u uid
  | None => false
  end.

(** The filter [{ hostId: u }, { 'participants.userId': u }] joined by
    [$or]. *)
Definition involves (uid : ObjectId) (m : Meeting) : bool :=
  Nat.eqb (m_hostId m) uid || existsb (hasUserId uid) (m_participants m).

(* ------------------------------------------------------------------ *)
(** ** Interval conflict detector ([checkTimeConflict]) *)

(** The filter of [checkTimeConflict]. Two dotted paths into the
    [participants] array in one clause are matched independently: the
    clause holds when some participant has the user id and some
    participant (possibly another one) has status accepted. *)
Definition conflictQuery (uid : ObjectId) (date : string)
    (excludeMeetingId : option ObjectId) (m : Meeting) : bool :=
  String.eqb (m_date m) date
  && ((existsb (hasUserId uid) (m_participants m)
       && existsb (fun p => Status_eqb (p_status p) accepted) (m_participants m))
      || Nat.eqb (m_hostId m) uid)
  && match excludeMeetingId with
     | Some x => negb (Nat.eqb (m_id m) x)
     | None => true
     end.

(** The overlap test of the loop body. *)
Definition overlapTest (newStartTime newEndTime meetingStartTime meetingEndTime
    : JsDate.Date) : bool :=
  (JsDate.ge newStartTime meetingStartTime && JsDate.lt newStartTime meetingEndTime)
  || (JsDate.gt newEndTime meetingStartTime && JsDate.le newEndTime meetingEndTime)
  || (JsDate.le newStartTime meetingStartTime && JsDate.ge newEndTime meetingEndTime).

(** [new Date(`${date}T${time}`)]. *)
Definition instant (date time : string) : JsDate.Date :=
  JsDate.parse (date ++ "T" ++ time)%string.

(** One iteration of the loop: does [meeting] conflict with the
    candidate window? *)
Definition conflictsWith (date startTime endTime : string) (meeting : Meeting)
  : bool :=
  overlapTest (instant date startTime) (instant date endTime)
    (instant (m_date meeting) (m_startTime meeting))
    (instant (m_date meeting) (m_endTime meeting)).

(** The meetings fetched for the resolved user. *)
Definition userMeetings (db : DB) (uid : ObjectId) (date : string)
    (excludeMeetingId : option ObjectId) : list Meeting :=
  filter (conflictQuery uid date excludeMeetingId) (meetings db).

Definition isEmail (userId : JsId) : bool :=
  match userId with
  | OtherString s => Js.includes "@" s
  | IdString _ => false
  | IdObject _ => false
  end.

Definition emailOf (userId : JsId) : string :=
  match userId with
  | OtherString s => s
  | _ => ""
  end.

Definition checkTimeConflict (db : DB) (userId : JsId)
    (date startTime endTime : string) (excludeMeetingId : option ObjectId)
  : Result (option Meeting) :=
  let resolved :=
    if isEmail userId then
      match findUserByEmail db (emailOf userId) with
      | Some user => Some (IdObject (u_id user))
      | None => None
      end
    else Some userId in
  match resolved with
  | None => Ok None
  | Some userIdToCheck =>
      match castId userIdToCheck with
      | None => Throw "CastError"
      | Some uid =>
          Ok (find (conflictsWith date startTime endTime)
                (userMeetings db uid date excludeMeetingId))
      end
  end.

(* ------------------------------------------------------------------ *)
(** ** Booking projection ([updateUserBookings]) *)

(** The four lists under construction. *)
Record Buckets : Type := mkBuckets {
  bk_upcoming : list MeetingItem;
  bk_pending : list MeetingItem;
  bk_canceled : list MeetingItem;
  bk_past : list MeetingItem
}.

Definition emptyBuckets : Buckets := mkBuckets [] [] [] [].

Definition pushUpcoming (b : Buckets) (x : MeetingItem) : Buckets :=
  mkBuckets (bk_upcoming b ++ [x]) (bk_pending b) (bk_canceled b) (bk_past b).
Definition pushPending (b : Buckets) (x : MeetingItem) : Buckets :=
  mkBuckets (bk_upcoming b) (bk_pending b ++ [x]) (bk_canceled b) (bk_past b).
Definition pushCanceled (b : Buckets) (x : MeetingItem) : Buckets :=
  mkBuckets (bk_upcoming b) (bk_pending b) (bk_canceled b ++ [x]) (bk_past b).
Definition pushPast (b : Buckets) (x : MeetingItem) : Buckets :=
  mkBuckets (bk_upcoming b) (bk_pending b) (bk_canceled b) (bk_past b ++ [x]).

(** [parts[i]] of [s.split(sep).map(Number)]; a missing element is
    [undefined]. *)
Definition numAt (parts : list string) (i : nat) : option Z :=
  match nth_error parts i with
  | Some s => Js.Number s
  | None => None
  end.

Definition minusOne (x : option Z) : option Z :=
  option_map (fun z => (z - 1)%Z) x.

(** [endDateTime], the end of the meeting as a local date. *)
Definition endDateTime (meeting : Meeting) : JsDate.Date :=
  let ymd := Js.split "-" (m_date meeting) in
  let hm := Js.split ":" (m_endTime meeting) in
  JsDate.ofParts (numAt ymd 0) (minusOne (numAt ymd 1)) (numAt ymd 2)
    (numAt hm 0) (numAt hm 1).

(** [isPast] of [updateUserBookings]: the meeting's day is before today,
    or its end is before now. *)
Definition isPastAt (now : Z) (meeting : Meeting) : bool :=
  let ymd := Js.split "-" (m_date meeting) in
  let meetingDate :=
    JsDate.ofYMD (numAt ymd 0) (minusOne (numAt ymd 1)) (numAt ymd 2) in
  let today := Some (JsDate.startOfDay now) in
  JsDate.lt meetingDate today || JsDate.lt (endDateTime meeting) (Some now).

(** [meetingDate], the start of the meeting's day as a local date. *)
Definition meetingDateOf (meeting : Meeting) : JsDate.Date :=
  let ymd := Js.split "-" (m_date meeting) in
  JsDate.ofYMD (numAt ymd 0) (minusOne (numAt ymd 1)) (numAt ymd 2).

(** The log lines of the loop body call [meetingDate.toISOString()] and
    [endDateTime.toISOString()], which throw a RangeError on an Invalid
    Date; they stand inside the [try], and the [catch] only logs, so such
    a meeting is left out of the four lists. ([startDateTime] is built
    but never printed.) *)
Definition logThrows (meeting : Meeting) : bool :=
  match meetingDateOf meeting, endDateTime meeting with
  | Some _, Some _ => false
  | _, _ => true
  end.

(** The predicate of [meeting.participants.find] in the rebuild. *)
Definition isRecordOf (userId : JsId) (user : User) (p : Participant) : bool :=
  match p_userId p with
  | Some u => toStringEq u userId
  | None => false
  end
  || String.eqb (p_email p) (u_email user).

Definition meetingData (meeting : Meeting) (status : Status) : MeetingItem :=
  mkItem (m_id meeting) (m_title meeting) (m_date meeting)
    (m_startTime meeting) (m_endTime meeting) status (m_hostId meeting)
    (m_isActive meeting) None.

(** The body of the loop over the fetched meetings. *)
Definition processMeeting (now : Z) (userId : JsId) (user : User)
    (acc : Buckets) (meeting : Meeting) : Buckets :=
  let isPast := isPastAt now meeting in
  if logThrows meeting then acc
  else
  match find (isRecordOf userId user) (m_participants meeting) with
  | None => acc
  | Some participantRecord =>
      let isHost := toStringEq (m_hostId meeting) userId in
      let status := p_status participantRecord in
      let data := meetingData meeting status in
      if isPast then pushPast acc data
      else if String.eqb (m_status meeting) "cancelled"
              || Status_eqb status rejected
      then pushCanceled acc data
      else if Status_eqb status pending && negb isHost
      then pushPending acc data
      else if Status_eqb status accepted || isHost
      then pushUpcoming acc data
      else acc
  end.

(** [booking.save()]: the user's Booking is replaced, or inserted when
    there was none. *)
Fixpoint upsertBooking (b : Booking) (bs : list Booking) : list Booking :=
  match bs with
  | [] => [b]
  | x :: r =>
      if Nat.eqb (b_userId x) (b_userId b) then b :: r
      else x :: upsertBooking b r
  end.

Definition setBookings (db : DB) (bs : list Booking) : DB :=
  mkDB (users db) (meetings db) (invitations db) bs.
Definition setMeetings (db : DB) (ms : list Meeting) : DB :=
  mkDB (users db) ms (invitations db) (bookings db).
Definition setInvitations (db : DB) (invs : list MeetingInvitation) : DB :=
  mkDB (users db) (meetings db) invs (bookings db).
Definition setUsers (db : DB) (us : list User) : DB :=
  mkDB us (meetings db) (invitations db) (bookings db).

Definition bookingOf (uid : ObjectId) (b : Buckets) : Booking :=
  mkBooking uid (bk_upcoming b) (bk_pending b) (bk_canceled b) (bk_past b).

Definition updateUserBookings (now : Z) (userId : JsId) : M (option Booking) :=
  db <- get ;;
  match castId userId with
  | None => throw "CastError"
  | Some uid =>
      let allMeetings := filter (involves uid) (meetings db) in
      match findUserById db uid with
      | None => ret None
      | Some user =>
          let lists :=
            fold_left (processMeeting now userId user) allMeetings emptyBuckets in
          let booking := bookingOf uid lists in
          put (setBookings db (upsertBooking booking (bookings db))) ;;;
          ret (Some booking)
      end
  end.

(* ------------------------------------------------------------------ *)
(** ** Dashboard refresh ([refreshBookings]) *)

(** The filter of the pending invitations of a user. *)
Definition pendingInvitationOf (user : User) (i : MeetingInvitation) : bool :=
  (match i_userId i with
   | Some u => Nat.eqb u (u_id user)
   | None => false
   end
   || String.eqb (i_email i) (u_email user))
  && Status_eqb (i_status i) pending.

Definition refreshMeeting (now : Z) (reqUser : User) (acc : Buckets)
    (meeting : Meeting) : Buckets :=
  let participantEntry :=
    find (fun p => match p_userId p with
                   | Some u => toStringEq u (IdString (u_id reqUser))
                   | None => false
                   end) (m_participants meeting) in
  let isHost := toStringEq (m_hostId meeting) (IdString (u_id reqUser)) in
  match participantEntry, isHost with
  | None, false => acc
  | _, _ =>
      let isPast := JsDate.lt (endDateTime meeting) (Some now) in
      let status :=
        match participantEntry with
        | Some p => p_status p
        | None => accepted
        end in
      let meetingItem := meetingData meeting status in
      if isPast then pushPast acc meetingItem
      else if String.eqb (m_status meeting) "canceled"
      then pushCanceled acc meetingItem
      else if match participantEntry with
              | Some p => Status_eqb (p_status p) accepted
              | None => false
              end || isHost
      then pushUpcoming acc meetingItem
      else acc
  end.

(** The loop over the pending invitations; [populate('meetingId')] puts
    the meeting, or null, in place of its id. *)
Definition refreshInvitation (db : DB) (now : Z) (acc : Buckets)
    (invitation : MeetingInvitation) : Buckets :=
  match findMeetingById db (i_meetingId invitation) with
  | None => acc
  | Some meeting =>
      let isPast := JsDate.lt (endDateTime meeting) (Some now) in
      if negb isPast
      then pushPending acc
             (mkItem (m_id meeting) (m_title meeting) (m_date meeting)
                (m_startTime meeting) (m_endTime meeting) pending
                (m_hostId meeting) (m_isActive meeting)
                (Some (i_id invitation)))
      else acc
  end.

(** Assigning an array to a list of the Booking document casts every
    plain object to [meetingItemSchema]; in strict mode, the default, a
    path that the schema does not declare is dropped, and the schema has
    no [invitationId]. *)
Definition castItem (x : MeetingItem) : MeetingItem :=
  mkItem (it_meetingId x) (it_title x) (it_date x) (it_startTime x)
    (it_endTime x) (it_status x) (it_hostId x) (it_isActive x) None.

Definition castBooking (b : Booking) : Booking :=
  mkBooking (b_userId b) (map castItem (upcomingMeetings b))
    (map castItem (pendingMeetings b)) (map castItem (canceledMeetings b))
    (map castItem (pastMeetings b)).

Definition refreshBookings (now : Z) (reqUser : User) : M Booking :=
  db <- get ;;
  let uid := u_id reqUser in
  let allMeetings := filter (involves uid) (meetings db) in
  let pendingInvitations :=
    filter (pendingInvitationOf reqUser) (invitations db) in
  let lists := fold_left (refreshMeeting now reqUser) allMeetings emptyBuckets in
  let lists' := fold_left (refreshInvitation db now) pendingInvitations lists in
  let booking := castBooking (bookingOf uid lists') in
  put (setBookings db (upsertBooking booking (bookings db))) ;;;
  ret booking.

(* ------------------------------------------------------------------ *)
(** ** What a save adds to a Booking

    [meetingItemSchema] does not switch [_id] off, so each entry of the
    four lists is a subdocument with an ObjectId of its own: assigning
    the freshly built arrays, as both rebuilds do, casts every plain
    object to a new subdocument with a new id. The [pre('save')] hook of
    the Booking sets [updatedAt] to [Date.now()]. *)

Record StoredItem : Type := mkStoredItem {
  si_id : ObjectId;
  si_item : MeetingItem
}.

Record StoredBooking : Type := mkStoredBooking {
  sb_userId : ObjectId;
  sb_upcomingMeetings : list StoredItem;
  sb_pendingMeetings : list StoredItem;
  sb_canceledMeetings : list StoredItem;
  sb_pastMeetings : list StoredItem;
  sb_updatedAt : Z
}.

(** The subdocuments of an assigned array; [next] is the next ObjectId
    the driver generates (an id is never generated twice). The result
    carries the next id after them. *)
Fixpoint castItems (next : ObjectId) (l : list MeetingItem)
  : list StoredItem * ObjectId :=
  match l with
  | [] => ([], next)
  | x :: r =>
      let (r', next') := castItems (S next) r in
      (mkStoredItem next x :: r', next')
  end.

(** The document that [booking.save()] writes at the time [clock], for
    the lists assigned in the order of the source: upcoming, pending,
    canceled, past. *)
Definition storedBooking (clock : Z) (next : ObjectId) (b : Booking)
  : StoredBooking * ObjectId :=
  let (up, n1) := castItems next (upcomingMeetings b) in
  let (pe, n2) := castItems n1 (pendingMeetings b) in
  let (ca, n3) := castItems n2 (canceledMeetings b) in
  let (pa, n4) := castItems n3 (pastMeetings b) in
  (mkStoredBooking (b_userId b) up pe ca pa clock, n4).

(** A stored Booking without what the save generated: the ids of the
    entries and [updatedAt]. *)
Definition eraseGenerated (d : StoredBooking) : Booking :=
  mkBooking (sb_userId d) (map si_item (sb_upcomingMeetings d))
    (map si_item (sb_pendingMeetings d)) (map si_item (sb_canceledMeetings d))
    (map si_item (sb_pastMeetings d)).

(* ------------------------------------------------------------------ *)
(** ** Writing Meeting and MeetingInvitation documents *)

(** A fresh ObjectId for a collection whose ids are [ids]. *)
Definition newObjectId (ids : list ObjectId) : ObjectId := S (list_max ids).

Definition statusEnum : list string :=
  ["upcoming"; "pending"; "cancelled"; "past"].

(** Schema validation of an embedded participant: [userId] and [email]
    are required. *)
Definition validParticipant (p : Participant) : bool :=
  match p_userId p with
  | Some _ => Js.truthy (p_email p)
  | None => false
  end.

(** Schema validation of a Meeting document: required strings are
    present, the status is in the enum, every participant is valid. *)
Definition validMeeting (m : Meeting) : bool :=
  Js.truthy (m_title m) && Js.truthy (m_date m)
  && Js.truthy (m_startTime m) && Js.truthy (m_endTime m)
  && existsb (String.eqb (m_status m)) statusEnum
  && forallb validParticipant (m_participants m).

(** The setters of the Meeting schema: [title] and [description] are
    declared with [trim: true], so the value given for them is trimmed
    before it is validated and stored. *)
Definition castMeeting (m : Meeting) : Meeting :=
  mkMeeting (m_id m) (m_hostId m) (Js.trim (m_title m))
    (Js.trim (m_description m)) (m_date m) (m_startTime m) (m_endTime m)
    (m_duration m) (m_timezone m) (m_meetingLink m) (m_status m)
    (m_isActive m) (m_participants m).

(** [Meeting.create(data)]: the document gets a fresh id, its values go
    through the setters, and it is validated and inserted. *)
Definition Meeting_create (data : ObjectId -> Meeting) : M Meeting :=
  db <- get ;;
  let meeting := castMeeting (data (newObjectId (map m_id (meetings db)))) in
  if validMeeting meeting
  then put (setMeetings db (meetings db ++ [meeting])) ;;; ret meeting
  else throw "ValidationError".

Definition replaceMeeting (m : Meeting) (ms : list Meeting) : list Meeting :=
  map (fun x => if Nat.eqb (m_id x) (m_id m) then m else x) ms.

(** [meeting.save()] of a document that is already stored. *)
Definition Meeting_save (meeting : Meeting) : M unit :=
  if validMeeting meeting
  then db <- get ;; put (setMeetings db (replaceMeeting meeting (meetings db)))
  else throw "ValidationError".

(** [MeetingInvitation.create(data)]: [email] is required and stored in
    lower case. *)
Definition MeetingInvitation_create (meetingId : ObjectId)
    (userId : option ObjectId) (email : string) (status : Status)
  : M MeetingInvitation :=
  db <- get ;;
  let invitation :=
    mkInvitation (newObjectId (map i_id (invitations db))) meetingId userId
      (Js.toLowerCase email) status in
  if Js.truthy email
  then put (setInvitations db (invitations db ++ [invitation])) ;;;
       ret invitation
  else throw "ValidationError".

Definition replaceInvitation (i : MeetingInvitation)
    (l : list MeetingInvitation) : list MeetingInvitation :=
  map (fun x => if Nat.eqb (i_id x) (i_id i) then i else x) l.

(** [invitation.save()]. *)
Definition MeetingInvitation_save (invitation : MeetingInvitation) : M unit :=
  if Js.truthy (i_email invitation)
  then db <- get ;;
       put (setInvitations db (replaceInvitation invitation (invitations db)))
  else throw "ValidationError".

Definition withParticipants (m : Meeting) (ps : list Participant) : Meeting :=
  mkMeeting (m_id m) (m_hostId m) (m_title m) (m_description m) (m_date m)
    (m_startTime m) (m_endTime m) (m_duration m) (m_timezone m)
    (m_meetingLink m) (m_status m) (m_isActive m) ps.

(** The host's own participant entry. *)
Definition hostParticipant (reqUser : User) : Participant :=
  mkParticipant (Some (u_id reqUser)) (u_email reqUser) accepted None.

Definition orDefault {A : Type} (o : option A) (d : A) : A :=
  match o with
  | Some a => a
  | None => d
  end.

(* ------------------------------------------------------------------ *)
(** ** [createMeeting] *)








(* ------------------------------------------------------------------ *)
(** ** [updateMeeting] *)

(** The request body of [updateMeeting]; [None] is an absent field. Of
    the schema paths a body may set, these are the ones kept here. *)
Record UpdateBody : Type := mkUpdateBody {
  ub_title : option string;
  ub_description : option string;
  ub_date : option string;
  ub_startTime : option string;
  ub_endTime : option string;
  ub_status : option string;
  ub_isActive : option bool
}.

(** [field && field !== current]. *)
Definition changed (field : option string) (current : string) : bool :=
  match field with
  | Some v => Js.truthy v && negb (String.eqb v current)
  | None => false
  end.

(** [field || current]. *)
Definition orCurrent (field : option string) (current : string) : string :=
  match field with
  | Some v => if Js.truthy v then v else current
  | None => current
  end.

Definition timeChanged (body : UpdateBody) (meeting : Meeting) : bool :=
  changed (ub_date body) (m_date meeting)
  || changed (ub_startTime body) (m_startTime meeting)
  || changed (ub_endTime body) (m_endTime meeting).

(** An entry of the [conflicts] array of the 400 response. *)
Record ConflictEntry : Type := mkConflictEntry {
  ce_userId : ObjectId;
  ce_email : string
}.

(** The loop over [meeting.participants] that collects the accepted
    participants (with a user id) for whom the new time conflicts. *)
Fixpoint collectConflicts (db : DB) (body : UpdateBody) (meeting : Meeting)
    (ps : list Participant) : Result (list ConflictEntry) :=
  match ps with
  | [] => Ok []
  | participant :: rest =>
      match p_status participant, p_userId participant with
      | accepted, Some uid =>
          match checkTimeConflict db (IdObject uid)
                  (orCurrent (ub_date body) (m_date meeting))
                  (orCurrent (ub_startTime body) (m_startTime meeting))
                  (orCurrent (ub_endTime body) (m_endTime meeting))
                  (Some (m_id meeting)) with
          | Throw e => Throw e
          | Ok conflict =>
              match collectConflicts db body meeting rest with
              | Throw e => Throw e
              | Ok conflicts =>
                  match conflict with
                  | Some _ =>
                      Ok (mkConflictEntry uid (p_email participant) :: conflicts)
                  | None => Ok conflicts
                  end
              end
          end
      | _, _ => collectConflicts db body meeting rest
      end
  end.

(** The update casts the values of the body through the setters of the
    schema, which trim [title] and [description]. *)
Definition applyUpdate (body : UpdateBody) (m : Meeting) : Meeting :=
  mkMeeting (m_id m) (m_hostId m)
    (orDefault (option_map Js.trim (ub_title body)) (m_title m))
    (orDefault (option_map Js.trim (ub_description body)) (m_description m))
    (orDefault (ub_date body) (m_date m))
    (orDefault (ub_startTime body) (m_startTime m))
    (orDefault (ub_endTime body) (m_endTime m))
    (m_duration m) (m_timezone m) (m_meetingLink m)
    (orDefault (ub_status body) (m_status m))
    (orDefault (ub_isActive body) (m_isActive m))
    (m_participants m).

(** Update validators ([runValidators: true]) look at the paths the
    update sets, after the cast. *)
Definition validUpdate (body : UpdateBody) : bool :=
  let present o := match o with Some v => Js.truthy v | None => true end in
  present (option_map Js.trim (ub_title body)) && present (ub_date body)
  && present (ub_startTime body) && present (ub_endTime body)
  && match ub_status body with
     | Some s => existsb (String.eqb s) statusEnum
     | None => true
     end.

(** [Meeting.findByIdAndUpdate(id, body, { new: true, runValidators: true })]. *)
Definition Meeting_findByIdAndUpdate (id : ObjectId) (body : UpdateBody)
  : M (option Meeting) :=
  if validUpdate body then
    db <- get ;;
    match findMeetingById db id with
    | None => ret None
    | Some m =>
        let m' := applyUpdate body m in
        put (setMeetings db (replaceMeeting m' (meetings db))) ;;;
        ret (Some m')
    end
  else throw "ValidationError".

Inductive UpdateResponse : Type :=
| UpdateOk (data : Meeting)
| UpdateNotFound
| UpdateForbidden
| UpdateConflict (conflicts : list ConflictEntry).

(** [updateUserBookings] for every participant that has a user id. *)
Definition refreshParticipants (now : Z) (ps : list Participant) : M unit :=
  forEach ps (fun participant =>
    match p_userId participant with
    | Some uid => updateUserBookings now (IdObject uid) ;;; ret tt
    | None => ret tt
    end).

Definition updateMeeting (now : Z) (reqUser : User) (id : ObjectId)
    (body : UpdateBody) : M UpdateResponse :=
  db <- get ;;
  match findMeetingById db id with
  | None => ret UpdateNotFound
  | Some meeting =>
      if negb (toStringEq (m_hostId meeting) (IdString (u_id reqUser)))
      then ret UpdateForbidden
      else
        conflicts <-
          (if timeChanged body meeting
           then liftR (fun db =>
                  collectConflicts db body meeting (m_participants meeting))
           else ret []) ;;
        match conflicts with
        | _ :: _ => ret (UpdateConflict conflicts)
        | [] =>
            updated <- Meeting_findByIdAndUpdate id body ;;
            match updated with
            | None => throw "TypeError"
            | Some meeting' =>
                refreshParticipants now (m_participants meeting') ;;;
                ret (UpdateOk meeting')
            end
        end
  end.

(* ------------------------------------------------------------------ *)
(** ** [respondToInvitation] *)

(** The guard that answers 403: the invitation names another user id and
    another email. An invitation without a user id passes it. *)
Definition notAuthorized (reqUser : User) (i : MeetingInvitation) : bool :=
  match i_userId i with
  | Some u => negb (toStringEq u (IdString (u_id reqUser)))
  | None => false
  end
  && negb (String.eqb (i_email i) (u_email reqUser)).

Definition ensureInvitationExists (meetingId : ObjectId) (userId : ObjectId)
    (userEmail : string) : M MeetingInvitation :=
  db <- get ;;
  match find (fun i => Nat.eqb (i_meetingId i) meetingId
                       && (match i_userId i with
                           | Some u => Nat.eqb u userId
                           | None => false
                           end
                           || String.eqb (i_email i) userEmail))
          (invitations db) with
  | Some invitation => ret invitation
  | None => MeetingInvitation_create meetingId (Some userId) userEmail pending
  end.

(** [try { ... } catch (error) { ... }]. *)
Definition tryCatch {A : Type} (m : M A) (handler : string -> M A) : M A :=
  fun db =>
    match m db with
    | (Throw e, db') => handler e db'
    | r => r
    end.

Fixpoint findIndex {A : Type} (f : A -> bool) (l : list A) : option nat :=
  match l with
  | [] => None
  | x :: r => if f x then Some 0%nat else option_map S (findIndex f r)
  end.

(** [l[i] = f(l[i])] for an index within the list. *)
Fixpoint updateAt {A : Type} (i : nat) (f : A -> A) (l : list A) : list A :=
  match l, i with
  | [], _ => []
  | x :: r, O => f x :: r
  | x :: r, S j => x :: updateAt j f r
  end.

Definition withStatus (i : MeetingInvitation) (s : Status) : MeetingInvitation :=
  mkInvitation (i_id i) (i_meetingId i) (i_userId i) (i_email i) s.

Inductive RespondResponse : Type :=
| RespondOk (data : MeetingInvitation) (meeting : Meeting)
| RespondBadRequest
| RespondNotFound (message : string)
| RespondForbidden.

Definition statusOfString (s : string) : option Status :=
  if String.eqb s "accepted" then Some accepted
  else if String.eqb s "rejected" then Some rejected
  else None.

(** The lookup inside the [try] block: the invitation, or the message
    of the 404 response. *)
Definition lookupInvitation (reqUser : User) (invitationId : ObjectId)
  : M (MeetingInvitation + string) :=
  tryCatch
    (db <- get ;;
     match findInvitationById db invitationId with
     | Some invitation => ret (inl invitation)
     | None =>
         match findMeetingById db invitationId with
         | Some meeting =>
             invitation <- ensureInvitationExists (m_id meeting)
                             (u_id reqUser) (u_email reqUser) ;;
             ret (inl invitation)
         | None => ret (inr "Neither invitation nor meeting found with this ID")
         end
     end)
    (fun _ => ret (inr "Invitation not found")).

(** The update of [meeting.participants] for a response. *)
Definition respondParticipants (now : Z) (reqUser : User)
    (invitation : MeetingInvitation) (status : Status)
    (ps : list Participant) : list Participant :=
  let participantIndex :=
    findIndex (fun p => match p_userId p with
                        | Some u => toStringEq u (IdString (u_id reqUser))
                        | None => false
                        end
                        || String.eqb (p_email p) (i_email invitation)) ps in
  match status, participantIndex with
  | accepted, Some k =>
      updateAt k (fun p =>
        mkParticipant
          (match p_userId p with
           | Some u => Some u
           | None => Some (u_id reqUser)
           end)
          (p_email p) accepted (Some now)) ps
  | accepted, None =>
      ps ++ [mkParticipant (Some (u_id reqUser)) (i_email invitation)
               accepted (Some now)]
  | rejected, Some k =>
      updateAt k (fun p =>
        mkParticipant (p_userId p) (p_email p) rejected (Some now)) ps
  | _, _ => ps
  end.

Definition respondToInvitation (now : Z) (reqUser : User)
    (invitationId : ObjectId) (bodyStatus : option string)
  : M RespondResponse :=
  match option_map statusOfString bodyStatus with
  | None | Some None => ret RespondBadRequest
  | Some (Some status) =>
      found <- lookupInvitation reqUser invitationId ;;
      match found with
      | inr message => ret (RespondNotFound message)
      | inl invitation0 =>
          if notAuthorized reqUser invitation0
          then ret RespondForbidden
          else
            let invitation := withStatus invitation0 status in
            MeetingInvitation_save invitation ;;;
            db <- get ;;
            match findMeetingById db (i_meetingId invitation) with
            | None => ret (RespondNotFound "Meeting not found")
            | Some meeting =>
                let meeting' :=
                  withParticipants meeting
                    (respondParticipants now reqUser invitation status
                       (m_participants meeting)) in
                Meeting_save meeting' ;;;
                updateUserBookings now (IdString (u_id reqUser)) ;;;
                (if negb (toStringEq (m_hostId meeting) (IdString (u_id reqUser)))
                 then updateUserBookings now (IdObject (m_hostId meeting)) ;;;
                      ret tt
                 else ret tt) ;;;
                ret (RespondOk invitation meeting')
            end
      end
  end.

(* ------------------------------------------------------------------ *)
(** ** [duplicateMeeting] *)

Record DuplicateBody : Type := mkDuplicateBody {
  dup_title : option string;
  dup_date : option string
}.

Inductive DuplicateResponse : Type :=
| DuplicateOk (data : Meeting)
| DuplicateNotFound
| DuplicateForbidden.

Definition newMeetingData (meeting : Meeting) (body : DuplicateBody)
    (id : ObjectId) : Meeting :=
  mkMeeting id (m_hostId meeting)
    (orCurrent (dup_title body) (m_title meeting ++ " (Copy)")%string)
    (m_description meeting)
    (orCurrent (dup_date body) (m_date meeting))
    (m_startTime meeting) (m_endTime meeting) (m_duration meeting)
    (m_timezone meeting) (m_meetingLink meeting)
    "upcoming" true [].

Definition duplicateMeeting (reqUser : User) (id : ObjectId)
    (body : DuplicateBody) : M DuplicateResponse :=
  db <- get ;;
  match findMeetingById db id with
  | None => ret DuplicateNotFound
  | Some meeting =>
      if negb (toStringEq (m_hostId meeting) (IdString (u_id reqUser)))
      then ret DuplicateForbidden
      else
        newMeeting <- Meeting_create (newMeetingData meeting body) ;;
        let newMeeting' :=
          withParticipants newMeeting
            (m_participants newMeeting ++ [hostParticipant reqUser]) in
        Meeting_save newMeeting' ;;;
        ret (DuplicateOk newMeeting')
  end.

(* ------------------------------------------------------------------ *)
(** ** Availability store ([userController.js]) *)

Definition validDays : list string :=
  ["Monday"; "Tuesday"; "Wednesday"; "Thursday"; "Friday"; "Saturday";
   "Sunday"].

(** A slot object of a request body; [None] is a missing field. *)
Record SlotInput : Type := mkSlotInput {
  si_startTime : option string;
  si_endTime : option string
}.

(** The all-day slot, both bounds unspecified. *)
Definition allDaySlot : Slot := mkSlot "" "".

Definition keepObjects (slots : list (option SlotInput)) : list SlotInput :=
  flat_map (fun s => match s with Some o => [o] | None => [] end) slots.

(** [slots.filter(...).map(...)]: elements that are not objects are
    dropped ([None] below), missing bounds become the empty string. *)
Definition normalizeSlots (slots : list (option SlotInput)) : list Slot :=
  map (fun slot => mkSlot (orDefault (si_startTime slot) "")
                     (orDefault (si_endTime slot) ""))
    (keepObjects slots).

(** [validatedSlots] of [updateDayAvailability]. [reqAvailable] is the
    body's [isAvailable], [None] when the body has no such field;
    [reqSlots] is the body's [slots], [None] when there is no array. *)
Definition validatedSlotsOf (reqAvailable : option bool)
    (reqSlots : option (list (option SlotInput))) : list Slot :=
  match reqAvailable, reqSlots with
  | Some true, Some l =>
      match normalizeSlots l with
      | [] => [allDaySlot]
      | v => v
      end
  | _, _ => []
  end.

Definition isDay (d : string) (a : DayAvailability) : bool :=
  String.eqb (day a) d.

(** The update of [user.availability] by [updateDayAvailability];
    [reqAvailable] and [reqSlots] are the body's [isAvailable] and
    [slots]. *)
Definition setDay (d : string) (reqAvailable : option bool)
    (reqSlots : option (list (option SlotInput)))
    (av : list DayAvailability) : list DayAvailability :=
  let validatedSlots := validatedSlotsOf reqAvailable reqSlots in
  match findIndex (isDay d) av with
  | None =>
      av ++ [mkDay d (orDefault reqAvailable true)
               (match reqAvailable with
                | Some false => []
                | _ => validatedSlots
                end)]
  | Some dayIndex =>
      match reqAvailable with
      | Some b =>
          updateAt dayIndex (fun a =>
            mkDay (day a) b
              (if negb b then []
               else match validatedSlots with
                    | _ :: _ => validatedSlots
                    | [] => match slots a with
                            | [] => [allDaySlot]
                            | existing => existing
                            end
                    end)) av
      | None =>
          match validatedSlots with
          | _ :: _ =>
              updateAt dayIndex (fun a =>
                mkDay (day a) (isAvailable a) validatedSlots) av
          | [] => av
          end
      end
  end.

Definition withAvailability (u : User) (av : list DayAvailability) : User :=
  mkUser (u_id u) (u_name u) (u_email u) av.

Definition replaceUser (u : User) (us : list User) : list User :=
  map (fun x => if Nat.eqb (u_id x) (u_id u) then u else x) us.

(** [user.save()]. *)
Definition User_save (user : User) : M unit :=
  db <- get ;; put (setUsers db (replaceUser user (users db))).

Inductive DayResponse : Type :=
| DayOk (data : option DayAvailability)
| DayBadRequest
| DayNotFound.

Definition updateDayAvailability (reqUser : User) (d : string)
    (reqAvailable : option bool) (reqSlots : option (list (option SlotInput)))
  : M DayResponse :=
  if negb (existsb (String.eqb d) validDays) then ret DayBadRequest
  else
    db <- get ;;
    match findUserById db (u_id reqUser) with
    | None => ret DayNotFound
    | Some user =>
        let user' :=
          withAvailability user
            (setDay d reqAvailable reqSlots (availability user)) in
        User_save user' ;;;
        ret (DayOk (find (isDay d) (availability user')))
    end.

Inductive AvailabilityResponse : Type :=
| AvailabilityOk (data : list DayAvailability)
| AvailabilityBadRequest
| AvailabilityNotFound
| AvailabilityError.

(** [updateAvailability]: the submitted array replaces the stored one.
    [None] is a body without an array; the schema rejects an entry whose
    day is not a weekday name, which the handler answers with 500. *)
Definition updateAvailability (reqUser : User)
    (body : option (list DayAvailability)) : M AvailabilityResponse :=
  match body with
  | None => ret AvailabilityBadRequest
  | Some av =>
      db <- get ;;
      match findUserById db (u_id reqUser) with
      | None => ret AvailabilityNotFound
      | Some user =>
          if forallb (fun a => existsb (String.eqb (day a)) validDays) av
          then User_save (withAvailability user av) ;;;
               ret (AvailabilityOk av)
          else ret AvailabilityError
      end
  end.

(* ------------------------------------------------------------------ *)
(** ** [getMeeting], [deleteMeeting], [toggleMeetingActive],
       [toggleMeetingStatus] *)

(** The answer of a handler that returns one meeting. *)
Inductive MeetingResponse : Type :=
| MeetingOk (data : Meeting)
| MeetingNotFound
| MeetingForbidden.

(** [participant.userId && participant.userId.toString() === req.user.id]. *)
Definition isUserEntry (reqUser : User) (p : Participant) : bool :=
  match p_userId p with
  | Some u => toStringEq u (IdString (u_id reqUser))
  | None => false
  end.

Definition getMeeting (reqUser : User) (id : ObjectId) : M MeetingResponse :=
  db <- get ;;
  match findMeetingById db id with
  | None => ret MeetingNotFound
  | Some meeting =>
      let isHost := toStringEq (m_hostId meeting) (IdString (u_id reqUser)) in
      let isParticipant := existsb (isUserEntry reqUser) (m_participants meeting) in
      if negb isHost && negb isParticipant then ret MeetingForbidden
      else ret (MeetingOk meeting)
  end.

Inductive DeleteResponse : Type :=
| DeleteOk
| DeleteNotFound
| DeleteForbidden.

(** [meeting.participants.filter(p => p.userId).map(p => p.userId)]. *)
Definition participantIds (ps : list Participant) : list ObjectId :=
  flat_map (fun p => match p_userId p with
                     | Some u => [u]
                     | None => []
                     end) ps.

(** [MeetingInvitation.deleteMany({ meetingId })]. *)
Definition MeetingInvitation_deleteMany (meetingId : ObjectId) : M unit :=
  db <- get ;;
  put (setInvitations db
         (filter (fun i => negb (Nat.eqb (i_meetingId i) meetingId))
            (invitations db))).

(** [meeting.deleteOne()]; the [_id] of a document is unique in its
    collection. *)
Definition Meeting_deleteOne (meeting : Meeting) : M unit :=
  db <- get ;;
  put (setMeetings db
         (filter (fun m => negb (Nat.eqb (m_id m) (m_id meeting)))
            (meetings db))).

Definition deleteMeeting (now : Z) (reqUser : User) (id : ObjectId)
  : M DeleteResponse :=
  db <- get ;;
  match findMeetingById db id with
  | None => ret DeleteNotFound
  | Some meeting =>
      if negb (toStringEq (m_hostId meeting) (IdString (u_id reqUser)))
      then ret DeleteForbidden
      else
        let ids := participantIds (m_participants meeting) in
        MeetingInvitation_deleteMany (m_id meeting) ;;;
        Meeting_deleteOne meeting ;;;
        forEach ids (fun userId =>
          updateUserBookings now (IdObject userId) ;;; ret tt) ;;;
        ret DeleteOk
  end.

Definition withIsActive (m : Meeting) (b : bool) : Meeting :=
  mkMeeting (m_id m) (m_hostId m) (m_title m) (m_description m) (m_date m)
    (m_startTime m) (m_endTime m) (m_duration m) (m_timezone m)
    (m_meetingLink m) (m_status m) b (m_participants m).

(** [bodyActive] is the body's [isActive], [None] when it is undefined. *)
Definition toggleMeetingActive (reqUser : User) (id : ObjectId)
    (bodyActive : option bool) : M MeetingResponse :=
  db <- get ;;
  match findMeetingById db id with
  | None => ret MeetingNotFound
  | Some meeting =>
      if negb (toStringEq (m_hostId meeting) (IdString (u_id reqUser)))
      then ret MeetingForbidden
      else
        let meeting' :=
          withIsActive meeting
            (match bodyActive with
             | Some b => b
             | None => negb (m_isActive meeting)
             end) in
        Meeting_save meeting' ;;;
        ret (MeetingOk meeting')
  end.

Definition withMeetingStatus (m : Meeting) (s : string) : Meeting :=
  mkMeeting (m_id m) (m_hostId m) (m_title m) (m_description m) (m_date m)
    (m_startTime m) (m_endTime m) (m_duration m) (m_timezone m)
    (m_meetingLink m) s (m_isActive m) (m_participants m).

(** The status [toggleMeetingStatus] assigns: the body's, when it is one
    of scheduled, canceled, completed; otherwise the next of the cycle
    scheduled, completed, canceled. *)
Definition nextStatus (bodyStatus : option string) (current : string)
  : string :=
  match bodyStatus with
  | Some s =>
      if Js.truthy s
         && existsb (String.eqb s) ["scheduled"; "canceled"; "completed"]
      then s
      else if String.eqb current "scheduled" then "completed"
      else if String.eqb current "completed" then "canceled"
      else "scheduled"
  | None =>
      if String.eqb current "scheduled" then "completed"
      else if String.eqb current "completed" then "canceled"
      else "scheduled"
  end.

Definition toggleMeetingStatus (now : Z) (reqUser : User) (id : ObjectId)
    (bodyStatus : option string) : M MeetingResponse :=
  db <- get ;;
  match findMeetingById db id with
  | None => ret MeetingNotFound
  | Some meeting =>
      if negb (toStringEq (m_hostId meeting) (IdString (u_id reqUser)))
      then ret MeetingForbidden
      else
        let meeting' :=
          withMeetingStatus meeting (nextStatus bodyStatus (m_status meeting)) in
        Meeting_save meeting' ;;;
        refreshParticipants now (m_participants meeting') ;;;
        ret (MeetingOk meeting')
  end.

(* ------------------------------------------------------------------ *)
(** ** Dashboard endpoints ([bookingController.js]) *)

(** [Booking.create(data)]; [userId] carries a unique index. *)
Definition Booking_create (b : Booking) : M Booking :=
  db <- get ;;
  if existsb (fun x => Nat.eqb (b_userId x) (b_userId b)) (bookings db)
  then throw "MongoServerError"
  else put (setBookings db (bookings db ++ [b])) ;;; ret b.

Definition getBookings (reqUser : User) : M Booking :=
  db <- get ;;
  match findBookingByUser db (u_id reqUser) with
  | Some booking => ret booking
  | None => Booking_create (mkBooking (u_id reqUser) [] [] [] [])
  end.

(** The index [Array.prototype.slice] works with: a negative argument
    counts from the end, and the result is clamped to the array. *)
Definition relativeIndex (len i : Z) : Z :=
  if (i <? 0)%Z then Z.max (len + i) 0 else Z.min i len.

(** [l.slice(startIndex, endIndex)] for integer arguments. *)
Definition slice {A : Type} (l : list A) (startIndex endIndex : Z) : list A :=
  let len := Z.of_nat (List.length l) in
  let k := relativeIndex len startIndex in
  let final := relativeIndex len endIndex in
  firstn (Z.to_nat (final - k)) (skipn (Z.to_nat k) l).

(** [n || d] for a number: NaN ([None]) and 0 are falsy. *)
Definition orNumber (n : option Z) (d : Z) : Z :=
  match n with
  | Some z => if (z =? 0)%Z then d else z
  | None => d
  end.

(** The query string of a list endpoint. [q_page] and [q_limit] are
    [parseInt(req.query.page, 10)] and [parseInt(req.query.limit, 10)],
    [None] standing for NaN (a missing or non-numeric parameter). *)
Record ListQuery : Type := mkListQuery {
  q_search : option string;
  q_page : option Z;
  q_limit : option Z
}.

Record PageRef : Type := mkPageRef {
  pr_page : Z;
  pr_limit : Z
}.

Record Pagination : Type := mkPagination {
  pg_next : option PageRef;
  pg_prev : option PageRef
}.

Inductive ListResponse : Type :=
| ListOk (count : nat) (pagination : Pagination) (data : list MeetingItem)
| ListNotFound.

(** The search of a list endpoint. [regExp s] is [new RegExp(s, 'i')]:
    [None] when the pattern is not a regular expression (a SyntaxError),
    else the [test] of the expression, which without the global flag
    keeps no state between calls. *)
Definition searchTitles (regExp : string -> option (string -> bool))
    (search : option string) (items : list MeetingItem)
  : M (list MeetingItem) :=
  match search with
  | Some s =>
      if Js.truthy s
      then match regExp s with
           | Some test => ret (filter (fun m => test (it_title m)) items)
           | None => throw "SyntaxError"
           end
      else ret items
  | None => ret items
  end.

(** The body shared by [getUpcomingMeetings], [getPendingMeetings],
    [getCanceledMeetings] and [getPastMeetings], which differ in the list
    of the Booking they read only. *)
Definition listMeetings (regExp : string -> option (string -> bool))
    (select : Booking -> list MeetingItem) (reqUser : User)
    (query : ListQuery) : M ListResponse :=
  db <- get ;;
  match findBookingByUser db (u_id reqUser) with
  | None => ret ListNotFound
  | Some booking =>
      found <- searchTitles regExp (q_search query) (select booking) ;;
      let page := orNumber (q_page query) 1 in
      let limit := orNumber (q_limit query) 10 in
      let startIndex := ((page - 1) * limit)%Z in
      let endIndex := (page * limit)%Z in
      let total := Z.of_nat (List.length found) in
      let paginatedMeetings := slice found startIndex endIndex in
      let pagination :=
        mkPagination
          (if (endIndex <? total)%Z
           then Some (mkPageRef (page + 1) limit) else None)
          (if (startIndex >? 0)%Z
           then Some (mkPageRef (page - 1) limit) else None) in
      ret (ListOk (List.length paginatedMeetings) pagination paginatedMeetings)
  end.

Definition getUpcomingMeetings (regExp : string -> option (string -> bool))
  : User -> ListQuery -> M ListResponse :=
  listMeetings regExp upcomingMeetings.

Definition getPendingMeetings (regExp : string -> option (string -> bool))
  : User -> ListQuery -> M ListResponse :=
  listMeetings regExp pendingMeetings.

Definition getCanceledMeetings (regExp : string -> option (string -> bool))
  : User -> ListQuery -> M ListResponse :=
  listMeetings regExp canceledMeetings.

Definition getPastMeetings (regExp : string -> option (string -> bool))
  : User -> ListQuery -> M ListResponse :=
  listMeetings regExp pastMeetings.

(** An element of the answer of [getMeetingParticipants]. *)
Record ParticipantInfo : Type := mkInfo {
  pi_userId : option ObjectId;
  pi_email : string;
  pi_status : Status
}.

Inductive ParticipantsResponse : Type :=
| ParticipantsOk (count : nat) (data : list ParticipantInfo)
| ParticipantsNotFound
| ParticipantsForbidden.

Definition infoOf (p : Participant) : ParticipantInfo :=
  mkInfo (p_userId p) (p_email p) (p_status p).

(** The body of [invitations.forEach]. *)
Definition addPendingInvitation (participantsInfo : list ParticipantInfo)
    (invitation : MeetingInvitation) : list ParticipantInfo :=
  let exists_ :=
    existsb (fun p => String.eqb (pi_email p) (i_email invitation))
      participantsInfo in
  if negb exists_ && Status_eqb (i_status invitation) pending
  then participantsInfo
       ++ [mkInfo (i_userId invitation) (i_email invitation) pending]
  else participantsInfo.

Definition getMeetingParticipants (reqUser : User) (id : ObjectId)
  : M ParticipantsResponse :=
  db <- get ;;
  match findMeetingById db id with
  | None => ret ParticipantsNotFound
  | Some meeting =>
      let isHost := toStringEq (m_hostId meeting) (IdString (u_id reqUser)) in
      let isParticipant :=
        existsb (fun p => match p_userId p with
                          | Some u => toStringEq u (IdString (u_id reqUser))
                          | None => false
                          end) (m_participants meeting) in
      if negb isHost && negb isParticipant then ret ParticipantsForbidden
      else
        let invitations :=
          filter (fun i => Nat.eqb (i_meetingId i) (m_id meeting))
            (invitations db) in
        let participantsInfo :=
          fold_left addPendingInvitation invitations
            (map infoOf (m_participants meeting)) in
        ret (ParticipantsOk (List.length participantsInfo) participantsInfo)
  end.

(* ------------------------------------------------------------------ *)
(** ** [copyTimeSlots] and [updateWeekendAvailability] *)

Inductive CopyResponse : Type :=
| CopyOk (data : list DayAvailability)
| CopyBadRequest (message : string)
| CopyNotFound (message : string).

(** One iteration of the loop over the target days. [sourceSlots] is
    [sourceAvailability.slots]; no iteration writes the source entry, as
    a target that is the source day is skipped. *)
Definition copyInto (sourceDay : string) (sourceSlots : list Slot)
    (av : list DayAvailability) (targetDay : string) : list DayAvailability :=
  if String.eqb targetDay sourceDay then av
  else
    match findIndex (isDay targetDay) av with
    | None => av ++ [mkDay targetDay true sourceSlots]
    | Some targetIndex =>
        updateAt targetIndex
          (fun a => if isAvailable a
                    then mkDay (day a) (isAvailable a) sourceSlots
                    else a) av
    end.

(** [sourceDay] and [targetDays] are the fields of the body; [None] is a
    missing field (for [targetDays], also a value that is not an
    array). *)
Definition copyTimeSlots (reqUser : User) (sourceDay : option string)
    (targetDays : option (list string)) : M CopyResponse :=
  match sourceDay with
  | None => ret (CopyBadRequest "Please provide a valid source day")
  | Some sourceDay =>
      if negb (Js.truthy sourceDay)
         || negb (existsb (String.eqb sourceDay) validDays)
      then ret (CopyBadRequest "Please provide a valid source day")
      else
        match targetDays with
        | None | Some [] =>
            ret (CopyBadRequest "Please provide at least one valid target day")
        | Some targetDays =>
            match find (fun d => negb (existsb (String.eqb d) validDays))
                    targetDays with
            | Some d => ret (CopyBadRequest (d ++ " is not a valid day"))
            | None =>
                db <- get ;;
                match findUserById db (u_id reqUser) with
                | None => ret (CopyNotFound "User not found")
                | Some user =>
                    match find (isDay sourceDay) (availability user) with
                    | None =>
                        ret (CopyNotFound
                               ("Source day " ++ sourceDay
                                ++ " not found in user's availability"))
                    | Some sourceAvailability =>
                        let av :=
                          fold_left
                            (copyInto sourceDay (slots sourceAvailability))
                            targetDays (availability user) in
                        User_save (withAvailability user av) ;;;
                        ret (CopyOk av)
                    end
                end
            end
        end
  end.

(** The [saturday] or [sunday] object of the body. *)
Record WeekendDayInput : Type := mkWeekendDay {
  wd_isAvailable : option bool;
  wd_slots : option (list (option SlotInput))
}.

(** The update of one weekend day. *)
Definition setWeekendDay (d : string) (reqAvailable : option bool)
    (reqSlots : option (list (option SlotInput)))
    (av : list DayAvailability) : list DayAvailability :=
  let validatedSlots := validatedSlotsOf reqAvailable reqSlots in
  match findIndex (isDay d) av with
  | None =>
      av ++ [mkDay d (orDefault reqAvailable false)
               (match reqAvailable with
                | Some true => validatedSlots
                | _ => []
                end)]
  | Some index =>
      match reqAvailable with
      | Some b =>
          updateAt index (fun a =>
            mkDay (day a) b
              (if negb b then []
               else match validatedSlots with
                    | _ :: _ => validatedSlots
                    | [] => match slots a with
                            | [] => [allDaySlot]
                            | existing => existing
                            end
                    end)) av
      | None => av
      end
  end.

Definition applyWeekendDay (d : string) (input : option WeekendDayInput)
    (av : list DayAvailability) : list DayAvailability :=
  match input with
  | Some i => setWeekendDay d (wd_isAvailable i) (wd_slots i) av
  | None => av
  end.

Inductive WeekendResponse : Type :=
| WeekendOk (saturday sunday : option DayAvailability)
| WeekendNotFound.

Definition updateWeekendAvailability (reqUser : User)
    (saturday sunday : option WeekendDayInput) : M WeekendResponse :=
  db <- get ;;
  match findUserById db (u_id reqUser) with
  | None => ret WeekendNotFound
  | Some user =>
      let av :=
        applyWeekendDay "Sunday" sunday
          (applyWeekendDay "Saturday" saturday (availability user)) in
      User_save (withAvailability user av) ;;;
      ret (WeekendOk (find (isDay "Saturday") av) (find (isDay "Sunday") av))
  end.

(* ------------------------------------------------------------------ *)
(** ** [checkUserAvailability] *)

Definition upperChar (c : ascii) : ascii :=
  let n := nat_of_ascii c in
  if (97 <=? n)%nat && (n <=? 122)%nat then ascii_of_nat (n - 32) else c.

(** [s.toUpperCase()] on ASCII. *)
Fixpoint toUpperCase (s : string) : string :=
  match s with
  | EmptyString => EmptyString
  | String c r => String (upperChar c) (toUpperCase r)
  end.

(** [period && period.toUpperCase() === name]. *)
Definition isPeriod (period : option string) (name : string) : bool :=
  match period with
  | Some p => Js.truthy p && String.eqb (toUpperCase p) name
  | None => false
  end.

(** [parseTimeToMinutes]; [None] is NaN. *)
Definition parseTimeToMinutes (timeStr : string) : option Z :=
  if negb (Js.truthy timeStr) then Some 0%Z
  else if Js.includes ":" timeStr then
    let parts := Js.split ":" timeStr in
    match numAt parts 0, numAt parts 1 with
    | Some hours, Some minutes => Some (hours * 60 + minutes)%Z
    | _, _ => None
    end
  else if Js.includes " " timeStr then
    let parts := Js.split " " timeStr in
    let time := nth 0 parts "" in
    let period := nth_error parts 1 in
    let hm := Js.split ":" time in
    let hours :=
      match numAt hm 0 with
      | Some h =>
          if isPeriod period "PM" && (h <? 12)%Z then Some (h + 12)%Z
          else if isPeriod period "AM" && (h =? 12)%Z then Some 0%Z
          else Some h
      | None => None
      end in
    match hours, numAt hm 1 with
    | Some h, Some minutes => Some (h * 60 + minutes)%Z
    | _, _ => None
    end
  else Some 0%Z.

(** [a >= b] and [a <= b] on numbers; a comparison with NaN is false. *)
Definition geNum (a b : option Z) : bool :=
  match a, b with Some x, Some y => (y <=? x)%Z | _, _ => false end.
Definition leNum (a b : option Z) : bool :=
  match a, b with Some x, Some y => (x <=? y)%Z | _, _ => false end.

(** The body of the loop over the slots: is the window within [slot]? A
    slot with an empty bound is skipped. *)
Definition fitsSlot (meetingStartMinutes meetingEndMinutes : option Z)
    (slot : Slot) : bool :=
  Js.truthy (startTime slot) && Js.truthy (endTime slot)
  && geNum meetingStartMinutes (parseTimeToMinutes (startTime slot))
  && leNum meetingEndMinutes (parseTimeToMinutes (endTime slot)).

(** What the message of the answer says. *)
Inductive CheckMessage : Type :=
| AssumedAvailable
| NotAvailableOn (dayOfWeek : string)
| ConflictWith (meeting : Meeting)
| WithinSlot (slot : Slot)
| AllDayAvailable
| NoSlotOn (dayOfWeek : string).

(** [conflict] is the meeting whose id, title and times the answer
    reports, [None] for [null] (and for the answers without the field). *)
Inductive CheckResponse : Type :=
| CheckOk (available : bool) (message : CheckMessage)
    (conflict : option Meeting)
| CheckBadRequest
| CheckNotFound.

(** [userId && userId !== req.user.id] for the [userId] of the body. *)
Definition isOtherUser (reqUser : User) (userId : option JsId) : bool :=
  match userId with
  | Some (IdString o) => negb (Nat.eqb o (u_id reqUser))
  | Some (OtherString s) => Js.truthy s
  | Some (IdObject _) => true
  | None => false
  end.

(** The user whose availability is checked, or the answer when there is
    none. The email pattern of the User schema keeps the string form of
    an id from being a stored email. *)
Definition targetUserOf (reqUser : User) (userId : option JsId)
  : M (User + CheckResponse) :=
  db <- get ;;
  if isOtherUser reqUser userId
  then
    let id := orDefault userId (OtherString "") in
    match (match id with
           | OtherString s => findUserByEmail db s
           | _ => None
           end) with
    | Some targetUser => ret (inl targetUser)
    | None =>
        match castId id with
        | None => throw "CastError"
        | Some o =>
            match findUserById db o with
            | Some targetUser => ret (inl targetUser)
            | None => ret (inr (CheckOk true AssumedAvailable None))
            end
        end
    end
  else
    match findUserById db (u_id reqUser) with
    | Some targetUser => ret (inl targetUser)
    | None => ret (inr CheckNotFound)
    end.

(** [weekdayOf date] is
    [new Date(date).toLocaleString('en-US', { weekday: 'long' })], which
    depends on the time zone of the server. A missing field of the body
    is the empty string. *)
Definition checkUserAvailability (weekdayOf : string -> string)
    (reqUser : User) (date startTime endTime : string) (userId : option JsId)
  : M CheckResponse :=
  if negb (Js.truthy date) || negb (Js.truthy startTime)
     || negb (Js.truthy endTime)
  then ret CheckBadRequest
  else
    target <- targetUserOf reqUser userId ;;
    match target with
    | inr response => ret response
    | inl targetUser =>
        let dayOfWeek := weekdayOf date in
        match find (isDay dayOfWeek) (availability targetUser) with
        | None => ret (CheckOk false (NotAvailableOn dayOfWeek) None)
        | Some availabilityForDay =>
            if negb (isAvailable availabilityForDay)
            then ret (CheckOk false (NotAvailableOn dayOfWeek) None)
            else
              let meetingStartMinutes := parseTimeToMinutes startTime in
              let meetingEndMinutes := parseTimeToMinutes endTime in
              let availableSlot :=
                match slots availabilityForDay with
                | [] => Some AllDayAvailable
                | l =>
                    option_map WithinSlot
                      (find (fitsSlot meetingStartMinutes meetingEndMinutes) l)
                end in
              meetingConflict <-
                match availableSlot with
                | Some _ =>
                    liftR (fun db =>
                      checkTimeConflict db (IdObject (u_id targetUser)) date
                        startTime endTime None)
                | None => ret None
                end ;;
              ret (CheckOk
                     (match availableSlot, meetingConflict with
                      | Some _, None => true
                      | _, _ => false
                      end)
                     (match meetingConflict, availableSlot with
                      | Some meeting, _ => ConflictWith meeting
                      | None, Some message => message
                      | None, None => NoSlotOn dayOfWeek
                      end)
                     meetingConflict)
        end
    end.

(* ------------------------------------------------------------------ *)
(** ** Notions used to state the properties *)

(** The half-open window [[s, e)] of a date and two time strings: both
    instants are valid and the start is before the end. *)
Definition windowOf (date startTime endTime : string) : option (Z * Z) :=
  match instant date startTime, instant date endTime with
  | Some s, Some e => if (s <? e)%Z then Some (s, e) else None
  | _, _ => None
  end.

Definition meetingWindow (m : Meeting) : option (Z * Z) :=
  windowOf (m_date m) (m_startTime m) (m_endTime m).

(** The date and the two times are of the forms [YYYY-MM-DD] and
    [HH:MM] that the application writes, for which [JsDate.parse] reads
    the instants as the engine does. *)
Definition timed (date startTime endTime : string) : Prop :=
  instant date startTime <> None /\ instant date endTime <> None.

Definition meetingTimed (m : Meeting) : Prop :=
  timed (m_date m) (m_startTime m) (m_endTime m).

(** Every stored meeting has its date and times in those forms. *)
Definition storeTimed (db : DB) : Prop :=
  forall m, In m (meetings db) -> meetingTimed m.

(** Overlap of two half-open windows, as the specification writes it. *)
Definition halfOpenOverlap (s1 e1 s2 e2 : Z) : Prop :=
  (s1 < e2 /\ s2 < e1)%Z.

(** The start of the day a date string names, when it has the form
    [YYYY-MM-DD] that [JsDate.parse] accepts. *)
Definition dayBase (date : string) : option Z :=
  if (String.length date =? 10)%nat
     && JsDate.charAt date 4 "-" && JsDate.charAt date 7 "-"
  then
    match Js.digits (substring 0 4 date) 0, Js.digits (substring 5 2 date) 0,
          Js.digits (substring 8 2 date) 0 with
    | Some y, Some m, Some d =>
        if ((1 <=? m) && (m <=? 12) && (1 <=? d) && (d <=? 31))%Z
        then Some (JsDate.MakeDay y (m - 1) d * JsDate.msPerDay)%Z
        else None
    | _, _, _ => None
    end
  else None.

(** The time string [h1 h2 : m1 m2]. *)
Definition hhmm (h1 h2 m1 m2 : ascii) : string :=
  String h1 (String h2 (String ":" (String m1 (String m2 "")))).

(** The milliseconds into the day of that time string. *)
Definition timeOfDay (h1 h2 m1 m2 : ascii) : option Z :=
  match Js.digits (String h1 (String h2 "")) 0,
        Js.digits (String m1 (String m2 "")) 0 with
  | Some h, Some mi =>
      if ((mi <=? 59) && ((h <=? 23) || ((h =? 24) && (mi =? 0))))%Z
      then Some (h * JsDate.msPerHour + mi * JsDate.msPerMinute)%Z
      else None
  | _, _ => None
  end.

(** The four lists of the dashboard. *)
Inductive Bucket : Type := Upcoming | Pending | Canceled | Past.

Definition Bucket_eqb (a b : Bucket) : bool :=
  match a, b with
  | Upcoming, Upcoming | Pending, Pending | Canceled, Canceled | Past, Past =>
      true
  | _, _ => false
  end.

(** The classification precedence of the specification: the first rule
    that matches wins; a meeting matching none is dropped. *)
Definition precedence (past cancelledOrRejected pendingNotHost acceptedOrHost
    : bool) : option Bucket :=
  if past then Some Past
  else if cancelledOrRejected then Some Canceled
  else if pendingNotHost then Some Pending
  else if acceptedOrHost then Some Upcoming
  else None.

(** The list a processed meeting belongs to by that precedence, with the
    entry made for it; [None] for a meeting the loop leaves out: one
    whose day or end is an Invalid Date, or without a participant record
    of the user. The host test is the one of the rebuild,
    [meeting.hostId.toString() === userId]. *)
Definition bucketOf (now : Z) (userId : JsId) (user : User) (meeting : Meeting)
  : option (Bucket * MeetingItem) :=
  if logThrows meeting then None
  else
  match find (isRecordOf userId user) (m_participants meeting) with
  | None => None
  | Some record =>
      let status := p_status record in
      let isHost := toStringEq (m_hostId meeting) userId in
      option_map (fun b => (b, meetingData meeting status))
        (precedence (isPastAt now meeting)
           (String.eqb (m_status meeting) "cancelled"
            || Status_eqb status rejected)
           (Status_eqb status pending && negb isHost)
           (Status_eqb status accepted || isHost))
  end.

(** The entries of list [b], in the order of the meetings. *)
Definition bucketItems (b : Bucket) (now : Z) (userId : JsId) (user : User)
    (ms : list Meeting) : list MeetingItem :=
  flat_map (fun meeting =>
              match bucketOf now userId user meeting with
              | Some (b', x) => if Bucket_eqb b b' then [x] else []
              | None => []
              end) ms.

(** The lists the rebuild computes for a user. *)
Definition rebuiltBooking (db : DB) (now : Z) (userId : JsId) (uid : ObjectId)
    (user : User) : Booking :=
  bookingOf uid
    (fold_left (processMeeting now userId user)
       (filter (involves uid) (meetings db)) emptyBuckets).








(** The entry reported for a participant: it is accepted, has a user id,
    and the detector finds a conflict for it at the new time, the edited
    meeting left out. *)
Definition conflictEntryOf (db : DB) (body : UpdateBody) (meeting : Meeting)
    (p : Participant) : option ConflictEntry :=
  match p_status p, p_userId p with
  | accepted, Some uid =>
      match find (conflictsWith (orCurrent (ub_date body) (m_date meeting))
                    (orCurrent (ub_startTime body) (m_startTime meeting))
                    (orCurrent (ub_endTime body) (m_endTime meeting)))
              (userMeetings db uid (orCurrent (ub_date body) (m_date meeting))
                 (Some (m_id meeting))) with
      | Some _ => Some (mkConflictEntry uid (p_email p))
      | None => None
      end
  | _, _ => None
  end.

Definition conflictsOf (db : DB) (body : UpdateBody) (meeting : Meeting)
  : list ConflictEntry :=
  flat_map (fun p => match conflictEntryOf db body meeting p with
                     | Some c => [c]
                     | None => []
                     end) (m_participants meeting).




(** The invariant of the specification on a stored day: an unavailable
    day has no slot, an available day has at least one. *)
Definition canonicalDay (a : DayAvailability) : Prop :=
  (isAvailable a = false -> slots a = [])
  /\ (isAvailable a = true -> slots a <> []).

(** The slot list the per-day update stores for an available day: the
    normalized slots of the request, or one all-day slot when the
    request's array leaves none; without an array, the slots the day
    had, or one all-day slot when it had none. *)
Definition storedSlots (reqSlots : option (list (option SlotInput)))
    (old : option DayAvailability) : list Slot :=
  match reqSlots, old with
  | Some l, _ =>
      match normalizeSlots l with
      | [] => [allDaySlot]
      | v => v
      end
  | None, Some a =>
      match slots a with
      | [] => [allDaySlot]
      | existing => existing
      end
  | None, None => []
  end.

(* ------------------------------------------------------------------ *)
(** ** Stores of the examples *)

(** A fixed clock for the examples: 2025-03-01, 12:00 local time. *)
Definition sampleNow : Z := 1740830400000.

(** A small store used by the examples: Asha (id 1) and Bilal (id 2). *)
Definition asha : User := mkUser 1 "Asha" "a@x.com" [].
Definition bilal : User := mkUser 2 "Bilal" "b@x.com" [].

Definition sampleMeeting (id host : ObjectId) (date startTime endTime : string)
    (ps : list Participant) : Meeting :=
  mkMeeting id host "Sync" "" date startTime endTime 60 "Asia/Kolkata" ""
    "upcoming" true ps.

Definition acceptedEntry (u : User) : Participant :=
  mkParticipant (Some (u_id u)) (u_email u) accepted None.

Definition pendingEntry (u : User) : Participant :=
  mkParticipant (Some (u_id u)) (u_email u) pending None.

(** The store of the examples for the detector: Bilal hosts a meeting
    from 10:00 to 11:00. *)
Definition detectorStore : DB :=
  mkDB [asha; bilal]
    [sampleMeeting 10 2 "2025-03-10" "10:00" "11:00" [acceptedEntry bilal]]
    [] [].

(** The store of the examples for the rebuild: Asha hosts two meetings
    with Bilal, one in the past that he rejected and one to come for
    which he is pending and holds a pending invitation. *)
Definition dashboardStore : DB :=
  mkDB [asha; bilal]
    [sampleMeeting 10 1 "2025-02-20" "09:00" "10:00"
       [mkParticipant (Some 2) "b@x.com" rejected None; acceptedEntry asha];
     sampleMeeting 11 1 "2025-03-10" "09:00" "10:00"
       [pendingEntry bilal; acceptedEntry asha]]
    [mkInvitation 20 11 (Some 2) "b@x.com" pending]
    [].

(** The store of the examples for the host test: Asha hosts meeting 10,
    to come, in which her own entry is pending, ahead of the accepted
    entry that the creation appends for the host. *)
Definition hostPendingStore : DB :=
  mkDB [asha; bilal]
    [sampleMeeting 10 1 "2025-03-10" "09:00" "10:00"
       [pendingEntry asha; acceptedEntry asha]]
    [] [].




(** The store of the examples for the update: Asha hosts two meetings on
    2025-03-10, 09:00-10:00 with Bilal accepted and 11:00-12:00 alone;
    Bilal hosts one from 14:00 to 15:00. *)
Definition updateStore : DB :=
  mkDB [asha; bilal]
    [sampleMeeting 10 1 "2025-03-10" "09:00" "10:00"
       [acceptedEntry bilal; acceptedEntry asha];
     sampleMeeting 11 1 "2025-03-10" "11:00" "12:00" [acceptedEntry asha];
     sampleMeeting 12 2 "2025-03-10" "14:00" "15:00" [acceptedEntry bilal]]
    [] [].

Definition moveTo (startTime endTime : string) : UpdateBody :=
  mkUpdateBody None None None (Some startTime) (Some endTime) None None.



(** The store of the examples for availability: Bilal is available on
    Monday from 09:00 to 17:00. *)
Definition bilalMonday : User :=
  mkUser 2 "Bilal" "b@x.com" [mkDay "Monday" true [mkSlot "09:00" "17:00"]].

Definition availabilityStore : DB := mkDB [asha; bilalMonday] [] [] [].

(** Does the rebuild file the meeting at all? *)
Definition hasBucket (now : Z) (userId : JsId) (user : User) (meeting : Meeting)
  : bool :=
  match bucketOf now userId user meeting with
  | Some _ => true
  | None => false
  end.

(** The list of a Booking that goes with a bucket. *)
Definition listOf (b : Bucket) (booking : Booking) : list MeetingItem :=
  match b with
  | Upcoming => upcomingMeetings booking
  | Pending => pendingMeetings booking
  | Canceled => canceledMeetings booking
  | Past => pastMeetings booking
  end.

(** The rebuild of the dashboards of a list of users, one after the
    other, as the loops of [deleteMeeting] and [updateMeeting] run it. *)
Definition rebuildEach (now : Z) (ids : list ObjectId) : M unit :=
  forEach ids (fun userId => updateUserBookings now (IdObject userId) ;;; ret tt).


(** The store after the two deletions of [deleteMeeting]. *)
Definition afterDelete (db : DB) (id : ObjectId) : DB :=
  setMeetings
    (setInvitations db
       (filter (fun i => negb (Nat.eqb (i_meetingId i) id)) (invitations db)))
    (filter (fun m => negb (Nat.eqb (m_id m) id)) (meetings db)).


(** The predicate of [meeting.participants.findIndex] in
    [respondToInvitation]. *)
Definition respondsFor (reqUser : User) (invitation : MeetingInvitation)
    (p : Participant) : bool :=
  match p_userId p with
  | Some u => toStringEq u (IdString (u_id reqUser))
  | None => false
  end
  || String.eqb (p_email p) (i_email invitation).

(** The meeting as [respondToInvitation] saves it. *)
Definition respondedMeeting (now : Z) (reqUser : User)
    (invitation : MeetingInvitation) (status : Status) (meeting : Meeting)
  : Meeting :=
  withParticipants meeting
    (respondParticipants now reqUser (withStatus invitation status) status
       (m_participants meeting)).

(** The store after the two saves of [respondToInvitation]. *)
Definition afterRespond (now : Z) (reqUser : User)
    (invitation : MeetingInvitation) (status : Status) (meeting : Meeting)
    (db : DB) : DB :=
  setMeetings
    (setInvitations db
       (replaceInvitation (withStatus invitation status) (invitations db)))
    (replaceMeeting (respondedMeeting now reqUser invitation status meeting)
       (meetings db)).

(** The entries a list endpoint answers with; nothing when it answers
    without a list. *)
Definition dataOf (r : Result ListResponse * DB) : list MeetingItem :=
  match fst r with
  | Ok (ListOk _ _ data) => data
  | _ => []
  end.

(** The pending invitations of a meeting. *)
Definition pendingInvitationsOf (db : DB) (meeting : Meeting)
  : list MeetingInvitation :=
  filter (fun i => Status_eqb (i_status i) pending)
    (filter (fun i => Nat.eqb (i_meetingId i) (m_id meeting)) (invitations db)).

(** The entry of a target day after a copy of [sourceSlots]: a day that
    was not stored is added as available, an available day takes the
    slots, an unavailable day stays as it was. *)
Definition copiedEntry (sourceSlots : list Slot) (d : string)
    (old : option DayAvailability) : DayAvailability :=
  match old with
  | None => mkDay d true sourceSlots
  | Some a => if isAvailable a then mkDay (day a) true sourceSlots else a
  end.

(** The entry of a weekend day after [updateWeekendAvailability]. *)
Definition weekendEntry (d : string) (input : option WeekendDayInput)
    (old : option DayAvailability) : option DayAvailability :=
  match input with
  | None => old
  | Some i =>
      match wd_isAvailable i with
      | Some b =>
          Some (mkDay d b (if b then storedSlots (wd_slots i) old else []))
      | None =>
          match old with
          | Some a => Some a
          | None => Some (mkDay d false [])
          end
      end
  end.

(* ------------------------------------------------------------------ *)
(** ** Properties of the conflict detector *)

Section OverlapTest.

Variables s1 e1 s2 e2 : Z.

Lemma overlapTest_spec :
  (s1 < e1)%Z -> (s2 < e2)%Z ->
  overlapTest (Some s1) (Some e1) (Some s2) (Some e2) = true
  <-> halfOpenOverlap s1 e1 s2 e2.
Proof.
  intros H1 H2. unfold overlapTest, halfOpenOverlap, JsDate.ge, JsDate.gt,
    JsDate.le, JsDate.lt.
  rewrite !orb_true_iff, !andb_true_iff, !Z.ltb_lt, !Z.leb_le. lia.
Qed.

End OverlapTest.

Lemma overlapTest_sym (s1 e1 s2 e2 : Z) :
  (s1 < e1)%Z -> (s2 < e2)%Z ->
  overlapTest (Some s1) (Some e1) (Some s2) (Some e2)
  = overlapTest (Some s2) (Some e2) (Some s1) (Some e1).
Proof.
  intros H1 H2.
  apply eq_true_iff_eq.
  rewrite (overlapTest_spec H1 H2), (overlapTest_spec H2 H1).
  unfold halfOpenOverlap. lia.
Qed.

Lemma windowOf_inv (date startTime endTime : string) (s e : Z) :
  windowOf date startTime endTime = Some (s, e) ->
  instant date startTime = Some s /\ instant date endTime = Some e /\ (s < e)%Z.
Proof.
  unfold windowOf.
  destruct (instant date startTime) as [a|]; [|discriminate].
  destruct (instant date endTime) as [b|]; [|discriminate].
  destruct (a <? b)%Z eqn:E; [|discriminate].
  intros H. inversion H; subst. apply Z.ltb_lt in E. auto.
Qed.

Lemma conflictsWith_spec (date startTime endTime : string) (m : Meeting)
    (s1 e1 s2 e2 : Z) :
  windowOf date startTime endTime = Some (s1, e1) ->
  meetingWindow m = Some (s2, e2) ->
  conflictsWith date startTime endTime m = true <-> halfOpenOverlap s1 e1 s2 e2.
Proof.
  intros Hc Hm.
  apply windowOf_inv in Hc. destruct Hc as (Hs1 & He1 & L1).
  apply windowOf_inv in Hm. destruct Hm as (Hs2 & He2 & L2).
  unfold conflictsWith. rewrite Hs1, He1, Hs2, He2.
  apply overlapTest_spec; assumption.
Qed.

Lemma length_append_gt (s t : string) (n : nat) :
  (n < String.length t)%nat -> (String.length (s ++ t) =? n)%nat = false.
Proof.
  intros H. apply Nat.eqb_neq.
  assert (L : String.length (s ++ t) = (String.length s + String.length t)%nat).
  { induction s as [|c s IH]; cbn; [reflexivity|]. rewrite IH. reflexivity. }
  rewrite L. lia.
Qed.

(** The instant of a date and a time [HH:MM] is the start of the day
    plus the time of day, for every date string. *)
Lemma instant_hhmm (date : string) (h1 h2 m1 m2 : ascii) :
  instant date (hhmm h1 h2 m1 m2)
  = match dayBase date, timeOfDay h1 h2 m1 m2 with
    | Some b, Some t => JsDate.TimeClip (b + t)%Z
    | _, _ => None
    end.
Proof.
  do 10 (destruct date as [|? date]; [reflexivity|]).
  destruct date as [|? date].
  - unfold instant, JsDate.parse, dayBase, timeOfDay, hhmm, JsDate.charAt.
    cbn [String.length String.append String.get substring Nat.eqb andb
           Js.digits].
    rewrite !andb_true_r.
    repeat match goal with
    | |- context [(?x =? ?y)%char] =>
        destruct (x =? y)%char; cbn [andb]; try reflexivity
    end.
    repeat match goal with
    | |- context [Js.isDigit ?c] => destruct (Js.isDigit c); try reflexivity
    end.
    repeat match goal with
    | |- context [(?x <=? ?y)%Z] =>
        destruct (x <=? y)%Z; cbn [andb orb]; try reflexivity
    end.
    all: repeat match goal with
    | |- context [(?x =? ?y)%Z] =>
        destruct (x =? y)%Z; cbn [andb orb]; try reflexivity
    end.
    all: try (rewrite Z.add_assoc; reflexivity).
    all: match goal with
         | |- None = match (if ?c then _ else _) with _ => _ end =>
             destruct c; reflexivity
         end.
  - unfold instant, JsDate.parse, dayBase.
    cbn [String.length String.append Nat.eqb andb hhmm].
    rewrite length_append_gt; [reflexivity|cbn; lia].
Qed.

Lemma TimeClip_some (u a : Z) : JsDate.TimeClip u = Some a -> a = u.
Proof. unfold JsDate.TimeClip. destruct (_ <=? _)%Z; congruence. Qed.

Lemma overlapTest_adjacent (x y z : JsDate.Date) :
  (forall a b, x = Some a -> y = Some b -> (a < b)%Z) ->
  (forall b c, y = Some b -> z = Some c -> (b < c)%Z) ->
  overlapTest x y y z = false.
Proof.
  intros H1 H2. unfold overlapTest, JsDate.ge, JsDate.gt, JsDate.le, JsDate.lt.
  destruct x as [a|], y as [b|], z as [c|]; try reflexivity;
    try specialize (H1 _ _ eq_refl eq_refl);
    try specialize (H2 _ _ eq_refl eq_refl);
    rewrite ?andb_false_r, ?orb_false_r;
    rewrite ?orb_false_iff, ?andb_false_iff, ?Z.ltb_ge, ?Z.leb_gt; lia.
Qed.

(** On any date, 09:00-10:00 against a meeting 10:00-11:00 of that date
    never passes the overlap test, and 09:00-10:30 passes it whenever
    the two instants of the meeting are valid. *)
Lemma conflictsWith_morning (date : string) (m : Meeting) :
  m_date m = date -> m_startTime m = "10:00" -> m_endTime m = "11:00" ->
  conflictsWith date "09:00" "10:00" m = false
  /\ (meetingWindow m <> None ->
      conflictsWith date "09:00" "10:30" m = true).
Proof.
  intros Hd Hs He. unfold conflictsWith, meetingWindow, windowOf.
  rewrite Hd, Hs, He.
  change "09:00" with (hhmm "0" "9" "0" "0").
  change "10:00" with (hhmm "1" "0" "0" "0").
  change "10:30" with (hhmm "1" "0" "3" "0").
  change "11:00" with (hhmm "1" "1" "0" "0").
  rewrite !instant_hhmm.
  change (timeOfDay "0" "9" "0" "0") with (Some 32400000%Z).
  change (timeOfDay "1" "0" "0" "0") with (Some 36000000%Z).
  change (timeOfDay "1" "0" "3" "0") with (Some 37800000%Z).
  change (timeOfDay "1" "1" "0" "0") with (Some 39600000%Z).
  destruct (dayBase date) as [b|]; [|split; [reflexivity|congruence]].
  split.
  - apply overlapTest_adjacent; intros u v Hu Hv;
      apply TimeClip_some in Hu; apply TimeClip_some in Hv; lia.
  - unfold JsDate.TimeClip.
    destruct (Z.leb_spec (Z.abs (b + 36000000)) 8640000000000000) as [L1|L1];
      [|congruence].
    destruct (Z.leb_spec (Z.abs (b + 39600000)) 8640000000000000) as [L2|L2];
      [intros _|congruence].
    destruct (Z.leb_spec (Z.abs (b + 37800000)) 8640000000000000) as [L3|L3];
      [|lia].
    unfold overlapTest, JsDate.ge, JsDate.gt, JsDate.le, JsDate.lt.
    apply orb_true_iff. left. apply orb_true_iff. right.
    destruct (Z.abs (b + 32400000) <=? 8640000000000000)%Z;
      apply andb_true_iff; rewrite Z.ltb_lt, Z.leb_le; lia.
Qed.

(** With an ObjectId the detector scans the fetched meetings for the
    first one passing the overlap test. *)
Lemma checkTimeConflict_object (db : DB) (uid : ObjectId)
    (date startTime endTime : string) (exclude : option ObjectId) :
  checkTimeConflict db (IdObject uid) date startTime endTime exclude
  = Ok (find (conflictsWith date startTime endTime)
          (userMeetings db uid date exclude)).
Proof. reflexivity. Qed.

(** C1, as the code has it. For a candidate window and fetched meetings
    whose windows have their start before their end, [checkTimeConflict]
    reports a conflict exactly when the candidate overlaps a fetched
    meeting as half-open windows, [s1 < e2 /\ s2 < e1]; the meeting it
    returns is a fetched one that overlaps; the test is symmetric in the
    two windows; and a meeting that starts at the time string at which
    the candidate ends, on the same date, does not conflict. On every
    date, 09:00-10:00 does not conflict with a meeting 10:00-11:00 of
    that date, and 09:00-10:30 does. *)
Theorem checkTimeConflict_half_open :
  forall (db : DB) (uid : ObjectId) (date startTime endTime : string)
         (exclude : option ObjectId) (s1 e1 : Z),
    windowOf date startTime endTime = Some (s1, e1) ->
    (forall m, In m (userMeetings db uid date exclude) ->
               meetingWindow m <> None) ->
    (forall m s2 e2, meetingWindow m = Some (s2, e2) ->
       (conflictsWith date startTime endTime m = true
        <-> halfOpenOverlap s1 e1 s2 e2)
       /\ overlapTest (Some s1) (Some e1) (Some s2) (Some e2)
          = overlapTest (Some s2) (Some e2) (Some s1) (Some e1))
    /\ (forall m, m_date m = date -> m_startTime m = endTime ->
                  meetingWindow m <> None ->
                  conflictsWith date startTime endTime m = false)
    /\ (forall m,
          checkTimeConflict db (IdObject uid) date startTime endTime exclude
          = Ok (Some m) ->
          In m (userMeetings db uid date exclude)
          /\ exists s2 e2, meetingWindow m = Some (s2, e2)
                           /\ halfOpenOverlap s1 e1 s2 e2)
    /\ (checkTimeConflict db (IdObject uid) date startTime endTime exclude
        = Ok None
        <-> forall m s2 e2, In m (userMeetings db uid date exclude) ->
              meetingWindow m = Some (s2, e2) ->
              ~ halfOpenOverlap s1 e1 s2 e2)
    /\ (forall day m,
          m_date m = day -> m_startTime m = "10:00" -> m_endTime m = "11:00" ->
          conflictsWith day "09:00" "10:00" m = false
          /\ (meetingWindow m <> None ->
              conflictsWith day "09:00" "10:30" m = true)).
Proof.
  intros db uid date startTime endTime exclude s1 e1 Hc Hall.
  assert (Hpair : forall m s2 e2, meetingWindow m = Some (s2, e2) ->
            (conflictsWith date startTime endTime m = true
             <-> halfOpenOverlap s1 e1 s2 e2)).
  { intros m s2 e2 Hm. apply conflictsWith_spec; assumption. }
  split; [|split; [|split; [|split]]].
  - intros m s2 e2 Hm. split; [apply Hpair; assumption|].
    apply windowOf_inv in Hc. apply windowOf_inv in Hm.
    apply overlapTest_sym; tauto.
  - intros m Hd Hs Hw.
    destruct (meetingWindow m) as [[s2 e2]|] eqn:Hm; [|congruence].
    destruct (conflictsWith date startTime endTime m) eqn:E; [|reflexivity].
    exfalso. apply (Hpair m s2 e2 Hm) in E.
    pose proof (windowOf_inv _ _ _ Hc) as (_ & He1 & _).
    pose proof (windowOf_inv _ _ _ Hm) as (Hs2 & _ & _).
    rewrite Hd, Hs, He1 in Hs2. inversion Hs2; subst.
    unfold halfOpenOverlap in E. lia.
  - intros m H. rewrite checkTimeConflict_object in H.
    inversion H as [Hf]. apply find_some in Hf. destruct Hf as [Hin Hcw].
    split; [assumption|].
    destruct (meetingWindow m) as [[s2 e2]|] eqn:Hm.
    + exists s2, e2. split; [reflexivity|]. apply (Hpair m s2 e2 Hm). assumption.
    + exfalso. apply (Hall m Hin). assumption.
  - rewrite checkTimeConflict_object. split.
    + intros H m s2 e2 Hin Hm Hov. inversion H as [Hf].
      pose proof (find_none _ _ Hf m Hin) as Hn.
      apply (Hpair m s2 e2 Hm) in Hov. congruence.
    + intros H.
      destruct (find (conflictsWith date startTime endTime)
                  (userMeetings db uid date exclude)) as [m|] eqn:Hf;
        [|reflexivity].
      exfalso. apply find_some in Hf. destruct Hf as [Hin Hcw].
      destruct (meetingWindow m) as [[s2 e2]|] eqn:Hm.
      * apply (H m s2 e2 Hin Hm). apply (Hpair m s2 e2 Hm). assumption.
      * apply (Hall m Hin). assumption.
  - exact conflictsWith_morning.
Qed.

(** The two windows of the specification, on 2025-03-10: 09:00-10:00
    against Bilal's 10:00-11:00 reports nothing, 09:00-10:30 reports his
    meeting. *)
Lemma checkTimeConflict_half_open_witness :
  checkTimeConflict detectorStore (IdObject 2) "2025-03-10" "09:00" "10:00" None
  = Ok None
  /\ exists m,
       checkTimeConflict detectorStore (IdObject 2) "2025-03-10" "09:00" "10:30"
         None = Ok (Some m).
Proof.
  split.
  - apply (checkTimeConflict_half_open detectorStore 2 "2025-03-10" "09:00"
             "10:00" None (s1 := 1741597200000%Z) (e1 := 1741600800000%Z)).
    + reflexivity.
    + intros m [H|[]]; subst; vm_compute; discriminate.
    + intros m s2 e2 [H|[]] Hm; subst. vm_compute in Hm.
      inversion Hm; subst. unfold halfOpenOverlap. lia.
  - eexists. vm_compute. reflexivity.
Defined.

(** C1, as stated, fails on a window whose start is not before its end:
    a candidate 10:00-10:00 against a meeting 10:00-11:00 is reported as a
    conflict, although [s1 < e2 /\ s2 < e1] is false there. *)
Lemma checkTimeConflict_empty_window_conflicts :
  exists m s1 e1 s2 e2,
    checkTimeConflict detectorStore (IdObject 2) "2025-03-10" "10:00" "10:00"
      None = Ok (Some m)
    /\ instant "2025-03-10" "10:00" = Some s1
    /\ instant "2025-03-10" "10:00" = Some e1
    /\ instant (m_date m) (m_startTime m) = Some s2
    /\ instant (m_date m) (m_endTime m) = Some e2
    /\ ~ (s1 < e2 /\ s2 < e1)%Z.
Proof.
  eexists. exists 1741600800000%Z, 1741600800000%Z, 1741600800000%Z,
    1741604400000%Z.
  repeat split; try (vm_compute; reflexivity).
  lia.
Qed.

(* ------------------------------------------------------------------ *)
(** ** Properties of the booking projection *)

Lemma processMeeting_bucketOf (now : Z) (userId : JsId) (user : User)
    (acc : Buckets) (meeting : Meeting) :
  processMeeting now userId user acc meeting
  = match bucketOf now userId user meeting with
    | Some (Upcoming, x) => pushUpcoming acc x
    | Some (Pending, x) => pushPending acc x
    | Some (Canceled, x) => pushCanceled acc x
    | Some (Past, x) => pushPast acc x
    | None => acc
    end.
Proof.
  unfold processMeeting, bucketOf, precedence.
  destruct (logThrows meeting); [reflexivity|].
  destruct (find (isRecordOf userId user) (m_participants meeting)) as [r|];
    [|reflexivity].
  destruct (isPastAt now meeting); [reflexivity|].
  destruct (String.eqb (m_status meeting) "cancelled"
            || Status_eqb (p_status r) rejected); [reflexivity|].
  destruct (Status_eqb (p_status r) pending
            && negb (toStringEq (m_hostId meeting) userId)); [reflexivity|].
  destruct (Status_eqb (p_status r) accepted
            || toStringEq (m_hostId meeting) userId); reflexivity.
Qed.

(** The loop of the rebuild sorts every processed meeting into the list
    the precedence gives it, keeping the order of the meetings. *)
Lemma fold_processMeeting (now : Z) (userId : JsId) (user : User)
    (ms : list Meeting) :
  forall acc,
    fold_left (processMeeting now userId user) ms acc
    = mkBuckets
        (bk_upcoming acc ++ bucketItems Upcoming now userId user ms)
        (bk_pending acc ++ bucketItems Pending now userId user ms)
        (bk_canceled acc ++ bucketItems Canceled now userId user ms)
        (bk_past acc ++ bucketItems Past now userId user ms).
Proof.
  induction ms as [|m ms IH]; intros acc.
  - cbn. rewrite !app_nil_r. destruct acc; reflexivity.
  - cbn [fold_left]. rewrite IH, processMeeting_bucketOf.
    unfold bucketItems. cbn [flat_map].
    destruct (bucketOf now userId user m) as [[[] x]|];
      cbn; rewrite <- ?app_assoc, ?app_nil_r; reflexivity.
Qed.

Lemma find_upsertBooking (b : Booking) (bs : list Booking) :
  find (fun x => Nat.eqb (b_userId x) (b_userId b)) (upsertBooking b bs)
  = Some b.
Proof.
  induction bs as [|x bs IH]; cbn.
  - rewrite Nat.eqb_refl. reflexivity.
  - destruct (Nat.eqb (b_userId x) (b_userId b)) eqn:E; cbn.
    + rewrite Nat.eqb_refl. reflexivity.
    + rewrite E. exact IH.
Qed.

Lemma upsertBooking_idem (b : Booking) (bs : list Booking) :
  upsertBooking b (upsertBooking b bs) = upsertBooking b bs.
Proof.
  induction bs as [|x bs IH]; cbn.
  - rewrite Nat.eqb_refl. reflexivity.
  - destruct (Nat.eqb (b_userId x) (b_userId b)) eqn:E; cbn.
    + rewrite Nat.eqb_refl. reflexivity.
    + rewrite E, IH. reflexivity.
Qed.

Lemma upsertBooking_others (b : Booking) (bs : list Booking) :
  filter (fun x => negb (Nat.eqb (b_userId x) (b_userId b))) (upsertBooking b bs)
  = filter (fun x => negb (Nat.eqb (b_userId x) (b_userId b))) bs.
Proof.
  induction bs as [|x bs IH]; cbn.
  - rewrite Nat.eqb_refl. reflexivity.
  - destruct (Nat.eqb (b_userId x) (b_userId b)) eqn:E; cbn.
    + rewrite Nat.eqb_refl. reflexivity.
    + rewrite E. cbn. rewrite IH. reflexivity.
Qed.

Lemma updateUserBookings_found (db : DB) (now : Z) (userId : JsId)
    (uid : ObjectId) (user : User) :
  castId userId = Some uid ->
  findUserById db uid = Some user ->
  updateUserBookings now userId db
  = (Ok (Some (rebuiltBooking db now userId uid user)),
     setBookings db
       (upsertBooking (rebuiltBooking db now userId uid user) (bookings db))).
Proof.
  intros Hc Hu. unfold updateUserBookings, bind, get, put, ret.
  rewrite Hc, Hu. reflexivity.
Qed.


Lemma in_bucketItems (b : Bucket) (now : Z) (userId : JsId) (user : User)
    (ms : list Meeting) (x : MeetingItem) :
  In x (bucketItems b now userId user ms)
  <-> exists m, In m ms /\ bucketOf now userId user m = Some (b, x).
Proof.
  unfold bucketItems. rewrite in_flat_map. split.
  - intros (m & Hin & Hx). exists m. split; [assumption|].
    destruct (bucketOf now userId user m) as [[b' y]|]; [|destruct Hx].
    destruct (Bucket_eqb b b') eqn:E; [|destruct Hx].
    destruct Hx as [Hx|[]]. subst.
    destruct b, b'; try discriminate; reflexivity.
  - intros (m & Hin & Hb). exists m. split; [assumption|]. rewrite Hb.
    destruct b; left; reflexivity.
Qed.

Lemma bucketOf_inv (now : Z) (userId : JsId) (user : User) (m : Meeting)
    (b : Bucket) (x : MeetingItem) :
  bucketOf now userId user m = Some (b, x) ->
  exists r,
    find (isRecordOf userId user) (m_participants m) = Some r
    /\ x = meetingData m (p_status r)
    /\ precedence (isPastAt now m)
         (String.eqb (m_status m) "cancelled" || Status_eqb (p_status r) rejected)
         (Status_eqb (p_status r) pending
          && negb (toStringEq (m_hostId m) userId))
         (Status_eqb (p_status r) accepted || toStringEq (m_hostId m) userId)
       = Some b.
Proof.
  unfold bucketOf. destruct (logThrows m); [discriminate|].
  destruct (find (isRecordOf userId user) (m_participants m)) as [r|];
    [|discriminate].
  cbv zeta. destruct (precedence _ _ _ _) as [b'|] eqn:E; [|discriminate].
  cbn. intros H. inversion H; subst. exists r. repeat split. exact E.
Qed.

Lemma rebuiltBooking_lists (db : DB) (now : Z) (userId : JsId) (uid : ObjectId)
    (user : User) (b : Bucket) :
  listOf b (rebuiltBooking db now userId uid user)
  = bucketItems b now userId user (filter (involves uid) (meetings db)).
Proof.
  unfold rebuiltBooking. rewrite fold_processMeeting. destruct b; reflexivity.
Qed.

Lemma Status_eqb_eq (a b : Status) : Status_eqb a b = true -> a = b.
Proof. destruct a, b; cbn; congruence. Qed.

Lemma NoDup_map_inj {A B : Type} (f : A -> B) (l : list A) (a b : A) :
  NoDup (map f l) -> In a l -> In b l -> f a = f b -> a = b.
Proof.
  induction l as [|x l IH]; intros Hnd Ha Hb Hf; [destruct Ha|].
  cbn in Hnd. inversion Hnd as [|? ? Hnot Hnd']; subst.
  destruct Ha as [Ha|Ha], Hb as [Hb|Hb]; subst.
  - reflexivity.
  - exfalso. apply Hnot. rewrite Hf. apply in_map. assumption.
  - exfalso. apply Hnot. rewrite <- Hf. apply in_map. assumption.
  - apply IH; assumption.
Qed.

(** C3, on the code. The rebuild tests "the user is host" by
    [meeting.hostId.toString() === userId], and the handlers that rebuild
    the dashboard of a participant or of the host ([createMeeting] for an
    invitee, [updateMeeting], [deleteMeeting], [respondToInvitation] for
    the host) pass an ObjectId, for which the test is false. Called that
    way for the host of a meeting that is not past, not cancelled and in
    which the host's own participant record is pending, the rebuild
    files the meeting under pending and, meeting ids being unique, not
    under upcoming, where rule (4) of the precedence puts the meetings of
    their host. *)
Theorem updateUserBookings_host_filed_pending :
  forall (db : DB) (now : Z) (uid : ObjectId) (user : User)
         (meeting : Meeting) (record : Participant),
    findUserById db uid = Some user ->
    In meeting (meetings db) ->
    m_hostId meeting = uid ->
    logThrows meeting = false ->
    isPastAt now meeting = false ->
    String.eqb (m_status meeting) "cancelled" = false ->
    find (isRecordOf (IdObject uid) user) (m_participants meeting)
    = Some record ->
    p_status record = pending ->
    exists booking db',
      updateUserBookings now (IdObject uid) db = (Ok (Some booking), db')
      /\ findBookingByUser db' uid = Some booking
      /\ In (mkItem (m_id meeting) (m_title meeting) (m_date meeting)
               (m_startTime meeting) (m_endTime meeting) pending uid
               (m_isActive meeting) None) (pendingMeetings booking)
      /\ (NoDup (map m_id (meetings db)) ->
          forall x, In x (upcomingMeetings booking) ->
                    it_meetingId x <> m_id meeting).
Proof.
  intros db now uid user meeting record Hu Hin Hh Hl Hp Hs Hf Hst.
  assert (Hb : bucketOf now (IdObject uid) user meeting
               = Some (Pending,
                       mkItem (m_id meeting) (m_title meeting) (m_date meeting)
                         (m_startTime meeting) (m_endTime meeting) pending uid
                         (m_isActive meeting) None)).
  { unfold bucketOf. rewrite Hl, Hf, Hp, Hs, Hst. cbn.
    unfold meetingData. rewrite Hh. reflexivity. }
  assert (Hinv : In meeting (filter (involves uid) (meetings db))).
  { apply filter_In. split; [assumption|].
    unfold involves. rewrite Hh, Nat.eqb_refl. reflexivity. }
  exists (rebuiltBooking db now (IdObject uid) uid user). eexists.
  split; [apply updateUserBookings_found; [reflexivity|assumption]|].
  split; [|split].
  - unfold findBookingByUser. cbn [bookings setBookings].
    apply (find_upsertBooking (rebuiltBooking db now (IdObject uid) uid user)).
  - change (In (mkItem (m_id meeting) (m_title meeting) (m_date meeting)
                  (m_startTime meeting) (m_endTime meeting) pending uid
                  (m_isActive meeting) None)
              (listOf Pending
                 (rebuiltBooking db now (IdObject uid) uid user))).
    rewrite rebuiltBooking_lists. apply in_bucketItems.
    exists meeting. split; assumption.
  - intros Hnd x Hx Hid.
    change (In x (listOf Upcoming
                    (rebuiltBooking db now (IdObject uid) uid user))) in Hx.
    rewrite rebuiltBooking_lists in Hx. apply in_bucketItems in Hx.
    destruct Hx as (m & Hm & Hbm).
    pose proof (bucketOf_inv _ _ _ _ Hbm) as (r & _ & Hx & _).
    assert (Heq : m = meeting).
    { apply filter_In in Hm.
      apply (NoDup_map_inj m_id (meetings db)); try tauto.
      subst x. exact Hid. }
    subst m. rewrite Hb in Hbm. discriminate.
Qed.

(** Asha hosts meeting 10, to come, and her own entry in it is pending.
    Rebuilt with her ObjectId, her dashboard has the meeting under
    pending; rebuilt with her id as a string, it has it under upcoming. *)
Lemma updateUserBookings_host_filed_pending_witness :
  (exists booking db',
     updateUserBookings sampleNow (IdObject 1) hostPendingStore
     = (Ok (Some booking), db')
     /\ In (mkItem 10 "Sync" "2025-03-10" "09:00" "10:00" pending 1 true None)
          (pendingMeetings booking))
  /\ (exists booking db',
        updateUserBookings sampleNow (IdString 1) hostPendingStore
        = (Ok (Some booking), db')
        /\ upcomingMeetings booking
           = [mkItem 10 "Sync" "2025-03-10" "09:00" "10:00" pending 1 true None]
        /\ pendingMeetings booking = []).
Proof.
  split.
  - destruct (@updateUserBookings_host_filed_pending hostPendingStore sampleNow
                1 asha
                (sampleMeeting 10 1 "2025-03-10" "09:00" "10:00"
                   [pendingEntry asha; acceptedEntry asha])
                (pendingEntry asha) eq_refl (or_introl eq_refl) eq_refl eq_refl
                eq_refl eq_refl eq_refl eq_refl)
      as (booking & db' & Hrun & _ & Hin & _).
    exists booking, db'. split; [exact Hrun | exact Hin].
  - eexists. eexists. split; [vm_compute; reflexivity|]. split; reflexivity.
Defined.

(** A meeting whose end time is not of the form the rebuild splits into
    numbers gives an Invalid Date, and the rebuild leaves it out: Asha's
    dashboard is empty although she hosts meeting 10 and is accepted in
    it. *)
Example updateUserBookings_skips_invalid_date :
  exists db',
    updateUserBookings sampleNow (IdString 1)
      (mkDB [asha; bilal]
         [sampleMeeting 10 1 "2025-03-10" "09:00 AM" "10:00 AM"
            [acceptedEntry asha]] [] [])
    = (Ok (Some (mkBooking 1 [] [] [] [])), db').
Proof. eexists. vm_compute. reflexivity. Qed.

Lemma castItems_items (l : list MeetingItem) :
  forall next, map si_item (fst (castItems next l)) = l.
Proof.
  induction l as [|x l IH]; intros next; [reflexivity|].
  cbn [castItems]. specialize (IH (S next)).
  destruct (castItems (S next) l) as [r n]. cbn in *. rewrite IH. reflexivity.
Qed.

(** C7, as the code has it: idempotent up to generated ids and
    timestamps. With the meetings, the users and the clock fixed, a
    second rebuild for the same user computes the same four lists and
    leaves the users, the meetings, the invitations and every other
    user's Booking as they were; the rebuild changes no user, meeting or
    invitation. The document each save writes is those lists with a
    generated id on every entry and the time of the save as [updatedAt]:
    without them it is the computed Booking, whatever the ids and the
    time. *)
Theorem updateUserBookings_idempotent :
  forall (now : Z) (userId : JsId) (db : DB),
    let r1 := fst (updateUserBookings now userId db) in
    let db1 := snd (updateUserBookings now userId db) in
    updateUserBookings now userId db1 = (r1, db1)
    /\ users db1 = users db
    /\ meetings db1 = meetings db
    /\ invitations db1 = invitations db
    /\ match castId userId with
       | Some uid =>
           filter (fun b => negb (Nat.eqb (b_userId b) uid)) (bookings db1)
           = filter (fun b => negb (Nat.eqb (b_userId b) uid)) (bookings db)
       | None => bookings db1 = bookings db
       end
    /\ forall (booking : Booking) (clock : Z) (next : ObjectId),
         eraseGenerated (fst (storedBooking clock next booking)) = booking.
Proof.
  intros now userId db. cbv zeta.
  assert (Hdoc : forall (booking : Booking) (clock : Z) (next : ObjectId),
             eraseGenerated (fst (storedBooking clock next booking))
             = booking).
  { intros booking clock next. unfold storedBooking.
    pose proof (castItems_items (upcomingMeetings booking) next) as H1.
    destruct (castItems next (upcomingMeetings booking)) as [up n1].
    pose proof (castItems_items (pendingMeetings booking) n1) as H2.
    destruct (castItems n1 (pendingMeetings booking)) as [pe n2].
    pose proof (castItems_items (canceledMeetings booking) n2) as H3.
    destruct (castItems n2 (canceledMeetings booking)) as [ca n3].
    pose proof (castItems_items (pastMeetings booking) n3) as H4.
    destruct (castItems n3 (pastMeetings booking)) as [pa n4].
    cbn in *. unfold eraseGenerated. cbn. rewrite H1, H2, H3, H4.
    destruct booking; reflexivity. }
  unfold updateUserBookings, bind, get, put, ret, throw.
  destruct (castId userId) as [uid|] eqn:Hc; cbn.
  - unfold findUserById. cbn [users setBookings].
    destruct (find (fun u => Nat.eqb (u_id u) uid) (users db)) as [user|] eqn:Hu;
      cbn.
    + rewrite Hu. cbn.
      set (b := bookingOf uid _).
      rewrite (upsertBooking_idem b).
      repeat split; [apply (upsertBooking_others b)|apply Hdoc].
    + rewrite Hu. repeat split. apply Hdoc.
  - repeat split. apply Hdoc.
Qed.

(** C7, as stated, fails on "byte-identical": two rebuilds of Bilal's
    dashboard, one after the other at the same time, compute the same
    Booking, but the documents they save differ, because every entry
    gets a new id at each save; without the generated ids the two
    documents are the same. *)
Lemma updateUserBookings_regenerates_ids :
  exists booking db1 doc1 next1 doc2 next2,
    updateUserBookings sampleNow (IdObject 2) dashboardStore
    = (Ok (Some booking), db1)
    /\ updateUserBookings sampleNow (IdObject 2) db1
       = (Ok (Some booking), db1)
    /\ storedBooking sampleNow 100 booking = (doc1, next1)
    /\ storedBooking sampleNow next1 booking = (doc2, next2)
    /\ doc1 <> doc2
    /\ eraseGenerated doc1 = eraseGenerated doc2.
Proof.
  do 6 eexists.
  split; [vm_compute; reflexivity|].
  split; [vm_compute; reflexivity|].
  split; [vm_compute; reflexivity|].
  split; [vm_compute; reflexivity|].
  split; [discriminate|reflexivity].
Qed.








(* ------------------------------------------------------------------ *)
(** ** Properties of [createMeeting] *)

Lemma truthy_toLowerCase (s : string) :
  Js.truthy s = true -> Js.truthy (Js.toLowerCase s) = true.
Proof. destruct s; [discriminate|reflexivity]. Qed.


(** Discharges [storeTimed] on a store that is written out. *)
Ltac timed_store :=
  let m := fresh "m" in
  let Hm := fresh "Hm" in
  intros m Hm; vm_compute in Hm;
  repeat (destruct Hm as [Hm|Hm]; [subst m; split; vm_compute; discriminate|]);
  destruct Hm.







Lemma validMeeting_withParticipants (m : Meeting) (ps : list Participant) :
  validMeeting m = true ->
  forallb validParticipant ps = true ->
  validMeeting (withParticipants m ps) = true.
Proof.
  unfold validMeeting, withParticipants.
  cbn [m_title m_date m_startTime m_endTime m_status m_participants].
  rewrite !andb_true_iff. tauto.
Qed.








(* ------------------------------------------------------------------ *)
(** ** Properties of [updateMeeting] *)

Lemma collectConflicts_flat_map (db : DB) (body : UpdateBody)
    (meeting : Meeting) (ps : list Participant) :
  collectConflicts db body meeting ps
  = Ok (flat_map (fun p => match conflictEntryOf db body meeting p with
                           | Some c => [c]
                           | None => []
                           end) ps).
Proof.
  induction ps as [|p ps IH]; [reflexivity|].
  cbn [collectConflicts flat_map]. unfold conflictEntryOf at 1.
  destruct (p_status p); try exact IH.
  destruct (p_userId p) as [uid|]; try exact IH.
  rewrite checkTimeConflict_object, IH.
  destruct (find _ _); reflexivity.
Qed.

(** C2, as the code has it, for dates and times of the forms
    [YYYY-MM-DD] and [HH:MM], in the store and at the new time. When the
    host changes the date or a time, the detector is run at the new time,
    the edited meeting left out, for every accepted participant with a
    user id, the host's own entry included. If the list of those in
    conflict is not empty, the answer is the conflict response with that
    list and the store is exactly as before; if it is empty, the answer
    is not a conflict response. *)
Theorem updateMeeting_conflict_guard :
  forall (now : Z) (reqUser : User) (id : ObjectId) (body : UpdateBody)
         (db : DB) (meeting : Meeting),
    storeTimed db ->
    timed (orCurrent (ub_date body) (m_date meeting))
      (orCurrent (ub_startTime body) (m_startTime meeting))
      (orCurrent (ub_endTime body) (m_endTime meeting)) ->
    findMeetingById db id = Some meeting ->
    m_hostId meeting = u_id reqUser ->
    timeChanged body meeting = true ->
    (conflictsOf db body meeting <> [] ->
     updateMeeting now reqUser id body db
     = (Ok (UpdateConflict (conflictsOf db body meeting)), db))
    /\ (conflictsOf db body meeting = [] ->
        forall cs, fst (updateMeeting now reqUser id body db)
                   <> Ok (UpdateConflict cs))
    /\ (forall uid email,
          In (mkConflictEntry uid email) (conflictsOf db body meeting)
          <-> exists p c,
                In p (m_participants meeting)
                /\ p_status p = accepted
                /\ p_userId p = Some uid
                /\ p_email p = email
                /\ checkTimeConflict db (IdObject uid)
                     (orCurrent (ub_date body) (m_date meeting))
                     (orCurrent (ub_startTime body) (m_startTime meeting))
                     (orCurrent (ub_endTime body) (m_endTime meeting))
                     (Some (m_id meeting)) = Ok (Some c)).
Proof.
  intros now reqUser id body db meeting _ _ Hf Hh Ht.
  assert (Hrun :
            updateMeeting now reqUser id body db
            = bind (ret (conflictsOf db body meeting))
                (fun conflicts =>
                   match conflicts with
                   | _ :: _ => ret (UpdateConflict conflicts)
                   | [] =>
                       bind (Meeting_findByIdAndUpdate id body)
                         (fun updated =>
                            match updated with
                            | None => throw "TypeError"
                            | Some meeting' =>
                                bind (refreshParticipants now
                                        (m_participants meeting'))
                                  (fun _ => ret (UpdateOk meeting'))
                            end)
                   end) db).
  { unfold updateMeeting. unfold bind at 1. unfold get at 1.
    rewrite Hf. cbn [toStringEq]. rewrite Hh, Nat.eqb_refl. cbn [negb].
    rewrite Ht. unfold bind at 1, liftR.
    rewrite collectConflicts_flat_map. reflexivity. }
  split; [|split].
  - intros Hne. rewrite Hrun. unfold bind at 1, ret at 1.
    destruct (conflictsOf db body meeting); [congruence|reflexivity].
  - intros He cs. rewrite Hrun. unfold bind at 1, ret at 1. rewrite He.
    unfold bind, Meeting_findByIdAndUpdate, get, put, ret, throw.
    destruct (validUpdate body); cbn; [|discriminate].
    rewrite Hf. cbn.
    match goal with
    | |- fst (let (r, db') := ?c in _) <> _ => destruct c as [[[]|e] db2]
    end; cbn; discriminate.
  - intros uid email. unfold conflictsOf. rewrite in_flat_map. split.
    + intros (p & Hin & Hc). unfold conflictEntryOf in Hc.
      destruct (p_status p) eqn:Hs; try (destruct Hc; fail).
      destruct (p_userId p) as [u|] eqn:Hu; try (destruct Hc; fail).
      destruct (find _ _) as [c|] eqn:Hfd; [|destruct Hc].
      destruct Hc as [Hc|[]]. inversion Hc; subst.
      exists p, c. rewrite checkTimeConflict_object, Hfd. auto.
    + intros (p & c & Hin & Hs & Hu & He & Hc).
      exists p. split; [assumption|]. unfold conflictEntryOf.
      rewrite Hs, Hu. rewrite checkTimeConflict_object in Hc.
      inversion Hc as [Hfd]. rewrite Hfd. subst. left. reflexivity.
Qed.

(** Moving meeting 10 onto Bilal's 14:00 meeting is refused with Bilal
    listed, and nothing is written. *)
Lemma updateMeeting_conflict_guard_witness :
  updateMeeting sampleNow asha 10 (moveTo "14:00" "15:00") updateStore
  = (Ok (UpdateConflict [mkConflictEntry 2 "b@x.com"]), updateStore).
Proof.
  refine (proj1 (updateMeeting_conflict_guard sampleNow asha 10
                   (moveTo "14:00" "15:00") (db := updateStore)
                   (meeting := sampleMeeting 10 1 "2025-03-10" "09:00" "10:00"
                                 [acceptedEntry bilal; acceptedEntry asha])
                   _ _ eq_refl eq_refl eq_refl) _).
  - timed_store.
  - split; vm_compute; discriminate.
  - vm_compute. discriminate.
Defined.

(** C2, as stated, fails on "host excluded": moving meeting 10 onto the
    host's own 11:00 meeting is refused with the host listed, although
    Bilal, the only accepted participant other than the host, has no
    conflict at the new time. *)
Lemma updateMeeting_checks_host :
  updateMeeting sampleNow asha 10 (moveTo "11:00" "12:00") updateStore
  = (Ok (UpdateConflict [mkConflictEntry 1 "a@x.com"]), updateStore)
  /\ findMeetingById updateStore 10
     = Some (sampleMeeting 10 1 "2025-03-10" "09:00" "10:00"
               [acceptedEntry bilal; acceptedEntry asha])
  /\ checkTimeConflict updateStore (IdObject 2) "2025-03-10" "11:00" "12:00"
       (Some 10) = Ok None.
Proof.
  repeat split; vm_compute; reflexivity.
Qed.

(* ------------------------------------------------------------------ *)
(** ** Properties of [respondToInvitation] *)

Lemma find_replaceInvitation (id : ObjectId) (inv inv' : MeetingInvitation)
    (l : list MeetingInvitation) :
  find (fun i => Nat.eqb (i_id i) id) l = Some inv ->
  i_id inv' = i_id inv ->
  find (fun i => Nat.eqb (i_id i) id) (replaceInvitation inv' l) = Some inv'.
Proof.
  intros Hf Hid. induction l as [|x l IH]; [discriminate|].
  cbn in Hf |- *.
  destruct (Nat.eqb (i_id x) id) eqn:E.
  - inversion Hf; subst x. rewrite Hid, Nat.eqb_refl. cbn.
    rewrite Hid, E. reflexivity.
  - destruct (Nat.eqb (i_id x) (i_id inv')) eqn:E'.
    + cbn. apply Nat.eqb_eq in E'. apply find_some in Hf.
      destruct Hf as [_ Hf]. apply Nat.eqb_eq in Hf.
      rewrite E', Hid, Hf, Nat.eqb_refl in E. discriminate.
    + cbn. rewrite E. apply IH. assumption.
Qed.



(* ------------------------------------------------------------------ *)
(** ** Properties of [duplicateMeeting] *)




(* ------------------------------------------------------------------ *)
(** ** Properties of the availability store *)

Lemma find_app_none {A : Type} (p : A -> bool) (l : list A) (x : A) :
  findIndex p l = None -> p x = true -> find p (l ++ [x]) = Some x.
Proof.
  intros Hn Hp. induction l as [|y l IH]; cbn in *.
  - rewrite Hp. reflexivity.
  - destruct (p y); [discriminate|].
    destruct (findIndex p l); [discriminate|]. apply IH. reflexivity.
Qed.

Lemma find_updateAt {A : Type} (p : A -> bool) (f : A -> A) (l : list A)
    (k : nat) :
  findIndex p l = Some k ->
  (forall a, p (f a) = p a) ->
  exists old, find p l = Some old /\ find p (updateAt k f l) = Some (f old).
Proof.
  intros Hk Hp. revert k Hk. induction l as [|y l IH]; intros k Hk; cbn in *.
  - discriminate.
  - destruct (p y) eqn:E.
    + inversion Hk; subst. cbn. rewrite Hp, E. eauto.
    + destruct (findIndex p l) as [j|]; [|discriminate].
      inversion Hk; subst. cbn. rewrite E. apply IH. reflexivity.
Qed.

Lemma find_replaceUser (id : ObjectId) (u u' : User) (l : list User) :
  find (fun x => Nat.eqb (u_id x) id) l = Some u ->
  u_id u' = u_id u ->
  find (fun x => Nat.eqb (u_id x) id) (replaceUser u' l) = Some u'.
Proof.
  intros Hf Hid. induction l as [|x l IH]; [discriminate|].
  cbn in Hf |- *.
  destruct (Nat.eqb (u_id x) id) eqn:E.
  - inversion Hf; subst x. rewrite Hid, Nat.eqb_refl. cbn.
    rewrite Hid, E. reflexivity.
  - destruct (Nat.eqb (u_id x) (u_id u')) eqn:E'.
    + cbn. apply Nat.eqb_eq in E'. apply find_some in Hf.
      destruct Hf as [_ Hf]. apply Nat.eqb_eq in Hf.
      rewrite E', Hid, Hf, Nat.eqb_refl in E. discriminate.
    + cbn. rewrite E. apply IH. assumption.
Qed.

Lemma setDay_entry (d : string) (b : bool)
    (reqSlots : option (list (option SlotInput)))
    (av : list DayAvailability) :
  find (isDay d) (setDay d (Some b) reqSlots av)
  = Some (mkDay d b (if b then storedSlots reqSlots (find (isDay d) av)
                     else [])).
Proof.
  unfold setDay.
  destruct (findIndex (isDay d) av) as [k|] eqn:Hk.
  - destruct (find_updateAt (isDay d)
               (fun a => mkDay (day a) b
                  (if negb b then []
                   else match validatedSlotsOf (Some b) reqSlots with
                        | _ :: _ => validatedSlotsOf (Some b) reqSlots
                        | [] => match slots a with
                                | [] => [allDaySlot]
                                | existing => existing
                                end
                        end)) av Hk) as (old & Hold & Hnew).
    { intros a. reflexivity. }
    rewrite Hnew, Hold. f_equal.
    apply find_some in Hold. destruct Hold as [_ Hd].
    unfold isDay in Hd. apply String.eqb_eq in Hd. rewrite Hd.
    destruct b; cbn [negb]; [|reflexivity].
    unfold storedSlots, validatedSlotsOf.
    destruct reqSlots as [l|]; [|reflexivity].
    destruct (normalizeSlots l); reflexivity.
  - assert (Hnone : find (isDay d) av = None).
    { clear -Hk. induction av as [|y l IH]; cbn in *; [reflexivity|].
      destruct (isDay d y); [discriminate|].
      destruct (findIndex (isDay d) l); [discriminate|]. apply IH. reflexivity. }
    rewrite Hnone. rewrite find_app_none.
    + f_equal. cbn [orDefault]. f_equal.
      destruct b; [|reflexivity].
      unfold storedSlots, validatedSlotsOf.
      destruct reqSlots as [l|]; reflexivity.
    + assumption.
    + unfold isDay. cbn [day]. apply String.eqb_refl.
Qed.

Lemma Forall_updateAt {A : Type} (P : A -> Prop) (f : A -> A) (l : list A) :
  forall k, Forall P l -> (forall a, P a -> P (f a)) ->
            Forall P (updateAt k f l).
Proof.
  induction l as [|x l IH]; intros k Hl Hf; [destruct k; constructor|].
  inversion Hl; subst. destruct k; cbn; constructor; auto.
Qed.

Lemma findIndex_find_none {A : Type} (p : A -> bool) (l : list A) :
  findIndex p l = None <-> find p l = None.
Proof.
  induction l as [|x l IH]; cbn; [tauto|].
  destruct (p x); [split; discriminate|].
  destruct (findIndex p l) as [n|]; cbn.
  - split; [discriminate|]. intros H. apply IH in H. discriminate.
  - split; [intros _; apply IH|]; reflexivity.
Qed.

(** The per-day update keeps the invariant on every stored day, unless
    it adds a day as available without a slots array. *)
Lemma setDay_canonical (d : string) (b : bool)
    (reqSlots : option (list (option SlotInput)))
    (av : list DayAvailability) :
  b = false \/ reqSlots <> None \/ find (isDay d) av <> None ->
  Forall canonicalDay av ->
  Forall canonicalDay (setDay d (Some b) reqSlots av).
Proof.
  intros Hside Hav. unfold setDay.
  destruct (findIndex (isDay d) av) as [k|] eqn:Hk.
  - apply Forall_updateAt; [assumption|].
    intros a _. unfold canonicalDay. cbn [isAvailable slots].
    destruct b; cbn [negb]; split; try congruence. intros _.
    unfold validatedSlotsOf.
    destruct reqSlots as [l|].
    + destruct (normalizeSlots l); discriminate.
    + destruct (slots a); discriminate.
  - apply Forall_app. split; [assumption|]. constructor; [|constructor].
    unfold canonicalDay. cbn [isAvailable slots orDefault].
    destruct b; split; try congruence. intros _.
    unfold validatedSlotsOf.
    destruct reqSlots as [l|].
    + destruct (normalizeSlots l); discriminate.
    + apply findIndex_find_none in Hk.
      destruct Hside as [H|[H|H]]; congruence.
Qed.

(** C6, as the code has it. A per-day update with an explicit
    [isAvailable], for a valid weekday of an existing user, stores an
    entry for that day with the requested flag. If the flag is false the
    entry has no slot. If it is true and either the request carries a
    slots array or the day already had an entry, the entry has at least
    one slot: the normalized slots of the request, or exactly one all-day
    slot when the array leaves none; without an array, the slots the day
    had, or exactly one all-day slot when it had none. Under the same
    condition, if every stored day of the user had no slot when
    unavailable and some slot when available, every stored day still
    has. *)
Theorem updateDayAvailability_canonical :
  forall (reqUser : User) (d : string) (b : bool)
         (reqSlots : option (list (option SlotInput))) (db : DB) (user : User),
    existsb (String.eqb d) validDays = true ->
    findUserById db (u_id reqUser) = Some user ->
    exists entry db',
      updateDayAvailability reqUser d (Some b) reqSlots db
      = (Ok (DayOk (Some entry)), db')
      /\ (exists user',
            findUserById db' (u_id reqUser) = Some user'
            /\ find (isDay d) (availability user') = Some entry
            /\ (b = false \/ reqSlots <> None
                \/ find (isDay d) (availability user) <> None ->
                Forall canonicalDay (availability user) ->
                Forall canonicalDay (availability user')))
      /\ day entry = d
      /\ isAvailable entry = b
      /\ (b = false -> slots entry = [])
      /\ (b = true ->
          reqSlots <> None \/ find (isDay d) (availability user) <> None ->
          slots entry <> []
          /\ slots entry
             = storedSlots reqSlots (find (isDay d) (availability user))).
Proof.
  intros reqUser d b reqSlots db user Hd Hu.
  unfold updateDayAvailability. rewrite Hd. cbn [negb].
  unfold bind at 1, get at 1. rewrite Hu.
  unfold User_save, bind, get, put, ret.
  cbn [availability withAvailability].
  rewrite setDay_entry.
  eexists. eexists. split; [reflexivity|].
  split; [|split; [reflexivity|split; [reflexivity|split]]].
  - eexists. split.
    + unfold findUserById in *. cbn [users setUsers].
      apply find_replaceUser with (u := user); [assumption|reflexivity].
    + cbn [availability]. split; [apply setDay_entry|].
      apply setDay_canonical.
  - intros ->. reflexivity.
  - intros -> Hsrc. cbn [slots]. split; [|reflexivity].
    unfold storedSlots.
    destruct reqSlots as [l|].
    + destruct (normalizeSlots l); discriminate.
    + destruct (find (isDay d) (availability user)) as [a|].
      * destruct (slots a); discriminate.
      * destruct Hsrc; congruence.
Qed.

Lemma updateDayAvailability_canonical_witness :
  exists entry db',
    updateDayAvailability bilalMonday "Monday" (Some true) (Some [])
      availabilityStore
    = (Ok (DayOk (Some entry)), db')
    /\ isAvailable entry = true
    /\ slots entry = [allDaySlot].
Proof.
  destruct (updateDayAvailability_canonical bilalMonday "Monday" true
              (Some []) availabilityStore (user := bilalMonday)
              eq_refl eq_refl)
    as (entry & db' & Hrun & _ & _ & Hav & _ & Hslots).
  exists entry, db'. split; [exact Hrun|]. split; [exact Hav|].
  apply Hslots; [reflexivity|]. left. discriminate.
Defined.

(** C6, as stated, fails: the wholesale replacement stores what it is
    given. After it, Bilal's Monday is unavailable with a slot, and his
    Tuesday is available with no slot at all. *)
Lemma updateAvailability_stores_as_given :
  exists db' user',
    updateAvailability bilalMonday
      (Some [mkDay "Monday" false [mkSlot "09:00" "17:00"];
             mkDay "Tuesday" true []]) availabilityStore
    = (Ok (AvailabilityOk
             [mkDay "Monday" false [mkSlot "09:00" "17:00"];
              mkDay "Tuesday" true []]), db')
    /\ findUserById db' 2 = Some user'
    /\ find (isDay "Monday") (availability user')
       = Some (mkDay "Monday" false [mkSlot "09:00" "17:00"])
    /\ find (isDay "Tuesday") (availability user')
       = Some (mkDay "Tuesday" true []).
Proof.
  eexists. eexists. repeat split; vm_compute; reflexivity.
Qed.

(** The per-day update of a day that has no entry yet, without a slots
    array: the entry is stored available with no slot. *)
Example updateDayAvailability_new_day_without_slots :
  exists db',
    updateDayAvailability bilalMonday "Tuesday" (Some true) None
      availabilityStore
    = (Ok (DayOk (Some (mkDay "Tuesday" true []))), db').
Proof. eexists. vm_compute. reflexivity. Qed.

(* ------------------------------------------------------------------ *)
(** ** Further properties of the conflict detector *)

Lemma conflictQuery_inv (uid : ObjectId) (date : string)
    (exclude : option ObjectId) (m : Meeting) :
  conflictQuery uid date exclude m = true ->
  m_date m = date
  /\ exclude <> Some (m_id m)
  /\ (m_hostId m = uid
      \/ exists p, In p (m_participants m) /\ p_userId p = Some uid).
Proof.
  unfold conflictQuery. rewrite !andb_true_iff, orb_true_iff, andb_true_iff.
  intros [[Hd Hu] Hx]. split; [apply String.eqb_eq; assumption|]. split.
  - destruct exclude as [x|]; [|discriminate].
    intros E. inversion E; subst. rewrite Nat.eqb_refl in Hx. discriminate.
  - destruct Hu as [[Hp _]|Hh].
    + right. apply existsb_exists in Hp. destruct Hp as (p & Hin & Hp).
      exists p. split; [assumption|]. unfold hasUserId in Hp.
      destruct (p_userId p) as [u|]; [|discriminate].
      apply Nat.eqb_eq in Hp. congruence.
    + left. apply Nat.eqb_eq. assumption.
Qed.

(** X1. The meeting the detector returns is a stored meeting of the queried
    date that passes the overlap test and that the user hosts or is
    listed in; it is never the excluded meeting. *)
Theorem checkTimeConflict_sound :
  forall (db : DB) (uid : ObjectId) (date startTime endTime : string)
         (exclude : option ObjectId) (m : Meeting),
    checkTimeConflict db (IdObject uid) date startTime endTime exclude
    = Ok (Some m) ->
    In m (meetings db)
    /\ m_date m = date
    /\ exclude <> Some (m_id m)
    /\ (m_hostId m = uid
        \/ exists p, In p (m_participants m) /\ p_userId p = Some uid)
    /\ conflictsWith date startTime endTime m = true.
Proof.
  intros db uid date startTime endTime exclude m H.
  rewrite checkTimeConflict_object in H. inversion H as [Hf].
  apply find_some in Hf. destruct Hf as [Hin Hc].
  unfold userMeetings in Hin. apply filter_In in Hin. destruct Hin as [Hin Hq].
  apply conflictQuery_inv in Hq. tauto.
Qed.

Lemma checkTimeConflict_sound_witness :
  m_date (sampleMeeting 10 2 "2025-03-10" "10:00" "11:00" [acceptedEntry bilal])
  = "2025-03-10".
Proof.
  apply (@checkTimeConflict_sound detectorStore 2 "2025-03-10" "09:00" "10:30"
           None
           (sampleMeeting 10 2 "2025-03-10" "10:00" "11:00"
              [acceptedEntry bilal])).
  vm_compute. reflexivity.
Defined.

(** X2. A meeting blocks a user who is merely listed in it, whatever the
    user's own status, as soon as some participant of that meeting is
    accepted: the filter matches the two participant paths on possibly
    different entries. *)
Theorem checkTimeConflict_listed_user_blocked :
  forall (db : DB) (uid : ObjectId) (date startTime endTime : string)
         (exclude : option ObjectId) (m : Meeting) (p q : Participant),
    In m (meetings db) ->
    m_date m = date ->
    exclude <> Some (m_id m) ->
    In p (m_participants m) -> p_userId p = Some uid ->
    In q (m_participants m) -> p_status q = accepted ->
    conflictsWith date startTime endTime m = true ->
    exists c,
      checkTimeConflict db (IdObject uid) date startTime endTime exclude
      = Ok (Some c).
Proof.
  intros db uid date startTime endTime exclude m p q Hin Hd Hx Hp Hu Hq Hs Hc.
  rewrite checkTimeConflict_object.
  destruct (find (conflictsWith date startTime endTime)
              (userMeetings db uid date exclude)) as [c|] eqn:Hf;
    [exists c; reflexivity|].
  exfalso. pose proof (find_none _ _ Hf m) as Hn.
  rewrite Hc in Hn. assert (false = true -> False) by discriminate.
  apply H. symmetry. apply Hn.
  unfold userMeetings. apply filter_In. split; [assumption|].
  unfold conflictQuery. rewrite !andb_true_iff, orb_true_iff, andb_true_iff.
  split; [split|].
  - apply String.eqb_eq. assumption.
  - left. split; apply existsb_exists.
    + exists p. split; [assumption|]. unfold hasUserId. rewrite Hu.
      apply Nat.eqb_refl.
    + exists q. split; [assumption|]. rewrite Hs. reflexivity.
  - destruct exclude as [x|]; [|reflexivity].
    apply negb_true_iff. apply Nat.eqb_neq. congruence.
Qed.

(** Bilal rejected Asha's meeting of 2025-02-20; it still blocks him. *)
Lemma checkTimeConflict_listed_user_blocked_witness :
  exists c,
    checkTimeConflict dashboardStore (IdObject 2) "2025-02-20" "09:30" "09:45"
      None = Ok (Some c).
Proof.
  apply (@checkTimeConflict_listed_user_blocked dashboardStore
           2 "2025-02-20" "09:30" "09:45" None
           (sampleMeeting 10 1 "2025-02-20" "09:00" "10:00"
              [mkParticipant (Some 2) "b@x.com" rejected None;
               acceptedEntry asha])
           (mkParticipant (Some 2) "b@x.com" rejected None)
           (acceptedEntry asha)).
  - left. reflexivity.
  - reflexivity.
  - discriminate.
  - left. reflexivity.
  - reflexivity.
  - right. left. reflexivity.
  - reflexivity.
  - vm_compute. reflexivity.
Defined.

(* ------------------------------------------------------------------ *)
(** ** Further properties of the booking projection *)

(** X3. When the rebuild is called with the user's string id (as the
    handlers do for the acting user), every entry it files as pending has
    status pending and a host other than the user, and every entry it
    files as upcoming is accepted or hosted by the user: a host's own
    meeting is never among the host's pending entries. *)
Theorem updateUserBookings_host_never_pending :
  forall (db : DB) (now : Z) (uid : ObjectId) (user : User),
    findUserById db uid = Some user ->
    exists booking db',
      updateUserBookings now (IdString uid) db = (Ok (Some booking), db')
      /\ (forall x, In x (pendingMeetings booking) ->
            it_status x = pending /\ it_hostId x <> uid)
      /\ (forall x, In x (upcomingMeetings booking) ->
            it_status x = accepted \/ it_hostId x = uid).
Proof.
  intros db now uid user Hu.
  exists (rebuiltBooking db now (IdString uid) uid user). eexists.
  split; [apply updateUserBookings_found; [reflexivity|assumption]|].
  split; intros x Hx.
  - change (In x (listOf Pending
                    (rebuiltBooking db now (IdString uid) uid user))) in Hx.
    rewrite rebuiltBooking_lists in Hx. apply in_bucketItems in Hx.
    destruct Hx as (m & _ & Hb). apply bucketOf_inv in Hb.
    destruct Hb as (r & _ & -> & Hp). unfold precedence in Hp.
    destruct (isPastAt now m); [discriminate|].
    destruct (_ || _); [discriminate|].
    destruct (Status_eqb (p_status r) pending) eqn:Es; cbn [andb] in Hp.
    + cbn [toStringEq] in Hp.
      destruct (Nat.eqb (m_hostId m) uid) eqn:Eh; cbn [negb] in Hp.
      * destruct (_ || _); discriminate.
      * cbn. split; [apply Status_eqb_eq; assumption|].
        apply Nat.eqb_neq. assumption.
    + destruct (_ || _); discriminate.
  - change (In x (listOf Upcoming
                    (rebuiltBooking db now (IdString uid) uid user))) in Hx.
    rewrite rebuiltBooking_lists in Hx. apply in_bucketItems in Hx.
    destruct Hx as (m & _ & Hb). apply bucketOf_inv in Hb.
    destruct Hb as (r & _ & -> & Hp). unfold precedence in Hp.
    destruct (isPastAt now m); [discriminate|].
    destruct (String.eqb (m_status m) "cancelled"
              || Status_eqb (p_status r) rejected); [discriminate|].
    destruct (Status_eqb (p_status r) pending
              && negb (toStringEq (m_hostId m) (IdString uid)));
      [discriminate|].
    cbn [toStringEq] in Hp. cbn.
    destruct (Status_eqb (p_status r) accepted) eqn:Es.
    + left. apply Status_eqb_eq. assumption.
    + destruct (Nat.eqb (m_hostId m) uid) eqn:Eh; [|discriminate].
      right. apply Nat.eqb_eq. assumption.
Qed.

Lemma updateUserBookings_host_never_pending_witness :
  exists booking db',
    updateUserBookings sampleNow (IdString 1) dashboardStore
    = (Ok (Some booking), db')
    /\ (forall x, In x (pendingMeetings booking) ->
          it_status x = pending /\ it_hostId x <> 1).
Proof.
  destruct (@updateUserBookings_host_never_pending dashboardStore sampleNow 1
              asha eq_refl) as (booking & db' & Hrun & Hp & _).
  exists booking, db'. split; assumption.
Defined.

Lemma bucketItems_id_in (b : Bucket) (now : Z) (userId : JsId) (user : User)
    (ms : list Meeting) (k : ObjectId) :
  In k (map it_meetingId (bucketItems b now userId user ms)) ->
  exists m, In m ms /\ m_id m = k
            /\ exists x, bucketOf now userId user m = Some (b, x).
Proof.
  intros Hk. apply in_map_iff in Hk. destruct Hk as (x & Hid & Hx).
  apply in_bucketItems in Hx. destruct Hx as (m & Hm & Hb).
  exists m. split; [assumption|]. split; [|exists x; assumption].
  apply bucketOf_inv in Hb. destruct Hb as (r & _ & -> & _). exact Hid.
Qed.

Lemma bucketItems_ids_NoDup (b : Bucket) (now : Z) (userId : JsId)
    (user : User) (ms : list Meeting) :
  NoDup (map m_id ms) ->
  NoDup (map it_meetingId (bucketItems b now userId user ms)).
Proof.
  induction ms as [|m ms IH]; intros Hnd; [constructor|].
  cbn [map] in Hnd. inversion Hnd as [|? ? Hnot Hnd']; subst.
  specialize (IH Hnd').
  change (bucketItems b now userId user (m :: ms))
    with ((match bucketOf now userId user m with
           | Some (b', x) => if Bucket_eqb b b' then [x] else []
           | None => []
           end) ++ bucketItems b now userId user ms).
  destruct (bucketOf now userId user m) as [[b' x]|] eqn:Hb; [|exact IH].
  destruct (Bucket_eqb b b'); [|exact IH].
  cbn. constructor; [|exact IH].
  intros Hin. apply bucketItems_id_in in Hin.
  destruct Hin as (m' & Hm' & Hid & _).
  apply bucketOf_inv in Hb. destruct Hb as (r & _ & -> & _).
  apply Hnot. cbn in Hid. rewrite <- Hid. apply in_map. assumption.
Qed.

Lemma bucketItems_ids_disjoint (b1 b2 : Bucket) (now : Z) (userId : JsId)
    (user : User) (ms : list Meeting) (k : ObjectId) :
  NoDup (map m_id ms) ->
  In k (map it_meetingId (bucketItems b1 now userId user ms)) ->
  In k (map it_meetingId (bucketItems b2 now userId user ms)) ->
  b1 = b2.
Proof.
  intros Hnd H1 H2.
  apply bucketItems_id_in in H1. apply bucketItems_id_in in H2.
  destruct H1 as (m1 & Hin1 & Hid1 & x1 & Hb1).
  destruct H2 as (m2 & Hin2 & Hid2 & x2 & Hb2).
  assert (Hm : m1 = m2).
  { apply (NoDup_map_inj m_id ms); try assumption. congruence. }
  subst m2. rewrite Hb1 in Hb2. inversion Hb2. reflexivity.
Qed.

Lemma NoDup_filter_ids (f : Meeting -> bool) (ms : list Meeting) :
  NoDup (map m_id ms) -> NoDup (map m_id (filter f ms)).
Proof.
  induction ms as [|m ms IH]; intros Hnd; [constructor|].
  cbn [map] in Hnd. inversion Hnd as [|? ? Hnot Hnd']; subst.
  cbn [filter]. destruct (f m); [|apply IH; assumption].
  cbn [map]. constructor; [|apply IH; assumption].
  intros Hin. apply Hnot. apply in_map_iff in Hin.
  destruct Hin as (m' & Hid & Hm'). apply filter_In in Hm'.
  rewrite <- Hid. apply in_map. tauto.
Qed.

(** X4. With unique meeting ids, the rebuild files a meeting at most once:
    over the four lists of the Booking it stores, taken together, no
    meeting id occurs twice, in one list or in two. *)
Theorem updateUserBookings_lists_exclusive :
  forall (db : DB) (now : Z) (userId : JsId) (uid : ObjectId) (user : User),
    castId userId = Some uid ->
    findUserById db uid = Some user ->
    NoDup (map m_id (meetings db)) ->
    exists booking db',
      updateUserBookings now userId db = (Ok (Some booking), db')
      /\ NoDup (map it_meetingId
                  (upcomingMeetings booking ++ pendingMeetings booking
                   ++ canceledMeetings booking ++ pastMeetings booking)).
Proof.
  intros db now userId uid user Hc Hu Hnd.
  exists (rebuiltBooking db now userId uid user). eexists.
  split; [apply updateUserBookings_found; assumption|].
  change (upcomingMeetings (rebuiltBooking db now userId uid user))
    with (listOf Upcoming (rebuiltBooking db now userId uid user)).
  change (pendingMeetings (rebuiltBooking db now userId uid user))
    with (listOf Pending (rebuiltBooking db now userId uid user)).
  change (canceledMeetings (rebuiltBooking db now userId uid user))
    with (listOf Canceled (rebuiltBooking db now userId uid user)).
  change (pastMeetings (rebuiltBooking db now userId uid user))
    with (listOf Past (rebuiltBooking db now userId uid user)).
  rewrite !rebuiltBooking_lists, !map_app.
  pose proof (NoDup_filter_ids (involves uid) _ Hnd) as Hnd'.
  pose proof (fun b1 b2 k =>
                @bucketItems_ids_disjoint b1 b2 now userId user _ k Hnd')
    as Hdis.
  repeat apply NoDup_app; try (apply bucketItems_ids_NoDup; assumption);
    intros k H1 H2; repeat (apply in_app_or in H2; destruct H2 as [H2|H2]);
    discriminate (Hdis _ _ _ H1 H2).
Qed.

Lemma updateUserBookings_lists_exclusive_witness :
  exists booking db',
    updateUserBookings sampleNow (IdObject 2) dashboardStore
    = (Ok (Some booking), db')
    /\ NoDup (map it_meetingId
                (upcomingMeetings booking ++ pendingMeetings booking
                 ++ canceledMeetings booking ++ pastMeetings booking)).
Proof.
  apply (@updateUserBookings_lists_exclusive dashboardStore sampleNow
           (IdObject 2) 2 bilal eq_refl eq_refl).
  vm_compute. repeat constructor; cbn; intuition discriminate.
Defined.

(* ------------------------------------------------------------------ *)
(** ** Rebuilding several dashboards *)

Lemma find_upsertBooking_other (b : Booking) (bs : list Booking)
    (uid : ObjectId) :
  b_userId b <> uid ->
  find (fun x => Nat.eqb (b_userId x) uid) (upsertBooking b bs)
  = find (fun x => Nat.eqb (b_userId x) uid) bs.
Proof.
  intros Hne. apply Nat.eqb_neq in Hne.
  induction bs as [|x bs IH]; cbn.
  - rewrite Hne. reflexivity.
  - destruct (Nat.eqb (b_userId x) (b_userId b)) eqn:E; cbn.
    + apply Nat.eqb_eq in E. rewrite E, Hne. reflexivity.
    + rewrite IH. reflexivity.
Qed.

Lemma rebuiltBooking_ext (db db' : DB) (now : Z) (userId : JsId)
    (uid : ObjectId) (user : User) :
  meetings db' = meetings db ->
  rebuiltBooking db' now userId uid user = rebuiltBooking db now userId uid user.
Proof. intros H. unfold rebuiltBooking. rewrite H. reflexivity. Qed.



(** The loop rebuilds the dashboard of every listed user that exists and
    writes nothing else; every other dashboard is as before. *)
Lemma rebuildEach_run (now : Z) (ids : list ObjectId) :
  forall db,
    exists db',
      rebuildEach now ids db = (Ok tt, db')
      /\ users db' = users db
      /\ meetings db' = meetings db
      /\ invitations db' = invitations db
      /\ forall uid,
           findBookingByUser db' uid
           = if existsb (Nat.eqb uid) ids
             then match findUserById db uid with
                  | Some user =>
                      Some (rebuiltBooking db now (IdObject uid) uid user)
                  | None => findBookingByUser db uid
                  end
             else findBookingByUser db uid.
Proof.
  induction ids as [|u ids IH]; intros db.
  - exists db. repeat split.
  - unfold rebuildEach. cbn [forEach]. fold (rebuildEach now ids).
    unfold bind at 1. unfold bind at 1.
    destruct (findUserById db u) as [user|] eqn:Hu.
    + rewrite (@updateUserBookings_found db now (IdObject u) u user eq_refl Hu).
      unfold ret at 1.
      set (db1 := setBookings db _).
      destruct (IH db1) as (db2 & Hrun & Hus & Hms & His & Hbk).
      exists db2. rewrite Hrun. repeat split; try assumption.
      intros uid. rewrite Hbk. cbn [existsb].
      assert (Hfu : findUserById db1 uid = findUserById db uid) by reflexivity.
      rewrite Hfu.
      assert (Hrb : forall usr,
                rebuiltBooking db1 now (IdObject uid) uid usr
                = rebuiltBooking db now (IdObject uid) uid usr)
        by reflexivity.
      assert (Hf1 : findBookingByUser db1 uid
                    = if Nat.eqb uid u
                      then Some (rebuiltBooking db now (IdObject u) u user)
                      else findBookingByUser db uid).
      { unfold findBookingByUser, db1. cbn [bookings setBookings].
        destruct (Nat.eqb uid u) eqn:E.
        - apply Nat.eqb_eq in E. subst uid.
          apply (find_upsertBooking
                   (rebuiltBooking db now (IdObject u) u user)).
        - apply find_upsertBooking_other. cbn. apply Nat.eqb_neq in E.
          congruence. }
      destruct (existsb (Nat.eqb uid) ids).
      * rewrite orb_true_r. destruct (findUserById db uid) as [usr|] eqn:Hu'.
        -- rewrite Hrb. reflexivity.
        -- rewrite Hf1. destruct (Nat.eqb uid u) eqn:E; [|reflexivity].
           apply Nat.eqb_eq in E. subst. congruence.
      * rewrite orb_false_r, Hf1.
        destruct (Nat.eqb uid u) eqn:E; [|reflexivity].
        apply Nat.eqb_eq in E. subst. rewrite Hu. reflexivity.
    + assert (Hrun0 : updateUserBookings now (IdObject u) db = (Ok None, db)).
      { unfold updateUserBookings, bind, get, ret. cbn [castId].
        rewrite Hu. reflexivity. }
      rewrite Hrun0. unfold ret at 1.
      destruct (IH db) as (db2 & Hrun & Hus & Hms & His & Hbk).
      exists db2. rewrite Hrun. repeat split; try assumption.
      intros uid. rewrite Hbk. cbn [existsb].
      destruct (Nat.eqb uid u) eqn:E; [|reflexivity].
      apply Nat.eqb_eq in E. subst. rewrite Hu. cbn [orb].
      destruct (existsb (Nat.eqb u) ids); reflexivity.
Qed.

Lemma find_replaceMeeting (id : ObjectId) (m m' : Meeting) (l : list Meeting) :
  find (fun x => Nat.eqb (m_id x) id) l = Some m ->
  m_id m' = m_id m ->
  find (fun x => Nat.eqb (m_id x) id) (replaceMeeting m' l) = Some m'.
Proof.
  intros Hf Hid. induction l as [|x l IH]; [discriminate|].
  cbn in Hf |- *.
  destruct (Nat.eqb (m_id x) id) eqn:E.
  - inversion Hf; subst x. rewrite Hid, Nat.eqb_refl. cbn.
    rewrite Hid, E. reflexivity.
  - destruct (Nat.eqb (m_id x) (m_id m')) eqn:E'.
    + cbn. apply Nat.eqb_eq in E'. apply find_some in Hf.
      destruct Hf as [_ Hf]. apply Nat.eqb_eq in Hf.
      rewrite E', Hid, Hf, Nat.eqb_refl in E. discriminate.
    + cbn. rewrite E. apply IH. assumption.
Qed.

Lemma find_id_eq (id : ObjectId) (m : Meeting) (l : list Meeting) :
  find (fun x => Nat.eqb (m_id x) id) l = Some m -> m_id m = id.
Proof.
  intros H. apply find_some in H. destruct H as [_ H].
  apply Nat.eqb_eq. assumption.
Qed.

(* ------------------------------------------------------------------ *)
(** ** Properties of the host-only handlers *)

(** X5. Only the host gets past the guard: for an id that is not stored, or
    a meeting hosted by someone else, [updateMeeting], [deleteMeeting],
    [toggleMeetingActive], [toggleMeetingStatus] and [duplicateMeeting]
    answer not-found or forbidden and leave the store as it was. *)
Theorem only_host_mutates :
  forall (now : Z) (reqUser : User) (id : ObjectId) (db : DB),
    (forall meeting, findMeetingById db id = Some meeting ->
                     m_hostId meeting <> u_id reqUser) ->
    (forall body,
       updateMeeting now reqUser id body db = (Ok UpdateNotFound, db)
       \/ updateMeeting now reqUser id body db = (Ok UpdateForbidden, db))
    /\ (deleteMeeting now reqUser id db = (Ok DeleteNotFound, db)
        \/ deleteMeeting now reqUser id db = (Ok DeleteForbidden, db))
    /\ (forall bodyActive,
          toggleMeetingActive reqUser id bodyActive db = (Ok MeetingNotFound, db)
          \/ toggleMeetingActive reqUser id bodyActive db
             = (Ok MeetingForbidden, db))
    /\ (forall bodyStatus,
          toggleMeetingStatus now reqUser id bodyStatus db
          = (Ok MeetingNotFound, db)
          \/ toggleMeetingStatus now reqUser id bodyStatus db
             = (Ok MeetingForbidden, db))
    /\ (forall body,
          duplicateMeeting reqUser id body db = (Ok DuplicateNotFound, db)
          \/ duplicateMeeting reqUser id body db = (Ok DuplicateForbidden, db)).
Proof.
  intros now reqUser id db H.
  unfold updateMeeting, deleteMeeting, toggleMeetingActive,
    toggleMeetingStatus, duplicateMeeting, bind, get, ret.
  destruct (findMeetingById db id) as [meeting|].
  - specialize (H meeting eq_refl). apply Nat.eqb_neq in H.
    cbn [toStringEq]. rewrite H. cbn [negb]. repeat split; intros; right;
      reflexivity.
  - repeat split; intros; left; reflexivity.
Qed.

Lemma only_host_mutates_witness :
  deleteMeeting sampleNow bilal 10 updateStore = (Ok DeleteNotFound, updateStore)
  \/ deleteMeeting sampleNow bilal 10 updateStore
     = (Ok DeleteForbidden, updateStore).
Proof.
  apply (@only_host_mutates sampleNow bilal 10 updateStore).
  intros meeting H. vm_compute in H. inversion H. vm_compute. discriminate.
Defined.

(** Every status [toggleMeetingStatus] can assign is scheduled, canceled
    or completed. *)
Lemma nextStatus_values (bodyStatus : option string) (current : string) :
  nextStatus bodyStatus current = "scheduled"
  \/ nextStatus bodyStatus current = "canceled"
  \/ nextStatus bodyStatus current = "completed".
Proof.
  unfold nextStatus.
  assert (Hc : (if String.eqb current "scheduled" then "completed"
                else if String.eqb current "completed" then "canceled"
                else "scheduled") = "scheduled"
               \/ (if String.eqb current "scheduled" then "completed"
                   else if String.eqb current "completed" then "canceled"
                   else "scheduled") = "canceled"
               \/ (if String.eqb current "scheduled" then "completed"
                   else if String.eqb current "completed" then "canceled"
                   else "scheduled") = "completed").
  { destruct (String.eqb current "scheduled"); [tauto|].
    destruct (String.eqb current "completed"); tauto. }
  destruct bodyStatus as [s|]; [|exact Hc].
  destruct (Js.truthy s && existsb (String.eqb s)
              ["scheduled"; "canceled"; "completed"]) eqn:E; [|exact Hc].
  apply andb_true_iff in E. destruct E as [_ E]. cbn in E.
  rewrite !orb_true_iff in E.
  destruct E as [E|[E|[E|E]]]; try discriminate;
    apply String.eqb_eq in E; tauto.
Qed.

(** X6. The host's status toggle never succeeds: whatever the body and the
    current status, the status it assigns is outside the schema's enum
    (upcoming, pending, cancelled, past), so the save is rejected and the
    store is left as it was. *)
Theorem toggleMeetingStatus_always_rejected :
  forall (now : Z) (reqUser : User) (id : ObjectId)
         (bodyStatus : option string) (db : DB) (meeting : Meeting),
    findMeetingById db id = Some meeting ->
    m_hostId meeting = u_id reqUser ->
    toggleMeetingStatus now reqUser id bodyStatus db
    = (Throw "ValidationError", db).
Proof.
  intros now reqUser id bodyStatus db meeting Hf Hh.
  unfold toggleMeetingStatus, bind at 1, get at 1.
  rewrite Hf. cbn [toStringEq]. rewrite Hh, Nat.eqb_refl. cbn [negb].
  unfold bind at 1, Meeting_save, validMeeting.
  cbn [withMeetingStatus m_title m_date m_startTime m_endTime m_status
         m_participants].
  assert (He : existsb (String.eqb (nextStatus bodyStatus (m_status meeting)))
                 statusEnum = false).
  { destruct (nextStatus_values bodyStatus (m_status meeting)) as [E|[E|E]];
      rewrite E; reflexivity. }
  rewrite He, !andb_false_r. reflexivity.
Qed.

Lemma toggleMeetingStatus_always_rejected_witness :
  toggleMeetingStatus sampleNow asha 11 (Some "canceled") updateStore
  = (Throw "ValidationError", updateStore).
Proof.
  apply (@toggleMeetingStatus_always_rejected sampleNow asha 11
           (Some "canceled") updateStore
           (sampleMeeting 11 1 "2025-03-10" "11:00" "12:00"
              [acceptedEntry asha])); reflexivity.
Defined.

Lemma validMeeting_withIsActive (m : Meeting) (b : bool) :
  validMeeting (withIsActive m b) = validMeeting m.
Proof. reflexivity. Qed.

(** X7. The host's active toggle stores the meeting with the body's flag, or
    with the flag negated when the body has none, and changes nothing
    else: no dashboard is rebuilt, so the entries already filed keep the
    former flag. Toggling twice without a body gives the meeting back. *)
Theorem toggleMeetingActive_flips :
  forall (reqUser : User) (id : ObjectId) (bodyActive : option bool) (db : DB)
         (meeting : Meeting),
    findMeetingById db id = Some meeting ->
    m_hostId meeting = u_id reqUser ->
    validMeeting meeting = true ->
    exists db',
      toggleMeetingActive reqUser id bodyActive db
      = (Ok (MeetingOk
               (withIsActive meeting
                  (match bodyActive with
                   | Some b => b
                   | None => negb (m_isActive meeting)
                   end))), db')
      /\ findMeetingById db' id
         = Some (withIsActive meeting
                   (match bodyActive with
                    | Some b => b
                    | None => negb (m_isActive meeting)
                    end))
      /\ bookings db' = bookings db
      /\ invitations db' = invitations db
      /\ users db' = users db
      /\ (bodyActive = None ->
          exists db'',
            toggleMeetingActive reqUser id None db'
            = (Ok (MeetingOk meeting), db'')
            /\ findMeetingById db'' id = Some meeting).
Proof.
  intros reqUser id bodyActive db meeting Hf Hh Hv.
  assert (Hrun : forall (d : DB) (m : Meeting) (ba : option bool),
            findMeetingById d id = Some m ->
            m_hostId m = u_id reqUser ->
            validMeeting m = true ->
            toggleMeetingActive reqUser id ba d
            = (Ok (MeetingOk
                     (withIsActive m
                        (match ba with
                         | Some b => b
                         | None => negb (m_isActive m)
                         end))),
               setMeetings d
                 (replaceMeeting
                    (withIsActive m
                       (match ba with
                        | Some b => b
                        | None => negb (m_isActive m)
                        end)) (meetings d)))).
  { intros d m ba Hf' Hh' Hv'.
    unfold toggleMeetingActive, bind at 1, get at 1.
    rewrite Hf'. cbn [toStringEq]. rewrite Hh', Nat.eqb_refl. cbn [negb].
    unfold bind at 1, Meeting_save.
    rewrite validMeeting_withIsActive, Hv'.
    unfold bind, get, put, ret. reflexivity. }
  eexists. split; [apply Hrun; assumption|].
  assert (Hfind : forall (d : DB) (m m' : Meeting),
            findMeetingById d id = Some m -> m_id m' = m_id m ->
            findMeetingById (setMeetings d (replaceMeeting m' (meetings d))) id
            = Some m').
  { intros d m m' H1 H2. unfold findMeetingById in *.
    cbn [meetings setMeetings]. apply find_replaceMeeting with (m := m);
      assumption. }
  split; [apply Hfind with (m := meeting); [assumption|reflexivity]|].
  repeat split. intros ->.
  set (m1 := withIsActive meeting (negb (m_isActive meeting))).
  assert (Hback : withIsActive m1 (negb (m_isActive m1)) = meeting).
  { subst m1. cbn [withIsActive m_isActive]. rewrite negb_involutive.
    destruct meeting; reflexivity. }
  assert (Hf1 : findMeetingById
                  (setMeetings db (replaceMeeting m1 (meetings db))) id
                = Some m1).
  { apply Hfind with (m := meeting); [assumption|reflexivity]. }
  eexists. split.
  - rewrite (Hrun _ m1 None Hf1 Hh Hv). rewrite Hback. reflexivity.
  - apply Hfind with (m := m1); [exact Hf1|].
    rewrite <- Hback at 1. reflexivity.
Qed.

Lemma toggleMeetingActive_flips_witness :
  exists db',
    toggleMeetingActive asha 11 None updateStore
    = (Ok (MeetingOk
             (withIsActive
                (sampleMeeting 11 1 "2025-03-10" "11:00" "12:00"
                   [acceptedEntry asha]) false)), db')
    /\ bookings db' = bookings updateStore.
Proof.
  destruct (@toggleMeetingActive_flips asha 11 None updateStore
              (sampleMeeting 11 1 "2025-03-10" "11:00" "12:00"
                 [acceptedEntry asha]) eq_refl eq_refl eq_refl)
    as (db' & Hrun & _ & Hb & _).
  exists db'. split; [exact Hrun | exact Hb].
Defined.



(** X9. On a store whose meetings have dates and times of the forms
    [YYYY-MM-DD] and [HH:MM], a deletion by the host removes the meeting
    and every Invitation of that meeting, keeps every other meeting and
    invitation, and rebuilds, from the meetings that remain, the
    dashboard of every participant with a user id that exists. *)
Theorem deleteMeeting_cascades :
  forall (now : Z) (reqUser : User) (id : ObjectId) (db : DB)
         (meeting : Meeting),
    storeTimed db ->
    findMeetingById db id = Some meeting ->
    m_hostId meeting = u_id reqUser ->
    exists db',
      deleteMeeting now reqUser id db = (Ok DeleteOk, db')
      /\ findMeetingById db' id = None
      /\ (forall m, In m (meetings db') <-> In m (meetings db) /\ m_id m <> id)
      /\ (forall i, In i (invitations db')
                    <-> In i (invitations db) /\ i_meetingId i <> id)
      /\ users db' = users db
      /\ forall p uid user,
           In p (m_participants meeting) -> p_userId p = Some uid ->
           findUserById db uid = Some user ->
           findBookingByUser db' uid
           = Some (rebuiltBooking (afterDelete db id) now (IdObject uid)
                     uid user).
Proof.
  intros now reqUser id db meeting _ Hf Hh.
  pose proof (find_id_eq _ _ Hf) as Hid.
  destruct (rebuildEach_run now (participantIds (m_participants meeting))
              (afterDelete db id))
    as (db' & Hrun & Hus & Hms & His & Hbk).
  exists db'. split.
  - unfold deleteMeeting. unfold bind at 1. unfold get at 1.
    rewrite Hf. cbn [toStringEq]. rewrite Hh, Nat.eqb_refl. cbn [negb].
    unfold bind at 1. unfold MeetingInvitation_deleteMany, bind at 1, get at 1,
      put at 1.
    unfold bind at 1. unfold Meeting_deleteOne, bind at 1, get at 1, put at 1.
    cbn [meetings setInvitations]. rewrite Hid.
    fold (afterDelete db id). fold (rebuildEach now
                                     (participantIds (m_participants meeting))).
    unfold bind at 1. rewrite Hrun. reflexivity.
  - split; [|split; [|split; [|split]]].
    + unfold findMeetingById. rewrite Hms. unfold afterDelete.
      cbn [meetings setMeetings setInvitations].
      destruct (find _ (filter _ (meetings db))) as [m|] eqn:E; [|reflexivity].
      apply find_some in E. destruct E as [E1 E2].
      apply filter_In in E1. destruct E1 as [_ E1]. rewrite E2 in E1.
      discriminate.
    + intros m. rewrite Hms. unfold afterDelete.
      cbn [meetings setMeetings setInvitations].
      rewrite filter_In, negb_true_iff, Nat.eqb_neq. tauto.
    + intros i. rewrite His. unfold afterDelete.
      cbn [invitations setMeetings setInvitations].
      rewrite filter_In, negb_true_iff, Nat.eqb_neq. tauto.
    + rewrite Hus. reflexivity.
    + intros p uid user Hin Hu Hfu. rewrite Hbk.
      assert (He : existsb (Nat.eqb uid)
                     (participantIds (m_participants meeting)) = true).
      { apply existsb_exists. exists uid. split; [|apply Nat.eqb_refl].
        unfold participantIds. apply in_flat_map. exists p.
        split; [assumption|]. rewrite Hu. left. reflexivity. }
      rewrite He.
      change (findUserById (afterDelete db id) uid) with (findUserById db uid).
      rewrite Hfu. reflexivity.
Qed.

Lemma deleteMeeting_cascades_witness :
  exists db',
    deleteMeeting sampleNow asha 11 dashboardStore = (Ok DeleteOk, db')
    /\ findMeetingById db' 11 = None
    /\ invitations db' = [].
Proof.
  destruct (@deleteMeeting_cascades sampleNow asha 11 dashboardStore
              (sampleMeeting 11 1 "2025-03-10" "09:00" "10:00"
                 [pendingEntry bilal; acceptedEntry asha]))
    as (db' & Hrun & Hnone & _ & Hinv & _).
  - timed_store.
  - reflexivity.
  - reflexivity.
  - exists db'. split; [exact Hrun|]. split; [exact Hnone|].
    destruct (invitations db') as [|i l] eqn:E; [reflexivity|].
    exfalso. destruct (proj1 (Hinv i) (or_introl eq_refl)) as [Hin Hne].
    destruct Hin as [<-|[]]. apply Hne. reflexivity.
Defined.

(* ------------------------------------------------------------------ *)
(** ** Further properties of [createMeeting] *)





(* ------------------------------------------------------------------ *)
(** ** Further properties of [respondToInvitation] *)

Lemma find_app_last {A : Type} (p : A -> bool) (l : list A) (x : A) :
  find p l = None -> p x = true -> find p (l ++ [x]) = Some x.
Proof.
  intros Hn Hp. apply find_app_none; [|assumption].
  apply findIndex_find_none. assumption.
Qed.

(** X12. [ensureInvitationExists] is idempotent: it adds at most one
    Invitation, the invitation it returns is stored, is for that meeting
    and names that user or email, and a second call returns the same
    invitation and writes nothing. *)
Theorem ensureInvitationExists_idempotent :
  forall (meetingId userId : ObjectId) (userEmail : string) (db : DB),
    let r := fst (ensureInvitationExists meetingId userId userEmail db) in
    let db1 := snd (ensureInvitationExists meetingId userId userEmail db) in
    ensureInvitationExists meetingId userId userEmail db1 = (r, db1)
    /\ (List.length (invitations db1) <= S (List.length (invitations db)))%nat
    /\ match r with
       | Ok invitation =>
           In invitation (invitations db1)
           /\ i_meetingId invitation = meetingId
           /\ (i_userId invitation = Some userId
               \/ i_email invitation = userEmail)
       | Throw _ => db1 = db
       end.
Proof.
  intros meetingId userId userEmail db. cbv zeta.
  destruct (ensureInvitationExists meetingId userId userEmail db)
    as [r db1] eqn:Hrun.
  cbn [fst snd].
  unfold ensureInvitationExists, bind, get in Hrun |- *.
  destruct (find _ (invitations db)) as [inv|] eqn:Hf.
  - unfold ret in Hrun. inversion Hrun; subst r db1; clear Hrun.
    rewrite Hf.
    split; [reflexivity|]. split; [lia|].
    apply find_some in Hf. destruct Hf as [Hin Hp].
    apply andb_true_iff in Hp. destruct Hp as [Hm Hu].
    split; [assumption|]. split; [apply Nat.eqb_eq; assumption|].
    apply orb_true_iff in Hu. destruct Hu as [Hu|Hu].
    + left. destruct (i_userId inv) as [u|]; [|discriminate].
      apply Nat.eqb_eq in Hu. congruence.
    + right. apply String.eqb_eq. assumption.
  - unfold MeetingInvitation_create, bind, get, put, ret in Hrun.
    destruct (Js.truthy userEmail) eqn:Ht;
      inversion Hrun; subst r db1; clear Hrun.
    + cbn [invitations setInvitations].
      rewrite find_app_last; [|assumption|].
      * split; [reflexivity|]. split; [rewrite length_app; cbn; lia|].
        split; [apply in_or_app; right; left; reflexivity|].
        split; [reflexivity|left; reflexivity].
      * cbn. rewrite !Nat.eqb_refl. reflexivity.
    + rewrite Hf. unfold MeetingInvitation_create, bind, get, put, ret.
      rewrite Ht. split; [reflexivity|]. split; [lia|reflexivity].
Qed.

Lemma findIndex_updateAt {A : Type} (p : A -> bool) (f : A -> A) (l : list A) :
  forall k, findIndex p l = Some k ->
            (forall a, p a = true -> p (f a) = true) ->
            findIndex p (updateAt k f l) = Some k.
Proof.
  induction l as [|x l IH]; intros k Hk Hp; [discriminate|].
  cbn in Hk. destruct (p x) eqn:E.
  - inversion Hk; subst. cbn. rewrite (Hp x E). reflexivity.
  - destruct (findIndex p l) as [j|] eqn:Ej; [|discriminate].
    inversion Hk; subst. cbn. rewrite E, (IH j eq_refl Hp). reflexivity.
Qed.

Lemma updateAt_updateAt {A : Type} (f : A -> A) (l : list A) :
  forall k, (forall a, f (f a) = f a) ->
            updateAt k f (updateAt k f l) = updateAt k f l.
Proof.
  induction l as [|x l IH]; intros k Hf; [destruct k; reflexivity|].
  destruct k; cbn; [rewrite Hf|rewrite IH]; auto.
Qed.

Lemma findIndex_app_last {A : Type} (p : A -> bool) (l : list A) (x : A) :
  findIndex p l = None -> p x = true ->
  findIndex p (l ++ [x]) = Some (List.length l).
Proof.
  intros Hn Hp. induction l as [|y l IH]; cbn in *.
  - rewrite Hp. reflexivity.
  - destruct (p y); [discriminate|].
    destruct (findIndex p l); [discriminate|]. rewrite IH; reflexivity.
Qed.

Lemma updateAt_app_last {A : Type} (f : A -> A) (l : list A) (x : A) :
  updateAt (List.length l) f (l ++ [x]) = l ++ [f x].
Proof. induction l as [|y l IH]; cbn; [|rewrite IH]; reflexivity. Qed.

Lemma updateAt_length {A : Type} (f : A -> A) (l : list A) :
  forall k, List.length (updateAt k f l) = List.length l.
Proof.
  induction l as [|x l IH]; intros k; destruct k; cbn; auto.
Qed.

Lemma findIndex_nth {A : Type} (p : A -> bool) (l : list A) :
  forall k, findIndex p l = Some k ->
            exists x, nth_error l k = Some x /\ p x = true.
Proof.
  induction l as [|y l IH]; intros k Hk; [discriminate|].
  cbn in Hk. destruct (p y) eqn:E.
  - inversion Hk; subst. exists y. auto.
  - destruct (findIndex p l) as [j|]; [|discriminate].
    inversion Hk; subst. apply IH. reflexivity.
Qed.

Lemma nth_updateAt {A : Type} (f : A -> A) (l : list A) :
  forall k x, nth_error l k = Some x -> In (f x) (updateAt k f l).
Proof.
  induction l as [|y l IH]; intros k x Hk; destruct k; cbn in *;
    try discriminate.
  - inversion Hk; subst. left. reflexivity.
  - right. apply IH. assumption.
Qed.

(** X13. The update of the participants for a response. Answering a second
    time with the same status and clock changes nothing more; an
    acceptance leaves an accepted entry with a user id, the response time
    and the user's id or the invitation's email, adding one entry only
    when none matched; a rejection never adds an entry. *)
Theorem respondParticipants_idempotent :
  forall (now : Z) (reqUser : User) (invitation : MeetingInvitation)
         (status : Status) (ps : list Participant),
    respondParticipants now reqUser invitation status
      (respondParticipants now reqUser invitation status ps)
    = respondParticipants now reqUser invitation status ps
    /\ (List.length ps
        <= List.length (respondParticipants now reqUser invitation status ps)
        <= S (List.length ps))%nat
    /\ (status = rejected ->
        List.length (respondParticipants now reqUser invitation status ps)
        = List.length ps)
    /\ (status = accepted ->
        exists p,
          In p (respondParticipants now reqUser invitation status ps)
          /\ p_status p = accepted
          /\ p_responseAt p = Some now
          /\ p_userId p <> None
          /\ respondsFor reqUser invitation p = true).
Proof.
  intros now reqUser invitation status ps.
  unfold respondParticipants. fold (respondsFor reqUser invitation).
  set (fa := fun p => mkParticipant
                        (match p_userId p with
                         | Some u => Some u
                         | None => Some (u_id reqUser)
                         end) (p_email p) accepted (Some now)).
  set (fr := fun p => mkParticipant (p_userId p) (p_email p) rejected
                        (Some now)).
  assert (Hpa : forall a, respondsFor reqUser invitation a = true ->
                          respondsFor reqUser invitation (fa a) = true).
  { intros a. unfold respondsFor, fa. cbn [p_userId p_email].
    destruct (p_userId a) as [u|]; [tauto|].
    cbn [toStringEq]. rewrite Nat.eqb_refl. reflexivity. }
  assert (Hpr : forall a, respondsFor reqUser invitation a = true ->
                          respondsFor reqUser invitation (fr a) = true).
  { intros a. unfold respondsFor, fr. cbn [p_userId p_email]. tauto. }
  assert (Hfa : forall a, fa (fa a) = fa a).
  { intros a. unfold fa. cbn. destruct (p_userId a); reflexivity. }
  assert (Hfr : forall a, fr (fr a) = fr a) by reflexivity.
  set (new := mkParticipant (Some (u_id reqUser)) (i_email invitation)
                accepted (Some now)).
  assert (Hnew : respondsFor reqUser invitation new = true).
  { unfold respondsFor, new. cbn. rewrite Nat.eqb_refl. reflexivity. }
  destruct (findIndex (respondsFor reqUser invitation) ps) as [k|] eqn:Hk.
  - destruct status.
    + try rewrite Hk. repeat split; try lia; discriminate.
    + rewrite (findIndex_updateAt _ fa ps Hk Hpa).
      rewrite (updateAt_updateAt fa ps k Hfa), updateAt_length.
      repeat split; try lia; try discriminate. intros _.
      destruct (findIndex_nth _ ps Hk) as (x & Hx & Hpx).
      exists (fa x). split; [apply nth_updateAt; assumption|].
      repeat split; [|apply Hpa; assumption].
      unfold fa. cbn. destruct (p_userId x); discriminate.
    + rewrite (findIndex_updateAt _ fr ps Hk Hpr).
      rewrite (updateAt_updateAt fr ps k Hfr), updateAt_length.
      repeat split; try lia; discriminate.
  - destruct status.
    + try rewrite Hk. repeat split; try lia; discriminate.
    + rewrite (findIndex_app_last _ ps new Hk Hnew).
      rewrite updateAt_app_last, length_app. cbn [List.length].
      repeat split; try lia; try discriminate. intros _.
      exists new. split; [apply in_or_app; right; left; reflexivity|].
      repeat split; [discriminate|assumption].
    + try rewrite Hk. repeat split; try lia; discriminate.
Qed.

(* ------------------------------------------------------------------ *)
(** ** Properties of the response handler *)

(** One rebuild: it answers, writes the Booking collection only, and
    replaces the dashboard of that user alone. *)
Lemma updateUserBookings_run (now : Z) (userId : JsId) (uid : ObjectId)
    (db : DB) :
  castId userId = Some uid ->
  exists r db',
    updateUserBookings now userId db = (Ok r, db')
    /\ users db' = users db
    /\ meetings db' = meetings db
    /\ invitations db' = invitations db
    /\ forall uid',
         findBookingByUser db' uid'
         = if Nat.eqb uid' uid
           then match findUserById db uid with
                | Some user => Some (rebuiltBooking db now userId uid user)
                | None => findBookingByUser db uid
                end
           else findBookingByUser db uid'.
Proof.
  intros Hc. destruct (findUserById db uid) as [user|] eqn:Hu.
  - rewrite (@updateUserBookings_found db now userId uid user Hc Hu).
    eexists _, _. split; [reflexivity|]. repeat split.
    intros uid'. unfold findBookingByUser. cbn [bookings setBookings].
    destruct (Nat.eqb uid' uid) eqn:E.
    + apply Nat.eqb_eq in E. subst uid'.
      apply (find_upsertBooking (rebuiltBooking db now userId uid user)).
    + apply find_upsertBooking_other. cbn. apply Nat.eqb_neq in E.
      congruence.
  - exists None, db. split.
    + unfold updateUserBookings, bind, get, ret. rewrite Hc, Hu. reflexivity.
    + repeat split. intros uid'.
      destruct (Nat.eqb uid' uid) eqn:E; [|reflexivity].
      apply Nat.eqb_eq in E. subst. reflexivity.
Qed.

(** The handler from the invitation it has looked up to its answer. *)
Lemma respondToInvitation_run (now : Z) (reqUser : User)
    (invitationId : ObjectId) (s : string) (status : Status) (db db0 : DB)
    (inv : MeetingInvitation) (meeting : Meeting) :
  statusOfString s = Some status ->
  lookupInvitation reqUser invitationId db = (Ok (inl inv), db0) ->
  notAuthorized reqUser inv = false ->
  Js.truthy (i_email inv) = true ->
  findMeetingById db0 (i_meetingId inv) = Some meeting ->
  validMeeting (respondedMeeting now reqUser inv status meeting) = true ->
  exists db',
    respondToInvitation now reqUser invitationId (Some s) db
    = (Ok (RespondOk (withStatus inv status)
             (respondedMeeting now reqUser inv status meeting)), db')
    /\ users db' = users db0
    /\ meetings db'
       = replaceMeeting (respondedMeeting now reqUser inv status meeting)
           (meetings db0)
    /\ invitations db'
       = replaceInvitation (withStatus inv status) (invitations db0)
    /\ (forall user,
          findUserById db0 (u_id reqUser) = Some user ->
          findBookingByUser db' (u_id reqUser)
          = Some (rebuiltBooking (afterRespond now reqUser inv status meeting db0)
                    now (IdString (u_id reqUser)) (u_id reqUser) user))
    /\ (forall host,
          m_hostId meeting <> u_id reqUser ->
          findUserById db0 (m_hostId meeting) = Some host ->
          findBookingByUser db' (m_hostId meeting)
          = Some (rebuiltBooking (afterRespond now reqUser inv status meeting db0)
                    now (IdObject (m_hostId meeting)) (m_hostId meeting) host)).
Proof.
  intros Hs Hlook Hauth Ht Hm Hv.
  set (db2 := afterRespond now reqUser inv status meeting db0).
  destruct (@updateUserBookings_run now (IdString (u_id reqUser))
              (u_id reqUser) db2 eq_refl)
    as (r3 & db3 & Hrun3 & Hus3 & Hms3 & His3 & Hbk3).
  destruct (@updateUserBookings_run now (IdObject (m_hostId meeting))
              (m_hostId meeting) db3 eq_refl)
    as (r4 & db4 & Hrun4 & Hus4 & Hms4 & His4 & Hbk4).
  exists (if negb (toStringEq (m_hostId meeting) (IdString (u_id reqUser)))
          then db4 else db3).
  split.
  - unfold respondToInvitation. cbn [option_map]. rewrite Hs.
    unfold bind at 1. rewrite Hlook. rewrite Hauth.
    unfold bind at 1. unfold MeetingInvitation_save.
    cbn [i_email withStatus]. rewrite Ht.
    unfold bind at 1, get at 1, put at 1.
    unfold bind at 1, get at 1.
    change (findMeetingById
              (setInvitations db0
                 (replaceInvitation (withStatus inv status) (invitations db0)))
              (i_meetingId (withStatus inv status)))
      with (findMeetingById db0 (i_meetingId inv)).
    rewrite Hm. cbv zeta.
    fold (respondedMeeting now reqUser inv status meeting).
    unfold bind at 1. unfold Meeting_save. rewrite Hv.
    unfold bind at 1, get at 1, put at 1.
    match goal with |- ?c ?d = _ => change d with db2 end.
    unfold bind at 1. rewrite Hrun3.
    unfold bind at 1.
    destruct (negb (toStringEq (m_hostId meeting) (IdString (u_id reqUser)))).
    + unfold bind at 1. rewrite Hrun4. reflexivity.
    + reflexivity.
  - assert (Hne : negb (toStringEq (m_hostId meeting) (IdString (u_id reqUser)))
                  = negb (Nat.eqb (m_hostId meeting) (u_id reqUser)))
      by reflexivity.
    rewrite Hne. clear Hne.
    split; [|split; [|split; [|split]]].
    + destruct (negb _); [rewrite Hus4|]; rewrite Hus3; reflexivity.
    + destruct (negb _); [rewrite Hms4|]; rewrite Hms3; reflexivity.
    + destruct (negb _); [rewrite His4|]; rewrite His3; reflexivity.
    + intros user Hu.
      assert (H3 : findBookingByUser db3 (u_id reqUser)
                   = Some (rebuiltBooking db2 now (IdString (u_id reqUser))
                             (u_id reqUser) user)).
      { rewrite Hbk3, Nat.eqb_refl.
        change (findUserById db2 (u_id reqUser))
          with (findUserById db0 (u_id reqUser)).
        rewrite Hu. reflexivity. }
      destruct (Nat.eqb (m_hostId meeting) (u_id reqUser)) eqn:E;
        cbn [negb]; [exact H3|].
      rewrite Hbk4. rewrite Nat.eqb_sym, E. exact H3.
    + intros host Hne Hh. apply Nat.eqb_neq in Hne. rewrite Hne. cbn [negb].
      rewrite Hbk4, Nat.eqb_refl.
      assert (Hfu : findUserById db3 (m_hostId meeting)
                    = findUserById db0 (m_hostId meeting)).
      { unfold findUserById. rewrite Hus3. reflexivity. }
      rewrite Hfu, Hh. f_equal. apply rebuiltBooking_ext. exact Hms3.
Qed.

Lemma forallb_updateAt {A : Type} (p : A -> bool) (f : A -> A) (l : list A) :
  forall k, forallb p l = true ->
            (forall a, p a = true -> p (f a) = true) ->
            forallb p (updateAt k f l) = true.
Proof.
  induction l as [|x l IH]; intros k Hl Hp; [destruct k; reflexivity|].
  cbn in Hl. apply andb_true_iff in Hl. destruct Hl as [Hx Hl].
  destruct k; cbn; apply andb_true_iff; split; auto.
Qed.

Lemma respondParticipants_valid (now : Z) (reqUser : User)
    (inv : MeetingInvitation) (status : Status) (ps : list Participant) :
  forallb validParticipant ps = true ->
  Js.truthy (i_email inv) = true ->
  forallb validParticipant (respondParticipants now reqUser inv status ps)
  = true.
Proof.
  intros Hps Ht. unfold respondParticipants.
  destruct status; [assumption| |].
  - destruct (findIndex _ ps) as [k|].
    + apply forallb_updateAt; [assumption|].
      intros a. unfold validParticipant. cbn [p_userId p_email].
      destruct (p_userId a); [tauto|discriminate].
    + rewrite forallb_app, Hps. cbn. rewrite Ht. reflexivity.
  - destruct (findIndex _ ps) as [k|]; [|assumption].
    apply forallb_updateAt; [assumption|]. intros a H. exact H.
Qed.

Lemma in_replaceInvitation (inv inv' : MeetingInvitation)
    (l : list MeetingInvitation) :
  In inv l -> i_id inv' = i_id inv -> In inv' (replaceInvitation inv' l).
Proof.
  intros Hin Hid. unfold replaceInvitation. apply in_map_iff.
  exists inv. split; [|assumption]. rewrite Hid, Nat.eqb_refl. reflexivity.
Qed.

(** The find-or-create of the invitation, on a store whose invitations
    have an email. *)
Lemma ensureInvitationExists_run (meetingId userId : ObjectId)
    (userEmail : string) (db : DB) :
  Js.truthy userEmail = true ->
  (forall i, In i (invitations db) -> Js.truthy (i_email i) = true) ->
  exists inv db0,
    ensureInvitationExists meetingId userId userEmail db = (Ok inv, db0)
    /\ users db0 = users db
    /\ meetings db0 = meetings db
    /\ In inv (invitations db0)
    /\ i_meetingId inv = meetingId
    /\ (i_userId inv = Some userId \/ i_email inv = userEmail)
    /\ Js.truthy (i_email inv) = true.
Proof.
  intros Ht Hall. unfold ensureInvitationExists, bind, get.
  destruct (find _ (invitations db)) as [inv|] eqn:Hf.
  - exists inv, db. split; [reflexivity|]. split; [reflexivity|].
    split; [reflexivity|].
    apply find_some in Hf. destruct Hf as [Hin Hp].
    apply andb_true_iff in Hp. destruct Hp as [Hm Hu].
    split; [assumption|]. split; [apply Nat.eqb_eq; assumption|].
    split; [|apply Hall; assumption].
    apply orb_true_iff in Hu. destruct Hu as [Hu|Hu].
    + left. destruct (i_userId inv) as [u|]; [|discriminate].
      apply Nat.eqb_eq in Hu. congruence.
    + right. apply String.eqb_eq. assumption.
  - unfold MeetingInvitation_create, bind, get, put, ret. rewrite Ht.
    eexists _, _. split; [reflexivity|]. split; [reflexivity|].
    split; [reflexivity|]. cbn [invitations setInvitations].
    split; [apply in_or_app; right; left; reflexivity|].
    split; [reflexivity|]. split; [left; reflexivity|].
    apply truthy_toLowerCase. assumption.
Qed.

(** X14. On a store whose meetings have dates and times of the forms
    [YYYY-MM-DD] and [HH:MM], a valid answer (accepted or rejected) to a
    stored invitation that passes the ownership guard keeps Invitation
    and Participant in step: the invitation is stored with the answered
    status, the meeting with the participants updated for the answer,
    the users are untouched, and the dashboards of the caller and of the
    host (when another user) are rebuilt from the store after the two
    saves. *)
Theorem respondToInvitation_updates_both :
  forall (now : Z) (reqUser : User) (invitationId : ObjectId) (s : string)
         (status : Status) (db : DB) (inv : MeetingInvitation)
         (meeting : Meeting),
    storeTimed db ->
    statusOfString s = Some status ->
    findInvitationById db invitationId = Some inv ->
    notAuthorized reqUser inv = false ->
    Js.truthy (i_email inv) = true ->
    findMeetingById db (i_meetingId inv) = Some meeting ->
    validMeeting meeting = true ->
    exists db',
      respondToInvitation now reqUser invitationId (Some s) db
      = (Ok (RespondOk (withStatus inv status)
               (respondedMeeting now reqUser inv status meeting)), db')
      /\ findInvitationById db' invitationId = Some (withStatus inv status)
      /\ findMeetingById db' (i_meetingId inv)
         = Some (respondedMeeting now reqUser inv status meeting)
      /\ users db' = users db
      /\ meetings db'
         = replaceMeeting (respondedMeeting now reqUser inv status meeting)
             (meetings db)
      /\ invitations db'
         = replaceInvitation (withStatus inv status) (invitations db)
      /\ (forall user,
            findUserById db (u_id reqUser) = Some user ->
            findBookingByUser db' (u_id reqUser)
            = Some (rebuiltBooking
                      (afterRespond now reqUser inv status meeting db)
                      now (IdString (u_id reqUser)) (u_id reqUser) user))
      /\ (forall host,
            m_hostId meeting <> u_id reqUser ->
            findUserById db (m_hostId meeting) = Some host ->
            findBookingByUser db' (m_hostId meeting)
            = Some (rebuiltBooking
                      (afterRespond now reqUser inv status meeting db)
                      now (IdObject (m_hostId meeting)) (m_hostId meeting)
                      host)).
Proof.
  intros now reqUser invitationId s status db inv meeting
         _ Hs Hf Hauth Ht Hm Hv.
  assert (Hlook : lookupInvitation reqUser invitationId db
                  = (Ok (inl inv), db)).
  { unfold lookupInvitation, tryCatch, bind, get. rewrite Hf. reflexivity. }
  assert (Hv' : validMeeting (respondedMeeting now reqUser inv status meeting)
                = true).
  { unfold respondedMeeting. apply validMeeting_withParticipants; [assumption|].
    apply respondParticipants_valid; [|assumption].
    unfold validMeeting in Hv. apply andb_true_iff in Hv. apply Hv. }
  destruct (@respondToInvitation_run now reqUser invitationId s status db db
              inv meeting Hs Hlook Hauth Ht Hm Hv')
    as (db' & Hrun & Hus & Hms & His & Hbu & Hbh).
  exists db'. split; [exact Hrun|].
  split; [|split; [|split; [|split; [|split; [|split]]]]];
    try assumption.
  - unfold findInvitationById in *. rewrite His.
    apply find_replaceInvitation with (inv := inv); [assumption|reflexivity].
  - unfold findMeetingById in *. rewrite Hms.
    apply find_replaceMeeting with (m := meeting); [assumption|reflexivity].
Qed.

Lemma respondToInvitation_updates_both_witness :
  exists db',
    respondToInvitation sampleNow bilal 20 (Some "accepted") dashboardStore
    = (Ok (RespondOk (mkInvitation 20 11 (Some 2) "b@x.com" accepted)
             (sampleMeeting 11 1 "2025-03-10" "09:00" "10:00"
                [mkParticipant (Some 2) "b@x.com" accepted (Some sampleNow);
                 acceptedEntry asha])), db')
    /\ findInvitationById db' 20
       = Some (mkInvitation 20 11 (Some 2) "b@x.com" accepted).
Proof.
  destruct (@respondToInvitation_updates_both sampleNow bilal 20 "accepted"
              accepted dashboardStore
              (mkInvitation 20 11 (Some 2) "b@x.com" pending)
              (sampleMeeting 11 1 "2025-03-10" "09:00" "10:00"
                 [pendingEntry bilal; acceptedEntry asha]))
    as (db' & Hrun & Hfind & _); try reflexivity.
  - timed_store.
  - exists db'. split; [exact Hrun | exact Hfind].
Defined.

Lemma respondParticipants_accepted_entry (now : Z) (reqUser : User)
    (invitation : MeetingInvitation) (ps : list Participant) :
  exists p,
    In p (respondParticipants now reqUser invitation accepted ps)
    /\ p_status p = accepted
    /\ p_responseAt p = Some now
    /\ p_userId p <> None
    /\ respondsFor reqUser invitation p = true.
Proof.
  unfold respondParticipants. fold (respondsFor reqUser invitation).
  destruct (findIndex (respondsFor reqUser invitation) ps) as [k|] eqn:Hk.
  - destruct (findIndex_nth _ ps Hk) as (x & Hx & Hpx).
    eexists. split; [apply nth_updateAt; eassumption|].
    cbn [p_status p_responseAt p_userId].
    split; [reflexivity|]. split; [reflexivity|].
    split; [destruct (p_userId x); discriminate|].
    revert Hpx. unfold respondsFor. cbn [p_userId p_email].
    destruct (p_userId x) as [u|]; [tauto|].
    cbn [toStringEq]. rewrite Nat.eqb_refl. reflexivity.
  - eexists. split; [apply in_or_app; right; left; reflexivity|].
    cbn [p_status p_responseAt p_userId].
    split; [reflexivity|]. split; [reflexivity|]. split; [discriminate|].
    unfold respondsFor. cbn. rewrite Nat.eqb_refl. reflexivity.
Qed.

(** X15. Answering "accepted" under the id of a stored meeting, when no
    invitation has that id, needs no earlier invitation: the handler
    finds or creates the caller's Invitation for that meeting, stores it
    as accepted, and the stored meeting then lists an accepted
    participant entry for the caller. *)
Theorem respondToInvitation_by_meeting_id :
  forall (now : Z) (reqUser : User) (id : ObjectId) (db : DB)
         (meeting : Meeting),
    findInvitationById db id = None ->
    findMeetingById db id = Some meeting ->
    validMeeting meeting = true ->
    (forall i, In i (invitations db) -> Js.truthy (i_email i) = true) ->
    Js.truthy (u_email reqUser) = true ->
    exists inv meeting' db',
      respondToInvitation now reqUser id (Some "accepted") db
      = (Ok (RespondOk inv meeting'), db')
      /\ i_meetingId inv = id
      /\ i_status inv = accepted
      /\ In inv (invitations db')
      /\ findMeetingById db' id = Some meeting'
      /\ exists p,
           In p (m_participants meeting')
           /\ p_status p = accepted
           /\ p_userId p <> None
           /\ respondsFor reqUser inv p = true.
Proof.
  intros now reqUser id db meeting Hnone Hm Hv Hall Ht.
  assert (Hid : m_id meeting = id) by (apply find_id_eq with (l := meetings db); exact Hm).
  destruct (@ensureInvitationExists_run (m_id meeting) (u_id reqUser)
              (u_email reqUser) db Ht Hall)
    as (inv & db0 & Hens & Hus0 & Hms0 & Hin0 & Hmid & Hown & Hti).
  assert (Hlook : lookupInvitation reqUser id db = (Ok (inl inv), db0)).
  { unfold lookupInvitation, tryCatch. unfold bind at 1, get at 1.
    rewrite Hnone, Hm. unfold bind at 1. rewrite Hens. reflexivity. }
  assert (Hauth : notAuthorized reqUser inv = false).
  { unfold notAuthorized. destruct Hown as [Hu|He].
    - rewrite Hu. cbn [toStringEq]. rewrite Nat.eqb_refl. reflexivity.
    - rewrite He, String.eqb_refl. apply andb_false_r. }
  assert (Hm0 : findMeetingById db0 (i_meetingId inv) = Some meeting).
  { unfold findMeetingById in *. rewrite Hms0, Hmid, Hid. exact Hm. }
  assert (Hv' : validMeeting (respondedMeeting now reqUser inv accepted meeting)
                = true).
  { unfold respondedMeeting. apply validMeeting_withParticipants; [assumption|].
    apply respondParticipants_valid; [|assumption].
    unfold validMeeting in Hv. apply andb_true_iff in Hv. apply Hv. }
  destruct (@respondToInvitation_run now reqUser id "accepted" accepted db db0
              inv meeting eq_refl Hlook Hauth Hti Hm0 Hv')
    as (db' & Hrun & Hus & Hms & His & _).
  exists (withStatus inv accepted),
         (respondedMeeting now reqUser inv accepted meeting), db'.
  split; [exact Hrun|]. split; [rewrite <- Hid; exact Hmid|].
  split; [reflexivity|].
  split; [rewrite His; apply in_replaceInvitation with (inv := inv);
          [assumption|reflexivity]|].
  split.
  - unfold findMeetingById in *. rewrite Hms. rewrite Hmid, Hid in Hm0.
    apply find_replaceMeeting with (m := meeting); [assumption|reflexivity].
  - unfold respondedMeeting. cbn [m_participants withParticipants].
    destruct (respondParticipants_accepted_entry now reqUser
                (withStatus inv accepted) (m_participants meeting))
      as (p & Hp & Hst & _ & Hu & Hr).
    exists p. repeat split; assumption.
Qed.

Lemma respondToInvitation_by_meeting_id_witness :
  exists inv meeting' db',
    respondToInvitation sampleNow asha 10 (Some "accepted") detectorStore
    = (Ok (RespondOk inv meeting'), db')
    /\ i_meetingId inv = 10%nat
    /\ i_status inv = accepted
    /\ In inv (invitations db').
Proof.
  destruct (@respondToInvitation_by_meeting_id sampleNow asha 10 detectorStore
              (sampleMeeting 10 2 "2025-03-10" "10:00" "11:00"
                 [acceptedEntry bilal])
              eq_refl eq_refl eq_refl)
    as (inv & meeting' & db' & Hrun & Hm & Hs & Hin & _).
  - intros i [].
  - reflexivity.
  - exists inv, meeting', db'. repeat split; assumption.
Defined.
(* ------------------------------------------------------------------ *)
(** ** Properties of the dashboard endpoints *)

Lemma find_none_existsb {A : Type} (p : A -> bool) (l : list A) :
  find p l = None -> existsb p l = false.
Proof.
  induction l as [|x l IH]; cbn; [reflexivity|].
  destruct (p x); [discriminate|]. exact IH.
Qed.

Lemma find_app_other {A : Type} (p : A -> bool) (l : list A) (x : A) :
  p x = false -> find p (l ++ [x]) = find p l.
Proof.
  intros Hp. induction l as [|y l IH]; cbn.
  - rewrite Hp. reflexivity.
  - destruct (p y); [reflexivity|exact IH].
Qed.

(** X16. [getBookings] answers with the caller's dashboard, creating an
    empty one only when there is none: an existing dashboard is returned
    as stored and nothing is written, a second call returns the same
    dashboard and writes nothing, and no other document changes. *)
Theorem getBookings_creates_once :
  forall (reqUser : User) (db : DB),
    exists booking db',
      getBookings reqUser db = (Ok booking, db')
      /\ findBookingByUser db' (u_id reqUser) = Some booking
      /\ getBookings reqUser db' = (Ok booking, db')
      /\ match findBookingByUser db (u_id reqUser) with
         | Some b => booking = b /\ db' = db
         | None =>
             booking = mkBooking (u_id reqUser) [] [] [] []
             /\ bookings db' = bookings db ++ [booking]
         end
      /\ users db' = users db
      /\ meetings db' = meetings db
      /\ invitations db' = invitations db
      /\ forall uid,
           uid <> u_id reqUser ->
           findBookingByUser db' uid = findBookingByUser db uid.
Proof.
  intros reqUser db. unfold getBookings. unfold bind at 1, get at 1.
  destruct (findBookingByUser db (u_id reqUser)) as [b|] eqn:Hf.
  - exists b, db. unfold ret, bind, get. rewrite Hf. repeat split.
  - set (b := mkBooking (u_id reqUser) [] [] [] []).
    assert (Hnew : Booking_create b db
                   = (Ok b, setBookings db (bookings db ++ [b]))).
    { unfold Booking_create, bind, get, put, ret. cbn [b_userId b].
      unfold findBookingByUser in Hf.
      rewrite (find_none_existsb _ _ Hf). reflexivity. }
    assert (Hfb : findBookingByUser (setBookings db (bookings db ++ [b]))
                    (u_id reqUser) = Some b).
    { unfold findBookingByUser in *. cbn [bookings setBookings].
      apply find_app_last; [assumption|]. cbn. apply Nat.eqb_refl. }
    exists b, (setBookings db (bookings db ++ [b])).
    split; [exact Hnew|]. split; [exact Hfb|].
    split; [unfold bind, get, ret; rewrite Hfb; reflexivity|].
    repeat split.
    intros uid Hne. unfold findBookingByUser. cbn [bookings setBookings].
    apply find_app_other. cbn. apply Nat.eqb_neq. congruence.
Qed.

Lemma slice_window {A : Type} (l : list A) (a b : Z) :
  (0 <= a <= b)%Z ->
  slice l a b = firstn (Z.to_nat (b - a)) (skipn (Z.to_nat a) l).
Proof.
  intros Hab. unfold slice, relativeIndex.
  destruct (Z.ltb_spec a 0) as [Ha|_]; [lia|].
  destruct (Z.ltb_spec b 0) as [Hb|_]; [lia|].
  destruct (Z.le_gt_cases (Z.of_nat (List.length l)) a) as [Hl|Hl].
  - rewrite (Z.min_r a) by lia. rewrite (Z.min_r b) by lia.
    rewrite Z.sub_diag. cbn [Z.to_nat firstn].
    rewrite (skipn_all2 l (n := Z.to_nat a)) by lia.
    rewrite firstn_nil. reflexivity.
  - rewrite (Z.min_l a) by lia.
    destruct (Z.le_gt_cases b (Z.of_nat (List.length l))) as [Hb|Hb].
    + rewrite (Z.min_l b) by lia. reflexivity.
    + rewrite (Z.min_r b) by lia.
      rewrite !firstn_all2; [reflexivity| |]; rewrite length_skipn; lia.
Qed.

Lemma firstn_add {A : Type} (l : list A) :
  forall a b, firstn (a + b) l = firstn a l ++ firstn b (skipn a l).
Proof.
  induction l as [|x l IH]; intros a b.
  - rewrite !firstn_nil, skipn_nil, firstn_nil. reflexivity.
  - destruct a; cbn; [reflexivity|]. rewrite IH. reflexivity.
Qed.

(** The answer of a list endpoint for a page and a limit of at least
    one. *)
Lemma listMeetings_run (regExp : string -> option (string -> bool))
    (select : Booking -> list MeetingItem) (reqUser : User)
    (query : ListQuery) (db : DB) (booking : Booking)
    (found : list MeetingItem) :
  findBookingByUser db (u_id reqUser) = Some booking ->
  searchTitles regExp (q_search query) (select booking) db = (Ok found, db) ->
  (1 <= orNumber (q_page query) 1)%Z ->
  (1 <= orNumber (q_limit query) 10)%Z ->
  exists pagination,
    listMeetings regExp select reqUser query db
    = (Ok (ListOk
             (List.length
                (firstn (Z.to_nat (orNumber (q_limit query) 10))
                   (skipn (Z.to_nat ((orNumber (q_page query) 1 - 1)
                                     * orNumber (q_limit query) 10))
                      found)))
             pagination
             (firstn (Z.to_nat (orNumber (q_limit query) 10))
                (skipn (Z.to_nat ((orNumber (q_page query) 1 - 1)
                                  * orNumber (q_limit query) 10))
                   found))), db)
    /\ pg_next pagination
       = (if (orNumber (q_page query) 1 * orNumber (q_limit query) 10
              <? Z.of_nat (List.length found))%Z
          then Some (mkPageRef (orNumber (q_page query) 1 + 1)
                       (orNumber (q_limit query) 10))
          else None)
    /\ pg_prev pagination
       = (if (1 <? orNumber (q_page query) 1)%Z
          then Some (mkPageRef (orNumber (q_page query) 1 - 1)
                       (orNumber (q_limit query) 10))
          else None).
Proof.
  intros Hb Hs Hp Hl.
  set (p := orNumber (q_page query) 1) in *.
  set (L := orNumber (q_limit query) 10) in *.
  unfold listMeetings. unfold bind at 1, get at 1. rewrite Hb.
  unfold bind at 1. rewrite Hs. cbv zeta. fold p. fold L. unfold ret.
  rewrite slice_window by nia.
  replace (p * L - (p - 1) * L)%Z with L by lia.
  eexists. split; [reflexivity|]. cbn [pg_next pg_prev].
  split; [reflexivity|].
  destruct (Z.ltb_spec 1 p) as [H1|H1];
    destruct (Z.gtb_spec ((p - 1) * L) 0) as [H2|H2];
    try reflexivity; nia.
Qed.

(** X17. A list endpoint reads only. For a page [p] and a limit [L] of at
    least one (a missing, non-numeric or zero page counts as 1, such a
    limit as 10) it answers with the entries from position [(p - 1) * L]
    on, at most [L] of them, in the order of the list; it offers a next
    page exactly when entries remain after this one, and a previous page
    exactly when [p] is above 1. *)
Theorem listMeetings_page :
  forall (regExp : string -> option (string -> bool))
         (select : Booking -> list MeetingItem) (reqUser : User)
         (query : ListQuery) (db : DB) (booking : Booking)
         (found : list MeetingItem),
    findBookingByUser db (u_id reqUser) = Some booking ->
    searchTitles regExp (q_search query) (select booking) db
    = (Ok found, db) ->
    (1 <= orNumber (q_page query) 1)%Z ->
    (1 <= orNumber (q_limit query) 10)%Z ->
    exists count pagination data,
      listMeetings regExp select reqUser query db
      = (Ok (ListOk count pagination data), db)
      /\ data = firstn (Z.to_nat (orNumber (q_limit query) 10))
                  (skipn (Z.to_nat ((orNumber (q_page query) 1 - 1)
                                    * orNumber (q_limit query) 10))
                     found)
      /\ count = List.length data
      /\ (Z.of_nat count <= orNumber (q_limit query) 10)%Z
      /\ (pg_next pagination <> None
          <-> skipn (Z.to_nat (orNumber (q_page query) 1
                               * orNumber (q_limit query) 10)) found <> [])
      /\ (pg_prev pagination <> None <-> (1 < orNumber (q_page query) 1)%Z).
Proof.
  intros regExp select reqUser query db booking found Hb Hs Hp Hl.
  destruct (listMeetings_run regExp select reqUser query Hb Hs Hp Hl)
    as (pagination & Hrun & Hnext & Hprev).
  eexists _, pagination, _. split; [exact Hrun|].
  split; [reflexivity|]. split; [reflexivity|].
  split.
  - rewrite length_firstn. lia.
  - rewrite Hnext, Hprev. split.
    + destruct (Z.ltb_spec (orNumber (q_page query) 1
                            * orNumber (q_limit query) 10)
                  (Z.of_nat (List.length found))) as [H|H].
      * split; [intros _|discriminate].
        intros Hnil. apply (f_equal (@List.length _)) in Hnil.
        rewrite length_skipn in Hnil. cbn in Hnil. nia.
      * split; [intros Hc; exfalso; apply Hc; reflexivity|].
        intros Hne. exfalso. apply Hne. apply skipn_all2. nia.
    + destruct (Z.ltb_spec 1 (orNumber (q_page query) 1)) as [H|H].
      * split; [intros _; assumption|discriminate].
      * split; [intros Hc; exfalso; apply Hc; reflexivity|lia].
Qed.

Lemma listMeetings_page_witness :
  exists count pagination data,
    getUpcomingMeetings (fun _ => None) bilal (mkListQuery None None (Some 1%Z))
      (mkDB [asha; bilal] [] []
         [mkBooking 2
            [mkItem 10 "Sync" "2025-03-10" "09:00" "10:00" accepted 1 true None;
             mkItem 11 "Review" "2025-03-11" "09:00" "10:00" accepted 1 true
               None] [] [] []])
    = (Ok (ListOk count pagination data),
       mkDB [asha; bilal] [] []
         [mkBooking 2
            [mkItem 10 "Sync" "2025-03-10" "09:00" "10:00" accepted 1 true None;
             mkItem 11 "Review" "2025-03-11" "09:00" "10:00" accepted 1 true
               None] [] [] []])
    /\ data
       = [mkItem 10 "Sync" "2025-03-10" "09:00" "10:00" accepted 1 true None]
    /\ pg_next pagination <> None.
Proof.
  destruct (@listMeetings_page (fun _ => None) upcomingMeetings bilal
              (mkListQuery None None (Some 1%Z))
              (mkDB [asha; bilal] [] []
                 [mkBooking 2
                    [mkItem 10 "Sync" "2025-03-10" "09:00" "10:00" accepted 1
                       true None;
                     mkItem 11 "Review" "2025-03-11" "09:00" "10:00" accepted 1
                       true None] [] [] []])
              _ _ eq_refl eq_refl)
    as (count & pagination & data & Hrun & Hd & _ & _ & Hn & _).
  - cbn. lia.
  - cbn. lia.
  - exists count, pagination, data. split; [exact Hrun|].
    split; [exact Hd|]. apply Hn. cbn. discriminate.
Defined.

(** X18. Walking the pages 1, 2, ..., n of a list endpoint with one limit of
    at least one gives the first [n] times limit entries of the (searched)
    list, each once and in order; n pages that reach the end of the list
    give the whole list. *)
Theorem listMeetings_pages_tile :
  forall (regExp : string -> option (string -> bool))
         (select : Booking -> list MeetingItem) (reqUser : User)
         (search : option string) (limit : option Z) (db : DB)
         (booking : Booking) (found : list MeetingItem) (n : nat),
    findBookingByUser db (u_id reqUser) = Some booking ->
    searchTitles regExp search (select booking) db = (Ok found, db) ->
    (1 <= orNumber limit 10)%Z ->
    flat_map
      (fun p => dataOf (listMeetings regExp select reqUser
                          (mkListQuery search (Some (Z.of_nat p)) limit) db))
      (seq 1 n)
    = firstn (n * Z.to_nat (orNumber limit 10)) found
    /\ ((List.length found <= n * Z.to_nat (orNumber limit 10))%nat ->
        flat_map
          (fun p => dataOf (listMeetings regExp select reqUser
                              (mkListQuery search (Some (Z.of_nat p)) limit)
                              db))
          (seq 1 n)
        = found).
Proof.
  intros regExp select reqUser search limit db booking found n Hb Hs Hl.
  set (L := Z.to_nat (orNumber limit 10)).
  assert (Hpage : forall p,
            (1 <= p)%nat ->
            dataOf (listMeetings regExp select reqUser
                      (mkListQuery search (Some (Z.of_nat p)) limit) db)
            = firstn L (skipn ((p - 1) * L) found)).
  { intros p Hp.
    assert (Hor : orNumber (Some (Z.of_nat p)) 1 = Z.of_nat p).
    { unfold orNumber. destruct (Z.eqb_spec (Z.of_nat p) 0); [lia|reflexivity]. }
    destruct (@listMeetings_run regExp select reqUser
                (mkListQuery search (Some (Z.of_nat p)) limit) db booking
                found Hb Hs) as (pg & Hrun & _).
    - cbn [q_page]. rewrite Hor. lia.
    - exact Hl.
    - rewrite Hrun. unfold dataOf. cbn [fst q_page q_limit]. rewrite Hor.
      fold L. f_equal. f_equal. unfold L. nia. }
  assert (Htile : forall k,
            flat_map
              (fun p => dataOf (listMeetings regExp select reqUser
                                  (mkListQuery search (Some (Z.of_nat p)) limit)
                                  db))
              (seq 1 k)
            = firstn (k * L) found).
  { induction k as [|k IH]; [reflexivity|].
    rewrite seq_S, flat_map_app, IH. cbn [flat_map]. rewrite app_nil_r.
    rewrite Hpage by lia.
    replace (1 + k - 1)%nat with k by lia.
    replace (S k * L)%nat with (k * L + L)%nat by lia.
    rewrite firstn_add. reflexivity. }
  split; [apply Htile|].
  intros Hall. rewrite Htile. apply firstn_all2. exact Hall.
Qed.

Lemma listMeetings_pages_tile_witness :
  flat_map
    (fun p => dataOf (getUpcomingMeetings (fun _ => None) bilal
                        (mkListQuery None (Some (Z.of_nat p)) (Some 1%Z))
                        (mkDB [asha; bilal] [] []
                           [mkBooking 2
                              [mkItem 10 "Sync" "2025-03-10" "09:00" "10:00"
                                 accepted 1 true None;
                               mkItem 11 "Review" "2025-03-11" "09:00" "10:00"
                                 accepted 1 true None] [] [] []])))
    (seq 1 2)
  = [mkItem 10 "Sync" "2025-03-10" "09:00" "10:00" accepted 1 true None;
     mkItem 11 "Review" "2025-03-11" "09:00" "10:00" accepted 1 true None].
Proof.
  apply (@listMeetings_pages_tile (fun _ => None) upcomingMeetings bilal None
           (Some 1%Z)
           (mkDB [asha; bilal] [] []
              [mkBooking 2
                 [mkItem 10 "Sync" "2025-03-10" "09:00" "10:00" accepted 1
                    true None;
                  mkItem 11 "Review" "2025-03-11" "09:00" "10:00" accepted 1
                    true None] [] [] []])
           _ _ 2%nat eq_refl eq_refl).
  - cbn. lia.
  - cbn. lia.
Defined.

Lemma existsb_email_false (e : string) (l : list ParticipantInfo) :
  existsb (fun p => String.eqb (pi_email p) e) l = false ->
  ~ In e (map pi_email l).
Proof.
  intros H Hin. apply in_map_iff in Hin. destruct Hin as (p & Hp & Hin).
  assert (Ht : existsb (fun p => String.eqb (pi_email p) e) l = true).
  { apply existsb_exists. exists p. split; [assumption|].
    rewrite Hp. apply String.eqb_refl. }
  congruence.
Qed.

Lemma existsb_email_true (e : string) (l : list ParticipantInfo) :
  existsb (fun p => String.eqb (pi_email p) e) l = true ->
  In e (map pi_email l).
Proof.
  intros H. apply existsb_exists in H. destruct H as (p & Hin & Hp).
  apply String.eqb_eq in Hp. subst e. apply in_map. assumption.
Qed.

(** The loop over the invitations appends entries for pending
    invitations only, one per email that is not listed yet. *)
Lemma fold_addPendingInvitation (invs : list MeetingInvitation) :
  forall acc,
    exists extra,
      fold_left addPendingInvitation invs acc = acc ++ extra
      /\ (forall e, In e extra ->
            exists i, In i invs /\ i_status i = pending
                      /\ e = mkInfo (i_userId i) (i_email i) pending)
      /\ NoDup (map pi_email extra)
      /\ (forall e, In e extra -> ~ In (pi_email e) (map pi_email acc))
      /\ (forall i, In i invs -> i_status i = pending ->
            In (i_email i) (map pi_email (acc ++ extra))).
Proof.
  induction invs as [|i invs IH]; intros acc.
  - exists []. rewrite app_nil_r. cbn.
    repeat split; try constructor; intros; contradiction.
  - cbn [fold_left]. unfold addPendingInvitation at 2.
    destruct (existsb (fun p => String.eqb (pi_email p) (i_email i)) acc)
      eqn:Hex; cbn [negb andb].
    + destruct (IH acc) as (extra & Hrun & Hfrom & Hnd & Hnew & Hall).
      exists extra. split; [exact Hrun|].
      split; [|split; [exact Hnd|split; [exact Hnew|]]].
      * intros e He. destruct (Hfrom e He) as (j & Hj & Hrest).
        exists j. split; [right; assumption|assumption].
      * intros j [<-|Hj] Hp; [|apply Hall; assumption].
        rewrite map_app. apply in_or_app. left.
        apply existsb_email_true. assumption.
    + destruct (Status_eqb (i_status i) pending) eqn:Hst.
      * set (e0 := mkInfo (i_userId i) (i_email i) pending).
        destruct (IH (acc ++ [e0]))
          as (extra & Hrun & Hfrom & Hnd & Hnew & Hall).
        exists (e0 :: extra).
        split; [rewrite Hrun, <- app_assoc; reflexivity|].
        split; [|split; [|split]].
        -- intros e [<-|He].
           ++ exists i. split; [left; reflexivity|].
              split; [apply Status_eqb_eq; assumption|reflexivity].
           ++ destruct (Hfrom e He) as (j & Hj & Hrest).
              exists j. split; [right; assumption|assumption].
        -- cbn [map]. constructor; [|exact Hnd].
           intros Hin. apply in_map_iff in Hin.
           destruct Hin as (e & He & Hin).
           apply (Hnew e Hin). rewrite map_app. apply in_or_app. right.
           left. rewrite He. reflexivity.
        -- intros e [<-|He].
           ++ apply existsb_email_false. exact Hex.
           ++ intros Hin. apply (Hnew e He). rewrite map_app.
              apply in_or_app. left. assumption.
        -- intros j [<-|Hj] Hp.
           ++ rewrite map_app. apply in_or_app. right. left. reflexivity.
           ++ specialize (Hall j Hj Hp). rewrite <- app_assoc in Hall.
              exact Hall.
      * destruct (IH acc) as (extra & Hrun & Hfrom & Hnd & Hnew & Hall).
        exists extra. split; [exact Hrun|].
        split; [|split; [exact Hnd|split; [exact Hnew|]]].
        -- intros e He. destruct (Hfrom e He) as (j & Hj & Hrest).
           exists j. split; [right; assumption|assumption].
        -- intros j [<-|Hj] Hp; [|apply Hall; assumption].
           rewrite Hp in Hst. discriminate.
Qed.

(** X19. For the host or a participant, [getMeetingParticipants] reads only
    and answers with the participants of the meeting in their order,
    followed by one pending entry per email of a pending Invitation of
    the meeting that no participant and no earlier such entry carries;
    so every pending invitation of the meeting is represented by its
    email, and no appended email repeats or repeats a participant's. *)
Theorem getMeetingParticipants_merge :
  forall (reqUser : User) (id : ObjectId) (db : DB) (meeting : Meeting),
    findMeetingById db id = Some meeting ->
    m_hostId meeting = u_id reqUser
    \/ (exists p, In p (m_participants meeting)
                  /\ p_userId p = Some (u_id reqUser)) ->
    exists extra,
      getMeetingParticipants reqUser id db
      = (Ok (ParticipantsOk
               (List.length (m_participants meeting) + List.length extra)
               (map infoOf (m_participants meeting) ++ extra)), db)
      /\ (forall e, In e extra ->
            exists i, In i (pendingInvitationsOf db meeting)
                      /\ e = mkInfo (i_userId i) (i_email i) pending)
      /\ NoDup (map pi_email extra)
      /\ (forall e, In e extra ->
            ~ In (pi_email e) (map p_email (m_participants meeting)))
      /\ (forall i, In i (pendingInvitationsOf db meeting) ->
            In (i_email i)
               (map p_email (m_participants meeting) ++ map pi_email extra)).
Proof.
  intros reqUser id db meeting Hf Hview.
  destruct (fold_addPendingInvitation
              (filter (fun i => Nat.eqb (i_meetingId i) (m_id meeting))
                 (invitations db))
              (map infoOf (m_participants meeting)))
    as (extra & Hrun & Hfrom & Hnd & Hnew & Hall).
  assert (Hemails : map pi_email (map infoOf (m_participants meeting))
                    = map p_email (m_participants meeting)).
  { rewrite map_map. reflexivity. }
  exists extra. split; [|split; [|split; [exact Hnd|split]]].
  - unfold getMeetingParticipants, bind, get, ret. rewrite Hf.
    assert (Hguard :
              negb (toStringEq (m_hostId meeting) (IdString (u_id reqUser)))
              && negb (existsb
                         (fun p => match p_userId p with
                                   | Some u =>
                                       toStringEq u (IdString (u_id reqUser))
                                   | None => false
                                   end) (m_participants meeting)) = false).
    { destruct Hview as [Hh|(p & Hin & Hp)].
      - cbn [toStringEq]. rewrite Hh, Nat.eqb_refl. reflexivity.
      - apply andb_false_iff. right. apply negb_false_iff.
        apply existsb_exists. exists p. split; [assumption|].
        rewrite Hp. cbn. apply Nat.eqb_refl. }
    rewrite Hguard, Hrun, length_app, length_map. reflexivity.
  - intros e He. destruct (Hfrom e He) as (i & Hi & Hst & Heq).
    exists i. split; [|assumption].
    unfold pendingInvitationsOf. apply filter_In. split; [assumption|].
    rewrite Hst. reflexivity.
  - intros e He. rewrite <- Hemails. apply Hnew. assumption.
  - intros i Hi. unfold pendingInvitationsOf in Hi. apply filter_In in Hi.
    destruct Hi as [Hi Hst]. apply Status_eqb_eq in Hst.
    rewrite <- Hemails, <- map_app. apply Hall; assumption.
Qed.

Lemma getMeetingParticipants_merge_witness :
  exists extra,
    getMeetingParticipants asha 10
      (mkDB [asha; bilal]
         [sampleMeeting 10 1 "2025-03-10" "09:00" "10:00" [acceptedEntry asha]]
         [mkInvitation 20 10 None "new@x.com" pending;
          mkInvitation 21 10 None "new@x.com" pending] [])
    = (Ok (ParticipantsOk (1 + List.length extra)
             (mkInfo (Some 1%nat) "a@x.com" accepted :: extra)),
       mkDB [asha; bilal]
         [sampleMeeting 10 1 "2025-03-10" "09:00" "10:00" [acceptedEntry asha]]
         [mkInvitation 20 10 None "new@x.com" pending;
          mkInvitation 21 10 None "new@x.com" pending] [])
    /\ NoDup (map pi_email extra).
Proof.
  destruct (@getMeetingParticipants_merge asha 10
              (mkDB [asha; bilal]
                 [sampleMeeting 10 1 "2025-03-10" "09:00" "10:00"
                    [acceptedEntry asha]]
                 [mkInvitation 20 10 None "new@x.com" pending;
                  mkInvitation 21 10 None "new@x.com" pending] [])
              (sampleMeeting 10 1 "2025-03-10" "09:00" "10:00"
                 [acceptedEntry asha])
              eq_refl (or_introl eq_refl))
    as (extra & Hrun & _ & Hnd & _).
  exists extra. split; [exact Hrun | exact Hnd].
Defined.

(* ------------------------------------------------------------------ *)
(** ** Further properties of the refresh *)

Lemma upsertBooking_same (b b0 : Booking) (bs : list Booking) :
  b_userId b = b_userId b0 ->
  upsertBooking b (upsertBooking b0 bs) = upsertBooking b bs.
Proof.
  intros Hid. induction bs as [|x bs IH]; cbn [upsertBooking].
  - rewrite Hid, Nat.eqb_refl. reflexivity.
  - destruct (Nat.eqb (b_userId x) (b_userId b0)) eqn:E;
      cbn [upsertBooking]; rewrite Hid.
    + rewrite E, Nat.eqb_refl. reflexivity.
    + rewrite E, IH. reflexivity.
Qed.

(** X20. The two rebuilds of a dashboard overwrite each other: the refresh
    gives the same answer and the same store whether or not the rebuild
    [updateUserBookings] ran just before, and the other way round; each
    of them run twice with one clock is as run once. Which of the two
    dashboards is stored depends on which ran last. *)
Theorem refreshBookings_last_writer :
  forall (now now0 : Z) (reqUser user : User) (db : DB),
    findUserById db (u_id reqUser) = Some user ->
    refreshBookings now reqUser
      (snd (updateUserBookings now0 (IdString (u_id reqUser)) db))
    = refreshBookings now reqUser db
    /\ updateUserBookings now (IdString (u_id reqUser))
         (snd (refreshBookings now0 reqUser db))
       = updateUserBookings now (IdString (u_id reqUser)) db
    /\ refreshBookings now reqUser (snd (refreshBookings now reqUser db))
       = refreshBookings now reqUser db.
Proof.
  intros now now0 reqUser user db Hu. split; [|split].
  - rewrite (@updateUserBookings_found db now0 (IdString (u_id reqUser))
               (u_id reqUser) user eq_refl Hu).
    cbn [snd]. unfold refreshBookings, bind, get, put, ret.
    cbn [meetings invitations bookings users setBookings].
    unfold setBookings. cbn [meetings invitations bookings users].
    rewrite upsertBooking_same by reflexivity. reflexivity.
  - unfold refreshBookings, bind, get, put, ret. cbn [snd].
    rewrite (@updateUserBookings_found db now (IdString (u_id reqUser))
               (u_id reqUser) user eq_refl Hu).
    match goal with
    | |- updateUserBookings _ _ ?d = _ =>
        rewrite (@updateUserBookings_found d now (IdString (u_id reqUser))
                   (u_id reqUser) user eq_refl Hu)
    end.
    unfold rebuiltBooking, setBookings.
    cbn [meetings invitations bookings users].
    rewrite upsertBooking_same by reflexivity. reflexivity.
  - unfold refreshBookings, bind, get, put, ret. cbn [snd].
    cbn [meetings invitations bookings users setBookings].
    unfold setBookings. cbn [meetings invitations bookings users].
    rewrite upsertBooking_same by reflexivity. reflexivity.
Qed.

Lemma refreshBookings_last_writer_witness :
  refreshBookings sampleNow bilal
    (snd (updateUserBookings sampleNow (IdString 2) dashboardStore))
  = refreshBookings sampleNow bilal dashboardStore.
Proof.
  apply (@refreshBookings_last_writer sampleNow sampleNow bilal bilal
           dashboardStore eq_refl).
Defined.








(* ------------------------------------------------------------------ *)
(** ** Properties of the copy and of the weekend update *)

Lemma find_updateAt_other {A : Type} (p q : A -> bool) (f : A -> A)
    (l : list A) :
  forall k, findIndex q l = Some k ->
            (forall a, q a = true -> p a = false) ->
            (forall a, p (f a) = p a) ->
            find p (updateAt k f l) = find p l.
Proof.
  induction l as [|x l IH]; intros k Hk Hq Hp; [discriminate|].
  cbn in Hk. destruct (q x) eqn:E.
  - inversion Hk; subst. cbn. rewrite Hp, (Hq x E). reflexivity.
  - destruct (findIndex q l) as [j|] eqn:Ej; [|discriminate].
    inversion Hk; subst. cbn. rewrite (IH j eq_refl Hq Hp). reflexivity.
Qed.

Lemma isDay_other (t d : string) (a : DayAvailability) :
  String.eqb t d = false -> isDay t a = true -> isDay d a = false.
Proof.
  unfold isDay. intros Hne Ht. apply String.eqb_eq in Ht. rewrite Ht.
  exact Hne.
Qed.

Lemma copyInto_entry (s : string) (sl : list Slot) (av : list DayAvailability)
    (t d : string) :
  find (isDay d) (copyInto s sl av t)
  = if String.eqb t d && negb (String.eqb t s)
    then Some (copiedEntry sl d (find (isDay d) av))
    else find (isDay d) av.
Proof.
  unfold copyInto. destruct (String.eqb t s) eqn:Ets.
  - rewrite andb_false_r. reflexivity.
  - rewrite andb_true_r. destruct (String.eqb t d) eqn:Etd.
    + apply String.eqb_eq in Etd. subst t.
      destruct (findIndex (isDay d) av) as [k|] eqn:Hk.
      * destruct (find_updateAt (isDay d)
                    (fun a => if isAvailable a
                              then mkDay (day a) (isAvailable a) sl else a)
                    av Hk) as (old & Hold & Hnew).
        { intros a. destruct (isAvailable a); reflexivity. }
        rewrite Hnew, Hold. cbn [copiedEntry].
        cbv beta. destruct (isAvailable old); reflexivity.
      * rewrite (proj1 (findIndex_find_none _ _) Hk).
        rewrite find_app_none; [reflexivity|assumption|].
        unfold isDay. cbn. apply String.eqb_refl.
    + destruct (findIndex (isDay t) av) as [k|] eqn:Hk.
      * apply find_updateAt_other with (q := isDay t); [assumption| |].
        -- intros a. apply isDay_other. assumption.
        -- intros a. destruct (isAvailable a); reflexivity.
      * apply find_app_other. unfold isDay. cbn. exact Etd.
Qed.

Lemma copiedEntry_idem (sl : list Slot) (d : string)
    (old : option DayAvailability) :
  copiedEntry sl d (Some (copiedEntry sl d old)) = copiedEntry sl d old.
Proof.
  destruct old as [a|]; cbn; [|reflexivity].
  destruct (isAvailable a) eqn:E; cbn; [reflexivity|].
  rewrite E. reflexivity.
Qed.

Lemma fold_copyInto_entry (s : string) (sl : list Slot) (ts : list string)
    (d : string) :
  forall av,
    find (isDay d) (fold_left (copyInto s sl) ts av)
    = if existsb (String.eqb d) ts && negb (String.eqb d s)
      then Some (copiedEntry sl d (find (isDay d) av))
      else find (isDay d) av.
Proof.
  induction ts as [|t ts IH]; intros av; [reflexivity|].
  cbn [fold_left existsb]. rewrite IH, copyInto_entry.
  rewrite (String.eqb_sym t d).
  destruct (String.eqb d t) eqn:Edt; cbn [orb andb].
  - apply String.eqb_eq in Edt. subst t.
    destruct (String.eqb d s); cbn [negb andb].
    + rewrite !andb_false_r. reflexivity.
    + rewrite andb_true_r.
      destruct (existsb (String.eqb d) ts); [|reflexivity].
      rewrite copiedEntry_idem. reflexivity.
  - reflexivity.
Qed.

Lemma copyInto_canonical (s : string) (sl : list Slot)
    (av : list DayAvailability) (t : string) :
  sl <> [] -> Forall canonicalDay av -> Forall canonicalDay (copyInto s sl av t).
Proof.
  intros Hsl Hav. unfold copyInto.
  destruct (String.eqb t s); [assumption|].
  destruct (findIndex (isDay t) av) as [k|].
  - apply Forall_updateAt; [assumption|].
    intros a Ha. destruct (isAvailable a) eqn:E; [|assumption].
    split; cbn; [discriminate|intros _; assumption].
  - apply Forall_app. split; [assumption|]. constructor; [|constructor].
    split; cbn; [discriminate|intros _; assumption].
Qed.

Lemma in_existsb_eqb (d : string) (l : list string) :
  In d l -> existsb (String.eqb d) l = true.
Proof.
  intros H. apply existsb_exists. exists d.
  split; [assumption|apply String.eqb_refl].
Qed.

(** X22. A copy of the slots of a stored source day to valid target days: a
    target that was not stored is added as available with the source's
    slots, an available target takes them, an unavailable target stays
    unavailable and keeps its slots; the source day and every day that is
    not a target are unchanged. From an available source, it keeps the
    invariant that an unavailable day has no slot and an available day
    has one. *)
Theorem copyTimeSlots_copies :
  forall (reqUser : User) (sourceDay : string) (targetDays : list string)
         (db : DB) (user : User) (source : DayAvailability),
    In sourceDay validDays ->
    targetDays <> [] ->
    (forall t, In t targetDays -> In t validDays) ->
    findUserById db (u_id reqUser) = Some user ->
    find (isDay sourceDay) (availability user) = Some source ->
    exists av',
      copyTimeSlots reqUser (Some sourceDay) (Some targetDays) db
      = (Ok (CopyOk av'),
         setUsers db (replaceUser (withAvailability user av') (users db)))
      /\ (forall d,
            find (isDay d) av'
            = if existsb (String.eqb d) targetDays
                 && negb (String.eqb d sourceDay)
              then Some (copiedEntry (slots source) d
                           (find (isDay d) (availability user)))
              else find (isDay d) (availability user))
      /\ (isAvailable source = true ->
          Forall canonicalDay (availability user) ->
          Forall canonicalDay av').
Proof.
  intros reqUser sourceDay targetDays db user source Hs Hne Hts Hu Hsrc.
  exists (fold_left (copyInto sourceDay (slots source)) targetDays
            (availability user)).
  split; [|split].
  - unfold copyTimeSlots.
    assert (Htr : Js.truthy sourceDay = true).
    { cbn in Hs.
      destruct Hs as [H|[H|[H|[H|[H|[H|[H|[]]]]]]]]; rewrite <- H;
        reflexivity. }
    rewrite Htr, (in_existsb_eqb _ _ Hs). cbn [negb orb].
    destruct targetDays as [|t0 ts] eqn:Et; [congruence|]. rewrite <- Et in *.
    assert (Hfind : find (fun d => negb (existsb (String.eqb d) validDays))
                      targetDays = None).
    { destruct (find _ targetDays) as [d|] eqn:Hf; [|reflexivity].
      apply find_some in Hf. destruct Hf as [Hin Hd].
      rewrite (in_existsb_eqb _ _ (Hts d Hin)) in Hd. discriminate. }
    rewrite Hfind. unfold bind at 1, get at 1. rewrite Hu, Hsrc.
    reflexivity.
  - intros d. apply fold_copyInto_entry.
  - intros Ha Hav.
    assert (Hsl : slots source <> []).
    { apply find_some in Hsrc. destruct Hsrc as [Hin _].
      rewrite Forall_forall in Hav. apply (Hav source Hin). assumption. }
    clear -Hsl Hav. revert Hav. generalize (availability user).
    induction targetDays as [|t ts IH]; intros av Hav; [assumption|].
    cbn [fold_left]. apply IH. apply copyInto_canonical; assumption.
Qed.

Lemma copyTimeSlots_copies_witness :
  exists av',
    copyTimeSlots bilal (Some "Monday") (Some ["Tuesday"; "Monday"])
      availabilityStore
    = (Ok (CopyOk av'),
       setUsers availabilityStore
         (replaceUser (withAvailability bilalMonday av')
            (users availabilityStore)))
    /\ find (isDay "Tuesday") av'
       = Some (mkDay "Tuesday" true [mkSlot "09:00" "17:00"])
    /\ find (isDay "Monday") av'
       = Some (mkDay "Monday" true [mkSlot "09:00" "17:00"]).
Proof.
  destruct (@copyTimeSlots_copies bilal "Monday" ["Tuesday"; "Monday"]
              availabilityStore bilalMonday
              (mkDay "Monday" true [mkSlot "09:00" "17:00"]))
    as (av' & Hrun & Hd & _).
  - left. reflexivity.
  - discriminate.
  - intros t [<-|[<-|[]]]; cbn; tauto.
  - reflexivity.
  - reflexivity.
  - exists av'. split; [exact Hrun|].
    split; [exact (Hd "Tuesday") | exact (Hd "Monday")].
Defined.

Lemma setWeekendDay_explicit (d : string) (b : bool)
    (reqSlots : option (list (option SlotInput)))
    (av : list DayAvailability) :
  setWeekendDay d (Some b) reqSlots av = setDay d (Some b) reqSlots av.
Proof. unfold setWeekendDay, setDay. destruct b; reflexivity. Qed.

Lemma setWeekendDay_entry (d : string) (i : WeekendDayInput)
    (av : list DayAvailability) :
  find (isDay d) (applyWeekendDay d (Some i) av)
  = weekendEntry d (Some i) (find (isDay d) av).
Proof.
  unfold applyWeekendDay, weekendEntry.
  destruct (wd_isAvailable i) as [b|].
  - rewrite setWeekendDay_explicit. apply setDay_entry.
  - unfold setWeekendDay.
    destruct (findIndex (isDay d) av) as [k|] eqn:Hk.
    + destruct (find (isDay d) av) as [a|] eqn:Hf; [reflexivity|].
      apply findIndex_find_none in Hf. congruence.
    + rewrite (proj1 (findIndex_find_none _ _) Hk).
      apply find_app_none; [assumption|].
      unfold isDay. cbn. apply String.eqb_refl.
Qed.

Lemma applyWeekendDay_other (d d' : string) (input : option WeekendDayInput)
    (av : list DayAvailability) :
  String.eqb d d' = false ->
  find (isDay d') (applyWeekendDay d input av) = find (isDay d') av.
Proof.
  intros Hne. destruct input as [i|]; [|reflexivity].
  unfold applyWeekendDay, setWeekendDay.
  destruct (findIndex (isDay d) av) as [k|] eqn:Hk.
  - destruct (wd_isAvailable i) as [b|]; [|reflexivity].
    apply find_updateAt_other with (q := isDay d); [assumption| |].
    + intros a. apply isDay_other. assumption.
    + intros a. reflexivity.
  - apply find_app_other. unfold isDay. cbn. exact Hne.
Qed.

(** X23. The weekend update touches the entries of Saturday and Sunday only
    and answers with them as stored. A day given with an explicit
    [isAvailable] is stored as the per-day update would store it:
    unavailable without slots, or available with the slots that update
    keeps (the normalized slots of the request's array, or one all-day
    slot when none remains; without an array the slots the day had, or
    one all-day slot when it was stored without any). A day given
    without [isAvailable] is left as it is when stored, and added as
    unavailable without slots when not; a day not given is left alone. *)
Theorem updateWeekendAvailability_entries :
  forall (reqUser : User) (saturday sunday : option WeekendDayInput)
         (db : DB) (user : User),
    findUserById db (u_id reqUser) = Some user ->
    exists av',
      updateWeekendAvailability reqUser saturday sunday db
      = (Ok (WeekendOk (find (isDay "Saturday") av')
               (find (isDay "Sunday") av')),
         setUsers db (replaceUser (withAvailability user av') (users db)))
      /\ find (isDay "Saturday") av'
         = weekendEntry "Saturday" saturday
             (find (isDay "Saturday") (availability user))
      /\ find (isDay "Sunday") av'
         = weekendEntry "Sunday" sunday
             (find (isDay "Sunday") (availability user))
      /\ (forall d,
            d <> "Saturday" -> d <> "Sunday" ->
            find (isDay d) av' = find (isDay d) (availability user))
      /\ (forall i b,
            saturday = Some i -> wd_isAvailable i = Some b ->
            applyWeekendDay "Saturday" saturday (availability user)
            = setDay "Saturday" (Some b) (wd_slots i) (availability user)).
Proof.
  intros reqUser saturday sunday db user Hu.
  exists (applyWeekendDay "Sunday" sunday
            (applyWeekendDay "Saturday" saturday (availability user))).
  split; [|split; [|split; [|split]]].
  - unfold updateWeekendAvailability, bind, get, User_save, put, ret.
    rewrite Hu. reflexivity.
  - rewrite applyWeekendDay_other by reflexivity.
    destruct saturday as [i|]; [apply setWeekendDay_entry|reflexivity].
  - destruct sunday as [i|].
    + rewrite setWeekendDay_entry.
      rewrite applyWeekendDay_other by reflexivity. reflexivity.
    + cbn [applyWeekendDay weekendEntry].
      apply applyWeekendDay_other. reflexivity.
  - intros d Hsat Hsun.
    rewrite !applyWeekendDay_other; [reflexivity| |];
      apply String.eqb_neq; congruence.
  - intros i b -> Hb. cbn [applyWeekendDay]. rewrite Hb.
    apply setWeekendDay_explicit.
Qed.

Lemma updateWeekendAvailability_entries_witness :
  exists av',
    updateWeekendAvailability bilal
      (Some (mkWeekendDay (Some true) (Some []))) (Some (mkWeekendDay None None))
      availabilityStore
    = (Ok (WeekendOk (find (isDay "Saturday") av')
             (find (isDay "Sunday") av')),
       setUsers availabilityStore
         (replaceUser (withAvailability bilalMonday av')
            (users availabilityStore)))
    /\ find (isDay "Saturday") av' = Some (mkDay "Saturday" true [allDaySlot])
    /\ find (isDay "Sunday") av' = Some (mkDay "Sunday" false []).
Proof.
  destruct (@updateWeekendAvailability_entries bilal
              (Some (mkWeekendDay (Some true) (Some [])))
              (Some (mkWeekendDay None None)) availabilityStore bilalMonday
              eq_refl)
    as (av' & Hrun & Hsat & Hsun & _).
  exists av'. split; [exact Hrun|]. split; [exact Hsat | exact Hsun].
Defined.

(* ------------------------------------------------------------------ *)
(** ** Properties of the availability check *)

Lemma split_parts_without (c sep : ascii) (s : string) :
  Js.includes c s = false ->
  forall p, In p (Js.split sep s) -> Js.includes c p = false.
Proof.
  induction s as [|a s IH]; intros Hc p Hp.
  - destruct Hp as [<-|[]]. reflexivity.
  - cbn in Hc. apply orb_false_iff in Hc. destruct Hc as [Ha Hs].
    cbn in Hp. destruct (Ascii.eqb a sep).
    + destruct Hp as [<-|Hp]; [reflexivity|apply IH; assumption].
    + destruct (Js.split sep s) as [|h t] eqn:E.
      * destruct Hp as [<-|[]]. cbn. rewrite Ha. reflexivity.
      * destruct Hp as [<-|Hp].
        -- cbn. rewrite Ha. apply IH; [assumption|left; reflexivity].
        -- apply IH; [assumption|right; assumption].
Qed.

Lemma split_without (sep : ascii) (s : string) :
  Js.includes sep s = false -> Js.split sep s = [s].
Proof.
  induction s as [|a s IH]; intros Hc; [reflexivity|].
  cbn in Hc. apply orb_false_iff in Hc. destruct Hc as [Ha Hs].
  cbn. rewrite Ha, (IH Hs). reflexivity.
Qed.

Lemma split_nonempty (sep : ascii) (s : string) : Js.split sep s <> [].
Proof.
  destruct s as [|a s]; cbn; [discriminate|].
  destruct (Ascii.eqb a sep); [discriminate|].
  destruct (Js.split sep s); discriminate.
Qed.

(** X24. The 12-hour branch of [parseTimeToMinutes] gives no number: every
    string that reaches it (one with a blank and without a colon) is
    NaN, because its minutes are undefined. *)
Theorem parseTimeToMinutes_12_hour :
  forall (timeStr : string),
    Js.includes " " timeStr = true ->
    Js.includes ":" timeStr = false ->
    parseTimeToMinutes timeStr = None.
Proof.
  intros timeStr Hb Hc. unfold parseTimeToMinutes.
  assert (Ht : Js.truthy timeStr = true) by (destruct timeStr; [discriminate|reflexivity]).
  rewrite Ht, Hc, Hb. cbn [negb].
  assert (Hm : numAt (Js.split ":" (nth 0 (Js.split " " timeStr) "")) 1 = None).
  { rewrite split_without; [reflexivity|].
    apply (@split_parts_without ":" " " timeStr Hc).
    destruct (Js.split " " timeStr) as [|h t] eqn:E.
    - exfalso. apply (@split_nonempty " " timeStr). exact E.
    - left. reflexivity. }
  rewrite Hm.
  destruct (numAt (Js.split ":" (nth 0 (Js.split " " timeStr) "")) 0) as [h|];
    [|reflexivity].
  destruct (isPeriod _ "PM" && (h <? 12)%Z); [reflexivity|].
  destruct (isPeriod _ "AM" && (h =? 12)%Z); reflexivity.
Qed.

Lemma parseTimeToMinutes_12_hour_witness :
  parseTimeToMinutes "9 PM" = None.
Proof.
  apply (@parseTimeToMinutes_12_hour "9 PM"); reflexivity.
Defined.

(** The check for the caller on a day stored as available whose slots
    all have an empty bound. *)
Lemma checkUserAvailability_unbounded (weekdayOf : string -> string)
    (reqUser user : User) (date reqStart reqEnd : string) (db : DB)
    (a : DayAvailability) :
  Js.truthy date = true -> Js.truthy reqStart = true ->
  Js.truthy reqEnd = true ->
  findUserById db (u_id reqUser) = Some user ->
  find (isDay (weekdayOf date)) (availability user) = Some a ->
  isAvailable a = true ->
  slots a <> [] ->
  (forall s, In s (slots a) ->
             Js.truthy (startTime s) = false \/ Js.truthy (endTime s) = false) ->
  checkUserAvailability weekdayOf reqUser date reqStart reqEnd None db
  = (Ok (CheckOk false (NoSlotOn (weekdayOf date)) None), db).
Proof.
  intros Hd Hs He Hu Hf Ha Hne Hall.
  unfold checkUserAvailability. rewrite Hd, Hs, He. cbn [negb orb].
  unfold bind at 1. unfold targetUserOf, bind at 1, get at 1.
  cbn [isOtherUser]. rewrite Hu. unfold ret at 1. rewrite Hf, Ha.
  cbn [negb].
  assert (Hnone : find (fitsSlot (parseTimeToMinutes reqStart)
                          (parseTimeToMinutes reqEnd)) (slots a) = None).
  { destruct (find _ (slots a)) as [s|] eqn:E; [|reflexivity].
    apply find_some in E. destruct E as [Hin Hfit].
    unfold fitsSlot in Hfit. destruct (Hall s Hin) as [H|H];
      rewrite H in Hfit; cbn in Hfit; [discriminate|].
    rewrite andb_false_r in Hfit. discriminate. }
  destruct (slots a) as [|s0 l] eqn:Esl; [congruence|].
  rewrite Hnone. reflexivity.
Qed.

(** X25. Marking a day as available without giving slots makes the check
    refuse every time on that day: the per-day update stores one all-day
    slot with both bounds empty, and the check skips a slot with an
    empty bound, so it finds no available slot whatever the requested
    times and the meetings are. *)
Theorem checkUserAvailability_after_all_day :
  forall (weekdayOf : string -> string) (reqUser user : User) (d : string)
         (db : DB) (date reqStart reqEnd : string),
    In d validDays ->
    findUserById db (u_id reqUser) = Some user ->
    Js.truthy date = true -> Js.truthy reqStart = true ->
    Js.truthy reqEnd = true ->
    weekdayOf date = d ->
    checkUserAvailability weekdayOf reqUser date reqStart reqEnd None
      (snd (updateDayAvailability reqUser d (Some true) (Some []) db))
    = (Ok (CheckOk false (NoSlotOn d) None),
       snd (updateDayAvailability reqUser d (Some true) (Some []) db)).
Proof.
  intros weekdayOf reqUser user d db date reqStart reqEnd
         Hd Hu Htd Hts Hte Hw.
  set (user' := withAvailability user
                  (setDay d (Some true) (Some []) (availability user))).
  assert (Hrun : snd (updateDayAvailability reqUser d (Some true) (Some []) db)
                 = setUsers db (replaceUser user' (users db))).
  { unfold updateDayAvailability. rewrite (in_existsb_eqb _ _ Hd).
    cbn [negb]. unfold bind at 1, get at 1. rewrite Hu. reflexivity. }
  rewrite Hrun, <- Hw.
  apply checkUserAvailability_unbounded
    with (user := user') (a := mkDay d true [allDaySlot]);
    try assumption.
  - unfold findUserById in *. cbn [users setUsers].
    apply find_replaceUser with (u := user); [assumption|reflexivity].
  - rewrite Hw. unfold user'. cbn [availability withAvailability].
    rewrite setDay_entry. unfold storedSlots. reflexivity.
  - reflexivity.
  - discriminate.
  - intros s [<-|[]]. left. reflexivity.
Qed.

Lemma checkUserAvailability_after_all_day_witness :
  checkUserAvailability (fun _ => "Tuesday") bilal "2025-03-11" "10:00" "11:00"
    None
    (snd (updateDayAvailability bilal "Tuesday" (Some true) (Some [])
            availabilityStore))
  = (Ok (CheckOk false (NoSlotOn "Tuesday") None),
     snd (updateDayAvailability bilal "Tuesday" (Some true) (Some [])
            availabilityStore)).
Proof.
  apply (@checkUserAvailability_after_all_day (fun _ => "Tuesday") bilal
           bilalMonday "Tuesday" availabilityStore "2025-03-11" "10:00"
           "11:00");
    try reflexivity.
  cbn. tauto.
Defined.

(** X26. When the check answers that the caller is available, the caller's
    entry for that weekday is stored as available, it has no slot at all
    or a slot with both bounds that contains the requested times (as
    minutes of the day), and the conflict detector found no meeting;
    nothing is written. *)
Theorem checkUserAvailability_sound :
  forall (weekdayOf : string -> string) (reqUser : User)
         (date reqStart reqEnd : string) (db db' : DB)
         (message : CheckMessage) (conflict : option Meeting),
    checkUserAvailability weekdayOf reqUser date reqStart reqEnd None db
    = (Ok (CheckOk true message conflict), db') ->
    db' = db
    /\ conflict = None
    /\ checkTimeConflict db (IdObject (u_id reqUser)) date reqStart reqEnd
         None = Ok None
    /\ exists user a,
         findUserById db (u_id reqUser) = Some user
         /\ find (isDay (weekdayOf date)) (availability user) = Some a
         /\ isAvailable a = true
         /\ (slots a = []
             \/ exists s ms me ss se,
                  In s (slots a)
                  /\ parseTimeToMinutes reqStart = Some ms
                  /\ parseTimeToMinutes reqEnd = Some me
                  /\ Js.truthy (startTime s) = true
                  /\ Js.truthy (endTime s) = true
                  /\ parseTimeToMinutes (startTime s) = Some ss
                  /\ parseTimeToMinutes (endTime s) = Some se
                  /\ (ss <= ms)%Z /\ (me <= se)%Z).
Proof.
  intros weekdayOf reqUser date reqStart reqEnd db db' message conflict.
  unfold checkUserAvailability.
  destruct (negb (Js.truthy date) || negb (Js.truthy reqStart)
            || negb (Js.truthy reqEnd)); [discriminate|].
  unfold bind at 1. unfold targetUserOf, bind at 1, get at 1.
  cbn [isOtherUser].
  destruct (findUserById db (u_id reqUser)) as [user|] eqn:Hu;
    unfold ret at 1; [|discriminate].
  assert (Hid : u_id user = u_id reqUser).
  { unfold findUserById in Hu. apply find_some in Hu.
    destruct Hu as [_ Hu]. apply Nat.eqb_eq. assumption. }
  destruct (find (isDay (weekdayOf date)) (availability user)) as [a|] eqn:Hf;
    [|discriminate].
  destruct (isAvailable a) eqn:Ha; cbn [negb]; [|discriminate].
  set (fit := match slots a with
              | [] => Some AllDayAvailable
              | _ :: _ =>
                  option_map WithinSlot
                    (find (fitsSlot (parseTimeToMinutes reqStart)
                             (parseTimeToMinutes reqEnd)) (slots a))
              end).
  assert (Hfit : match slots a with
                 | [] => Some AllDayAvailable
                 | s0 :: l =>
                     option_map WithinSlot
                       (find (fitsSlot (parseTimeToMinutes reqStart)
                                (parseTimeToMinutes reqEnd)) (s0 :: l))
                 end = fit).
  { unfold fit. destruct (slots a); reflexivity. }
  rewrite Hfit. unfold bind, liftR, ret. rewrite Hid.
  destruct fit as [msg|] eqn:Efit; [|discriminate].
  destruct (checkTimeConflict db (IdObject (u_id reqUser)) date reqStart
              reqEnd None) as [[m|]|e] eqn:Hc; try discriminate.
  intros H. inversion H; subst. split; [reflexivity|].
  split; [reflexivity|]. split; [reflexivity|].
  exists user, a. split; [reflexivity|]. split; [exact Hf|].
  split; [assumption|].
  unfold fit in Efit. destruct (slots a) as [|s0 l] eqn:Esl;
    [left; reflexivity|right].
  destruct (find _ (s0 :: l)) as [s|] eqn:Efind; [|discriminate].
  apply find_some in Efind. destruct Efind as [Hin Hs].
  unfold fitsSlot in Hs. rewrite !andb_true_iff in Hs.
  destruct Hs as [[[Hts Hte] Hge] Hle].
  unfold geNum in Hge. unfold leNum in Hle.
  destruct (parseTimeToMinutes reqStart) as [ms|]; [|discriminate].
  destruct (parseTimeToMinutes reqEnd) as [me|]; [|discriminate].
  destruct (parseTimeToMinutes (startTime s)) as [ss|] eqn:Ess;
    [|discriminate].
  destruct (parseTimeToMinutes (endTime s)) as [se|] eqn:Ese;
    [|discriminate].
  apply Z.leb_le in Hge. apply Z.leb_le in Hle.
  exists s, ms, me, ss, se. repeat split; first [assumption|reflexivity].
Qed.

Lemma checkUserAvailability_sound_witness :
  checkUserAvailability (fun _ => "Monday") bilal "2025-03-10" "10:00" "11:00"
    None availabilityStore
  = (Ok (CheckOk true (WithinSlot (mkSlot "09:00" "17:00")) None),
     availabilityStore)
  /\ checkTimeConflict availabilityStore (IdObject 2) "2025-03-10" "10:00"
       "11:00" None = Ok None.
Proof.
  split; [reflexivity|].
  apply (@checkUserAvailability_sound (fun _ => "Monday") bilal "2025-03-10"
           "10:00" "11:00" availabilityStore availabilityStore
           (WithinSlot (mkSlot "09:00" "17:00")) None eq_refl).
Defined.

(* ------------------------------------------------------------------ *)
(** ** Reading a meeting after a response *)

Lemma find_none_forall {A : Type} (p : A -> bool) (l : list A) :
  (forall x, In x l -> p x = false) -> find p l = None.
Proof.
  intros H. induction l as [|x l IH]; [reflexivity|].
  cbn. rewrite (H x (or_introl eq_refl)). apply IH.
  intros y Hy. apply H. right. assumption.
Qed.

Lemma findIndex_none_forall {A : Type} (p : A -> bool) (l : list A) :
  (forall x, In x l -> p x = false) -> findIndex p l = None.
Proof.
  intros H. apply findIndex_find_none. apply find_none_forall. assumption.
Qed.

(** X27. A user who is neither host nor participant of a stored meeting, and
    holds no invitation for it, is refused by [getMeeting]; after
    answering "accepted" under the id of the meeting (an id no
    invitation has), the same user is listed as an accepted participant
    and [getMeeting] answers with the meeting. *)
Theorem respondToInvitation_grants_access :
  forall (now : Z) (reqUser : User) (id : ObjectId) (db : DB)
         (meeting : Meeting),
    findInvitationById db id = None ->
    findMeetingById db id = Some meeting ->
    validMeeting meeting = true ->
    Js.truthy (u_email reqUser) = true ->
    m_hostId meeting <> u_id reqUser ->
    (forall p, In p (m_participants meeting) ->
               p_userId p <> Some (u_id reqUser)
               /\ p_email p <> Js.toLowerCase (u_email reqUser)) ->
    (forall i, In i (invitations db) -> i_meetingId i = id ->
               i_userId i <> Some (u_id reqUser)
               /\ i_email i <> u_email reqUser) ->
    getMeeting reqUser id db = (Ok MeetingForbidden, db)
    /\ exists inv db',
         respondToInvitation now reqUser id (Some "accepted") db
         = (Ok (RespondOk inv
                  (withParticipants meeting
                     (m_participants meeting
                      ++ [mkParticipant (Some (u_id reqUser))
                            (Js.toLowerCase (u_email reqUser)) accepted
                            (Some now)]))), db')
         /\ getMeeting reqUser id db'
            = (Ok (MeetingOk
                     (withParticipants meeting
                        (m_participants meeting
                         ++ [mkParticipant (Some (u_id reqUser))
                               (Js.toLowerCase (u_email reqUser)) accepted
                               (Some now)]))), db').
Proof.
  intros now reqUser id db meeting Hnone Hm Hv Ht Hhost Hps Hinv.
  assert (Hid : m_id meeting = id)
    by (apply find_id_eq with (l := meetings db); exact Hm).
  apply Nat.eqb_neq in Hhost.
  assert (Hnp : existsb (isUserEntry reqUser) (m_participants meeting) = false).
  { destruct (existsb _ (m_participants meeting)) eqn:E; [|reflexivity].
    apply existsb_exists in E. destruct E as (p & Hin & Hp).
    unfold isUserEntry in Hp. destruct (p_userId p) as [u|] eqn:Eu;
      [|discriminate].
    cbn in Hp. apply Nat.eqb_eq in Hp. subst u.
    destruct (Hps p Hin) as [Hc _]. congruence. }
  split.
  { unfold getMeeting, bind, get, ret. rewrite Hm. cbn [toStringEq].
    rewrite Hhost, Hnp. reflexivity. }
  set (inv := mkInvitation (newObjectId (map i_id (invitations db)))
                (m_id meeting) (Some (u_id reqUser))
                (Js.toLowerCase (u_email reqUser)) pending).
  set (db0 := setInvitations db (invitations db ++ [inv])).
  assert (Hens : ensureInvitationExists (m_id meeting) (u_id reqUser)
                   (u_email reqUser) db = (Ok inv, db0)).
  { unfold ensureInvitationExists, bind, get.
    rewrite find_none_forall.
    - unfold MeetingInvitation_create, bind, get, put, ret. rewrite Ht.
      reflexivity.
    - intros i Hi. destruct (Nat.eqb (i_meetingId i) (m_id meeting)) eqn:E;
        [|reflexivity].
      apply Nat.eqb_eq in E. rewrite Hid in E.
      destruct (Hinv i Hi E) as [Hu He]. cbn [andb].
      apply orb_false_iff. split.
      + destruct (i_userId i) as [u|]; [|reflexivity].
        apply Nat.eqb_neq. congruence.
      + apply String.eqb_neq. assumption. }
  assert (Hlook : lookupInvitation reqUser id db = (Ok (inl inv), db0)).
  { unfold lookupInvitation, tryCatch. unfold bind at 1, get at 1.
    rewrite Hnone, Hm. unfold bind at 1. rewrite Hens. reflexivity. }
  assert (Hauth : notAuthorized reqUser inv = false).
  { unfold notAuthorized, inv. cbn. rewrite Nat.eqb_refl. reflexivity. }
  assert (Hti : Js.truthy (i_email inv) = true)
    by (apply truthy_toLowerCase; assumption).
  assert (Hm0 : findMeetingById db0 (i_meetingId inv) = Some meeting).
  { unfold findMeetingById, inv, db0 in *.
    cbn [meetings setInvitations i_meetingId]. rewrite Hid. exact Hm. }
  assert (Hresp : respondedMeeting now reqUser inv accepted meeting
                  = withParticipants meeting
                      (m_participants meeting
                       ++ [mkParticipant (Some (u_id reqUser))
                             (Js.toLowerCase (u_email reqUser)) accepted
                             (Some now)])).
  { unfold respondedMeeting, respondParticipants.
    rewrite findIndex_none_forall; [reflexivity|].
    intros p Hp. destruct (Hps p Hp) as [Hu He].
    apply orb_false_iff. split.
    - destruct (p_userId p) as [u|]; [|reflexivity].
      cbn. apply Nat.eqb_neq. congruence.
    - apply String.eqb_neq. exact He. }
  assert (Hv' : validMeeting (respondedMeeting now reqUser inv accepted meeting)
                = true).
  { unfold respondedMeeting. apply validMeeting_withParticipants; [assumption|].
    apply respondParticipants_valid; [|assumption].
    unfold validMeeting in Hv. apply andb_true_iff in Hv. apply Hv. }
  destruct (@respondToInvitation_run now reqUser id "accepted" accepted db db0
              inv meeting eq_refl Hlook Hauth Hti Hm0 Hv')
    as (db' & Hrun & Hus & Hms & His & _).
  rewrite Hresp in Hrun, Hms.
  exists (withStatus inv accepted), db'. split; [exact Hrun|].
  unfold getMeeting, bind, get, ret.
  assert (Hf' : findMeetingById db' id
                = Some (withParticipants meeting
                          (m_participants meeting
                           ++ [mkParticipant (Some (u_id reqUser))
                                 (Js.toLowerCase (u_email reqUser)) accepted
                                 (Some now)]))).
  { unfold findMeetingById in *. rewrite Hms.
    apply find_replaceMeeting with (m := meeting); [|reflexivity].
    cbn [i_meetingId inv] in Hm0. rewrite Hid in Hm0. exact Hm0. }
  rewrite Hf'. cbn [m_hostId m_participants withParticipants toStringEq].
  rewrite Hhost, existsb_app. cbn [existsb isUserEntry p_userId toStringEq].
  rewrite Nat.eqb_refl, Hnp. reflexivity.
Qed.

Lemma respondToInvitation_grants_access_witness :
  getMeeting asha 10 detectorStore = (Ok MeetingForbidden, detectorStore)
  /\ exists inv db',
       respondToInvitation sampleNow asha 10 (Some "accepted") detectorStore
       = (Ok (RespondOk inv
                (sampleMeeting 10 2 "2025-03-10" "10:00" "11:00"
                   [acceptedEntry bilal;
                    mkParticipant (Some 1%nat) "a@x.com" accepted
                      (Some sampleNow)])), db')
       /\ getMeeting asha 10 db'
          = (Ok (MeetingOk
                   (sampleMeeting 10 2 "2025-03-10" "10:00" "11:00"
                      [acceptedEntry bilal;
                       mkParticipant (Some 1%nat) "a@x.com" accepted
                         (Some sampleNow)])), db').
Proof.
  apply (@respondToInvitation_grants_access sampleNow asha 10 detectorStore
           (sampleMeeting 10 2 "2025-03-10" "10:00" "11:00"
              [acceptedEntry bilal]));
    try reflexivity.
  - discriminate.
  - intros p [<-|[]]. split; discriminate.
  - intros i [].
Defined.
